(** * Court Fetcher API: dataset index, case resolver and lookup service

    A shallow embedding of [app.py]: the NDAP dataset loader
    ([_load_ndap_datasets]), the resolver ([_dataset_lookup_by_case] with
    [_best_parties_from_row]), the field-completion pass
    ([_ensure_min_fields], [_as_error]) and the two handlers
    [lookup_case] and [dl_file].

    Conventions of the embedding:
    - Python [str] is [string]; the string methods used by the source
      ([strip], [lower], [upper], [title], [split], [int(...)]) are given for
      code points below 256, which is all the source's own literals use.
    - Python [int] is [Z]. The conversions between [int] and [str] refuse
      more than 4300 digits (CPython's default [int_max_str_digits]):
      [PyStr.to_int] gives [None] beyond it, and [PyStr.of_Z] is the decimal
      numeral of an [int] within it (see [PyStr.within_limit]).
    - A [DataFrame] lists its rows with their index labels, as
      [df.iterrows()] yields them. A label is an [int] or a value that is no
      number (a [str], a tuple); labels that are floats or booleans are not
      covered.
    - A Python [dict] whose order is observable (a CSV row, a case record) is
      an association list in insertion order with unique keys; the three
      module-level tables, which the source only reads through [get], [in] and
      [len], are [gmap]s.
    - The module globals are passed explicitly: the tables as [Tables], the
      configuration ([USE_MOCK], [OVERRIDE_CASES], the optional scraper) as
      [Env].
    - The drawing library and the query log are external collaborators: a
      handler returns, as a list of [Effect]s, the PDF files it writes (by
      their title and [label: value] lines) and the log row it adds. *)

From Stdlib Require Import ZArith List String Ascii Decimal DecimalString.
From Stdlib Require DecimalPos DecimalZ.
From stdpp Require Import gmap strings list fin_maps.
From stdpp Require Import sorting.

Set Warnings "-register-all".

Local Open Scope string_scope.
Local Open Scope Z_scope.

(** ** Python strings *)

Module PyStr.

Definition code (c : ascii) : N := N_of_ascii c.

(** [str.isspace] on one code point below 256. *)
Definition is_space (c : ascii) : bool :=
  let n := code c in
  ((9 <=? n) && (n <=? 13) || (28 <=? n) && (n <=? 32)
   || (n =? 133) || (n =? 160))%N.

Definition is_lower (c : ascii) : bool := ((97 <=? code c) && (code c <=? 122))%N.
Definition is_upper (c : ascii) : bool := ((65 <=? code c) && (code c <=? 90))%N.
Definition is_cased (c : ascii) : bool := is_lower c || is_upper c.
Definition is_digit (c : ascii) : bool := ((48 <=? code c) && (code c <=? 57))%N.

Definition to_upper (c : ascii) : ascii :=
  if is_lower c then ascii_of_N (code c - 32) else c.
Definition to_lower (c : ascii) : ascii :=
  if is_upper c then ascii_of_N (code c + 32) else c.

Fixpoint upper (s : string) : string :=
  match s with
  | EmptyString => EmptyString
  | String c r => String (to_upper c) (upper r)
  end.

Fixpoint lower (s : string) : string :=
  match s with
  | EmptyString => EmptyString
  | String c r => String (to_lower c) (lower r)
  end.

(** [str.title]: a cased character is upper-cased when the previous
    character is not cased, lower-cased otherwise. *)
Fixpoint title_from (prev_cased : bool) (s : string) : string :=
  match s with
  | EmptyString => EmptyString
  | String c r =>
      String (if prev_cased then to_lower c else to_upper c)
             (title_from (is_cased c) r)
  end.
Definition title (s : string) : string := title_from false s.

(** Dropping the leading characters that satisfy [sp]. *)
Fixpoint lstrip_by (sp : ascii -> bool) (s : string) : string :=
  match s with
  | EmptyString => EmptyString
  | String c r => if sp c then lstrip_by sp r else s
  end.

(** Dropping the trailing characters that satisfy [sp]. *)
Fixpoint rstrip_by (sp : ascii -> bool) (s : string) : string :=
  match s with
  | EmptyString => EmptyString
  | String c r =>
      match rstrip_by sp r with
      | EmptyString => if sp c then EmptyString else String c EmptyString
      | r' => String c r'
      end
  end.

Definition lstrip (s : string) : string := lstrip_by is_space s.
Definition rstrip (s : string) : string := rstrip_by is_space s.

(** [str.strip()] *)
Definition strip (s : string) : string := rstrip (lstrip s).

Definition startswith (s p : string) : bool := String.prefix p s.

Definition endswith (s p : string) : bool :=
  let n := String.length s in
  let m := String.length p in
  (m <=? n)%nat && String.eqb (String.substring (n - m) m s) p.

(** [needle in s]. *)
Fixpoint contains (needle s : string) : bool :=
  String.prefix needle s ||
  match s with
  | EmptyString => false
  | String _ r => contains needle r
  end.

(** [s.split(sep)[0]] for a one-character separator. *)
Fixpoint split_first (sep : ascii) (s : string) : string :=
  match s with
  | EmptyString => EmptyString
  | String c r => if Ascii.eqb c sep then EmptyString else String c (split_first sep r)
  end.

(** [s.split(sep)[-1]] for a one-character separator. *)
Fixpoint split_last (sep : ascii) (s : string) : string :=
  match s with
  | EmptyString => EmptyString
  | String c r =>
      if contains (String sep EmptyString) r then split_last sep r
      else if Ascii.eqb c sep then r
      else s
  end.

(** The decimal numeral of [z]. *)
Definition of_Z (z : Z) : string := NilZero.string_of_int (Z.to_int z).

(** [sys.get_int_max_str_digits()], as CPython sets it by default. *)
Definition max_str_digits : nat := 4300.

(** [z] has at most [max_str_digits] digits. For such a [z], [str(z)] and
    [f"{z}"] are [of_Z z]; for any other they raise [ValueError]. *)
Definition within_limit (z : Z) : bool :=
  (String.length (of_Z (Z.abs z)) <=? max_str_digits)%nat.

(** The white space that [int(...)] skips at both ends of its argument:
    the characters of [str.isspace] other than U+001C to U+001F. *)
Definition is_int_space (c : ascii) : bool :=
  let n := code c in
  ((9 <=? n) && (n <=? 13) || (n =? 32) || (n =? 133) || (n =? 160))%N.

(** The number of digit characters of [s]. *)
Fixpoint count_digits (s : string) : nat :=
  match s with
  | EmptyString => 0
  | String c r => if is_digit c then S (count_digits r) else count_digits r
  end.

(** The digits of [int(...)]: decimal digits, single underscores allowed
    between two digits. [prev_digit] says whether the previous character
    was a digit. *)
Fixpoint int_digits (prev_digit : bool) (acc : Z) (s : string) : option Z :=
  match s with
  | EmptyString => if prev_digit then Some acc else None
  | String c r =>
      if is_digit c then int_digits true (10 * acc + Z.of_N (code c - 48)) r
      else if Ascii.eqb c "_" && prev_digit then int_digits false acc r
      else None
  end.

(** The unsigned part of the argument of [int(...)]: more than
    [max_str_digits] digits are refused. *)
Definition int_literal (s : string) : option Z :=
  if (count_digits s <=? max_str_digits)%nat then int_digits false 0 s else None.

(** [int(s)] in base 10; [None] stands for [ValueError]. *)
Definition to_int (s : string) : option Z :=
  match rstrip_by is_int_space (lstrip_by is_int_space s) with
  | String "-" r => Z.opp <$> int_literal r
  | String "+" r => int_literal r
  | r => int_literal r
  end.

End PyStr.

(** ** Python values and dictionaries *)

Inductive pyval : Type :=
| VNone
| VBool (b : bool)
| VInt (z : Z)
| VStr (s : string)
| VList (l : list pyval)
| VDict (d : list (string * pyval)).

Abbreviation pydict := (list (string * pyval)).

(** Truth value of an object, as [if x], [not x] and [x or y] use it. *)
Definition truthy (v : pyval) : bool :=
  match v with
  | VNone => false
  | VBool b => b
  | VInt z => negb (z =? 0)
  | VStr s => negb (String.eqb s "")
  | VList l => match l with [] => false | _ => true end
  | VDict d => match d with [] => false | _ => true end
  end.

Section Dict.
Context {V : Type}.

(** [d.get(k)] *)
Fixpoint dict_get (d : list (string * V)) (k : string) : option V :=
  match d with
  | [] => None
  | (k', v) :: d' => if String.eqb k' k then Some v else dict_get d' k
  end.

(** [d[k] = v]: an existing key keeps its position. *)
Fixpoint dict_set (d : list (string * V)) (k : string) (v : V) : list (string * V) :=
  match d with
  | [] => [(k, v)]
  | (k', v') :: d' =>
      if String.eqb k' k then (k', v) :: d' else (k', v') :: dict_set d' k v
  end.

(** [d.setdefault(k, v)], as a statement: the dict afterwards. *)
Definition setdefault (d : list (string * V)) (k : string) (v : V) : list (string * V) :=
  match dict_get d k with
  | Some _ => d
  | None => dict_set d k v
  end.
End Dict.

(** ** Exceptions *)

(** The exceptions that leave a function of the source. *)
Inductive exn : Type :=
| HTTPException (status_code : Z) (detail : string)
| AttributeError
| TypeError.

(** The outcome of a call: a value, or an exception raised. *)
Inductive result (A : Type) : Type :=
| Ok (a : A)
| Raise (e : exn).
Arguments Ok {A} a.
Arguments Raise {A} e.

(** ** Record helpers *)

Definition _as_error (msg : string) (where_ : string) : pydict :=
  [ ("parties", VStr "N/A"); ("filing_date", VStr "N/A"); ("next_hearing", VStr "N/A");
    ("status", VStr "Error");
    ("error", VDict [("where", VStr where_); ("message", VStr msg)]);
    ("raw_source", VDict [("url", VStr "")]) ].

Definition _ensure_min_fields (details : pyval) : pydict :=
  let details :=
    match details with
    | VDict (e :: d) => e :: d
    | _ => _as_error "Empty response" "server"
    end in
  let details := setdefault details "parties" (VStr "N/A") in
  let details := setdefault details "filing_date" (VStr "N/A") in
  let details := setdefault details "next_hearing" (VStr "N/A") in
  let details := setdefault details "status" (VStr "N/A") in
  let details := setdefault details "raw_source" (VDict [("url", VStr "")]) in
  details.


(** ** Configuration and module-level tables *)

Definition DATASET_DIRS : list string := ["dataset"; "archive"; "archive(1)"].

(** A row label of a frame, as [df.iterrows()] yields it: an [int], or a
    value that is no number, such as a [str] or the tuple of a [MultiIndex],
    given by its text. *)
Inductive label : Type :=
| LInt (z : Z)
| LText (s : string).

#[global] Instance label_eq_dec : EqDecision label.
Proof. solve_decision. Defined.

#[global] Instance label_countable : Countable label.
Proof.
  refine (inj_countable'
            (fun l => match l with LInt z => inl z | LText s => inr s end)
            (fun x => match x with inl z => LInt z | inr s => LText s end) _).
  intros []; reflexivity.
Defined.

(** One value of [DATASET_ROWS]: the dict
    [{"dataset_code", "row_index", "data", "year_col"}]. *)
Record RowEntry : Type := {
  dataset_code : Z;
  row_index : label;
  data : list (string * string);
  year_col : option string
}.

(** The tables [_load_ndap_datasets] declares [global]. A key of
    [DATASET_ROWS] is a code and a row label; [CASE_INDEX] is written only
    after [code + idx] succeeded, so its keys and values hold [int]s. *)
Record Tables : Type := {
  DATASET_ROWS : gmap (Z * label) RowEntry;
  CASE_INDEX : gmap Z (Z * Z);
  DATASET_SUMMARY : gmap Z Z;
  SCANNED_DIRS : list string
}.

Definition set_rows (f : gmap (Z * label) RowEntry -> gmap (Z * label) RowEntry) (t : Tables)
    : Tables :=
  {| DATASET_ROWS := f (DATASET_ROWS t); CASE_INDEX := CASE_INDEX t;
     DATASET_SUMMARY := DATASET_SUMMARY t; SCANNED_DIRS := SCANNED_DIRS t |}.
Definition set_index (f : gmap Z (Z * Z) -> gmap Z (Z * Z)) (t : Tables) : Tables :=
  {| DATASET_ROWS := DATASET_ROWS t; CASE_INDEX := f (CASE_INDEX t);
     DATASET_SUMMARY := DATASET_SUMMARY t; SCANNED_DIRS := SCANNED_DIRS t |}.
Definition set_summary (f : gmap Z Z -> gmap Z Z) (t : Tables) : Tables :=
  {| DATASET_ROWS := DATASET_ROWS t; CASE_INDEX := CASE_INDEX t;
     DATASET_SUMMARY := f (DATASET_SUMMARY t); SCANNED_DIRS := SCANNED_DIRS t |}.
Definition set_scanned (dirs : list string) (t : Tables) : Tables :=
  {| DATASET_ROWS := DATASET_ROWS t; CASE_INDEX := CASE_INDEX t;
     DATASET_SUMMARY := DATASET_SUMMARY t; SCANNED_DIRS := dirs |}.

(** ** The file system and pandas, as the loader sees them *)

(** A cell of a parsed CSV: [None] when [pd.isna] holds of it, otherwise
    its [str(...)]. *)
Abbreviation cell := (option string) (only parsing).

(** A [DataFrame]: the column labels and the rows in order, each row with
    its index label and its cells column by column. [pd.read_csv] labels the
    rows 0, 1, 2, ... when every data line has as many fields as the header;
    when the data lines have one field more, the first field of each line is
    the label of its row. *)
Record DataFrame : Type := {
  columns : list string;
  rows : list (label * list cell)
}.

(** The rows [rs] under the labels [start], [start + 1], ... *)
Fixpoint range_from (start : Z) (rs : list (list cell)) : list (label * list cell) :=
  match rs with
  | [] => []
  | row :: rest => (LInt start, row) :: range_from (start + 1) rest
  end.

(** The rows [rs] under the default [RangeIndex]. *)
Definition range_index (rs : list (list cell)) : list (label * list cell) :=
  range_from 0 rs.

(** What [pd.read_csv] does on a path: raise, or return a frame. *)
Inductive read_result : Type :=
| ReadError
| Frame (df : DataFrame).

(** A directory: its entries in the order the file system enumerates them,
    each with what reading it as CSV gives. *)
Abbreviation Directory := (list (string * read_result)).

(** [fs d] is [Some entries] when [os.path.isdir(d)]. *)
Abbreviation FileSystem := (string -> option Directory).

Definition _scan_dirs (fs : FileSystem) : list string :=
  List.filter (fun d => match fs d with Some _ => true | None => false end) DATASET_DIRS.

(** [fnmatch] of a file name against ["NDAP_REPORT_*.csv"]. *)
Definition glob_match (fname : string) : bool :=
  PyStr.startswith fname "NDAP_REPORT_" && PyStr.endswith fname ".csv"
  && (16 <=? String.length fname)%nat.

(** [glob.glob(os.path.join(folder, "NDAP_REPORT_*.csv"))], by base name. *)
Definition glob_reports (fs : FileSystem) (folder : string) : Directory :=
  match fs folder with
  | Some entries => List.filter (fun e => glob_match (fst e)) entries
  | None => []
  end.

(** [int(fname.split("_")[-1].split(".")[0])] *)
Definition parse_code (fname : string) : option Z :=
  PyStr.to_int (PyStr.split_first "." (PyStr.split_last "_" fname)).

(** [df.empty]: some axis has length 0. *)
Definition df_empty (df : DataFrame) : bool :=
  match rows df, columns df with
  | [], _ | _, [] => true
  | _, _ => false
  end.

(** [len(df)] *)
Definition df_len (df : DataFrame) : Z := Z.of_nat (List.length (rows df)).

(** [row[c]]: the cell of [row] under the label [c]. *)
Definition row_at (cols : list string) (row : list cell) (c : string) : cell :=
  match dict_get (combine cols row) c with
  | Some x => x
  | None => None
  end.

(** [{c: ("" if pd.isna(row[c]) else str(row[c])) for c in cols}] *)
Definition make_row_dict (cols : list string) (row : list cell) : list (string * string) :=
  fold_left
    (fun d c => dict_set d c (match row_at cols row c with None => "" | Some s => s end))
    cols [].

(** [next((c for c in cols if "year" in c.lower()), None)] *)
Definition find_year_col (cols : list string) : option string :=
  List.find (fun c => PyStr.contains "year" (PyStr.lower c)) cols.

(** ** The dataset loader *)

(** [idx == 0] *)
Definition label_is_zero (idx : label) : bool :=
  match idx with
  | LInt z => z =? 0
  | LText _ => false
  end.

(** The loop [for idx, row in df.iterrows()]: the tables afterwards, and
    whether the loop ran to its end or raised. [code + idx] is the sum of
    two [int]s, or the [TypeError] of adding something that is no number to
    an [int]; the row is stored by then. *)
Fixpoint load_rows (code : Z) (cols : list string) (ycol : option string)
    (rs : list (label * list cell)) (t : Tables) : Tables * result unit :=
  match rs with
  | [] => (t, Ok tt)
  | (idx, row) :: rest =>
      let row_dict := make_row_dict cols row in
      let t := set_rows (insert (code, idx)
                 {| dataset_code := code; row_index := idx;
                    data := row_dict; year_col := ycol |}) t in
      let t := if label_is_zero idx then set_index (insert code (code, 0)) t else t in
      match idx with
      | LInt z =>
          let t := set_index (insert (code + z) (code, z)) t in
          load_rows code cols ycol rest t
      | LText _ => (t, Raise TypeError)
      end
  end.

(** One iteration of the loop over report paths. The state is the tables
    and the running [total]; once an exception is raised, no further
    iteration runs. *)
Definition load_file (st : Tables * result Z) (entry : string * read_result)
    : Tables * result Z :=
  match st with
  | (_, Raise _) => st
  | (t, Ok total) =>
      match parse_code (fst entry) with
      | None => st
      | Some code =>
          match snd entry with
          | ReadError => st
          | Frame df =>
              if df_empty df then st
              else
                let t := set_summary (insert code (df_len df)) t in
                let total := total + df_len df in
                let cols := columns df in
                let ycol := find_year_col cols in
                match load_rows code cols ycol (rows df) t with
                | (t, Ok _) => (t, Ok total)
                | (t, Raise e) => (t, Raise e)
                end
          end
      end
  end.

Definition load_folder (fs : FileSystem) (st : Tables * result Z) (folder : string)
    : Tables * result Z :=
  fold_left load_file (glob_reports fs folder) st.

(** [_load_ndap_datasets]: the tables afterwards, and the returned total or
    the exception raised. *)
Definition _load_ndap_datasets (fs : FileSystem) (t : Tables) : Tables * result Z :=
  let t := {| DATASET_ROWS := ∅; CASE_INDEX := ∅; DATASET_SUMMARY := ∅;
              SCANNED_DIRS := SCANNED_DIRS t |} in
  let t := set_scanned (_scan_dirs fs) t in
  let total := 0 in
  fold_left (load_folder fs) (SCANNED_DIRS t) (t, Ok total).

(** ** The resolver *)

(** [a or b] on the results of [data.get]: [a] when it is a non-empty
    string, [b] otherwise. *)
Definition str_or (a b : option string) : option string :=
  match a with
  | Some s => if String.eqb s "" then b else a
  | None => b
  end.

(** [str(a or word).strip()] *)
Definition side (a : option string) (word : string) : string :=
  match str_or a (Some word) with
  | Some s => PyStr.strip s
  | None => PyStr.strip word
  end.

(** [data.get(key) or data.get(key.title()) or data.get(key.upper())] *)
Definition get_variants (data : list (string * string)) (key : string) : option string :=
  str_or (dict_get data key)
         (str_or (dict_get data (PyStr.title key)) (dict_get data (PyStr.upper key))).

Definition title_keys : list string :=
  ["case_title"; "title"; "parties"; "case name"; "case_name"].

(** The loop over the direct title keys: [Some] is its [return]. *)
Fixpoint title_loop (data : list (string * string)) (keys : list string) : option string :=
  match keys with
  | [] => None
  | key :: rest =>
      match get_variants data key with
      | Some v =>
          if negb (String.eqb v "") && negb (String.eqb (PyStr.strip v) "")
          then Some (PyStr.strip v)
          else title_loop data rest
      | None => title_loop data rest
      end
  end.

Definition str_truthy (a : option string) : bool :=
  match a with
  | Some s => negb (String.eqb s "")
  | None => false
  end.

Definition _best_parties_from_row (data : list (string * string)) : option string :=
  match data with
  | [] => None
  | _ =>
      match title_loop data title_keys with
      | Some t => Some t
      | None =>
          let pet := str_or (dict_get data "petitioner")
                       (str_or (dict_get data "Petitioner") (dict_get data "PETITIONER")) in
          let res := str_or (dict_get data "respondent")
                       (str_or (dict_get data "Respondent") (dict_get data "RESPONDENT")) in
          if str_truthy pet || str_truthy res
          then Some (side pet "Petitioner" +:+ " vs " +:+ side res "Respondent")
          else
            let pl := str_or (dict_get data "plaintiff")
                        (str_or (dict_get data "Plaintiff") (dict_get data "PLAINTIFF")) in
            let df := str_or (dict_get data "defendant")
                        (str_or (dict_get data "Defendant") (dict_get data "DEFENDANT")) in
            if str_truthy pl || str_truthy df
            then Some (side pl "Plaintiff" +:+ " vs " +:+ side df "Defendant")
            else None
      end
  end.

(** [(x) or "N/A"] and the like, for the result of [data.get]. *)
Definition or_default (a : option string) (dflt : string) : string :=
  match str_or a (Some dflt) with
  | Some s => s
  | None => dflt
  end.

(** The record derived from a row, steps 2 of [_dataset_lookup_by_case]
    after the index lookup gave [(code, idx)]. *)
Definition dataset_record (rows_tbl : gmap (Z * label) RowEntry) (code idx : Z) : pydict :=
  let row := rows_tbl !! (code, LInt idx) in
  let data := match row with Some r => data r | None => [] end in
  let ycol := match row with Some r => year_col r | None => None end in
  let parties_name :=
    match _best_parties_from_row data with
    | Some p => if String.eqb p "" then "Case " +:+ PyStr.of_Z code +:+ "-" +:+ PyStr.of_Z idx
                else p
    | None => "Case " +:+ PyStr.of_Z code +:+ "-" +:+ PyStr.of_Z idx
    end in
  let result :=
    [ ("parties", VStr parties_name);
      ("filing_date",
         VStr (or_default (if str_truthy ycol
                           then match ycol with Some y => dict_get data y | None => None end
                           else Some "N/A") "N/A"));
      ("next_hearing", VStr (or_default (dict_get data "next_hearing") "N/A"));
      ("status", VStr (or_default (dict_get data "status") "From NDAP Dataset"));
      ("raw_source", VDict [("url", VStr "https://ndap.niti.gov.in")]) ] in
  dict_set result "sample_data"
    (VDict (List.map (fun kv => (fst kv, VStr (snd kv))) (firstn 5 data))).

(** [_dataset_lookup_by_case]; the override table is the module constant
    [OVERRIDE_CASES], passed in. *)
Definition _dataset_lookup_by_case (overrides : gmap Z pydict) (t : Tables)
    (case_number : Z) : option pydict :=
  match overrides !! case_number with
  | Some rec => Some rec
  | None =>
      match CASE_INDEX t !! case_number with
      | None => None
      | Some (code, idx) => Some (dataset_record (DATASET_ROWS t) code idx)
      end
  end.

(** The table as the source ships it. *)
Definition OVERRIDE_CASES : gmap Z pydict :=
  {[ 8152 :=
       [ ("parties", VStr "Alice Sharma vs State of Odisha");
         ("filing_date", VStr "2020");
         ("next_hearing", VStr "2025-11-15");
         ("status", VStr "Disposed");
         ("raw_source", VDict [("url", VStr "https://ndap.niti.gov.in")]);
         ("sample_data",
            VDict [ ("Rowid", VStr "4"); ("Country", VStr "India");
                    ("State lgd code", VStr "21"); ("State", VStr "Odisha");
                    ("Year", VStr "2020"); ("Sector", VStr "Agriculture");
                    ("District", VStr "Khordha"); ("Gender", VStr "Male");
                    ("Category", VStr "Rural") ]) ] ]}.

(** ** The handlers *)

(** The validated body of [POST /cases/lookup]. The body is read with
    [json.loads], whose [int] refuses numerals beyond the digit limit, so a
    [case_number] that reaches the handler is within it. *)
Record CaseQuery : Type := {
  case_type : string;
  case_number : Z;
  year : Z;
  court_level : string
}.

(** The [Field(...)] constraints, which the framework checks before the
    handler runs. *)
Definition valid_query (q : CaseQuery) : bool :=
  (1 <=? String.length (case_type q))%nat && (0 <? case_number q)
  && (1950 <=? year q) && (year q <=? 2100)
  && (1 <=? String.length (court_level q))%nat.

(** What a call of the optional scraper does: return an object or raise an
    [Exception] whose [str] is [msg]. *)
Inductive fetch_outcome : Type :=
| Returns (v : pyval)
| Raises (msg : string).

(** The configuration and the surroundings of a request: the [USE_MOCK]
    flag, the override table, the imported scraper ([None] when the import
    failed), whether the ReportLab import succeeded, and [os.path.exists]. *)
Record Env : Type := {
  USE_MOCK : bool;
  overrides : gmap Z pydict;
  fetch_case_details : option (string -> Z -> Z -> string -> fetch_outcome);
  REPORTLAB_OK : bool;
  path_exists : string -> bool
}.

Definition SHOW_SAMPLE_LINES : bool := true.

(** The row added to the query log; [html_preview] (a prefix of the
    record's [repr]) and [created_at] are left to the log store. *)
Record QueryLog : Type := {
  ql_case_type : string;
  ql_case_number : Z;
  ql_year : Z;
  ql_court_level : string;
  ql_status : string;
  ql_source_url : pyval
}.

(** What a PDF file shows: the title alone on the fallback path, the title
    and the [kv] lines on the ReportLab path. A line is its label and the
    object whose [str] follows it; where a line breaks and a page ends is the
    drawing library's business. *)
Inductive Pdf : Type :=
| FallbackPdf (title : string)
| DetailPdf (title : string) (lines : list (string * pyval)).

(** What a handler does to the file system and the log store, in order. *)
Inductive Effect : Type :=
| WritePdf (path : string) (doc : Pdf)
| LogQuery (entry : QueryLog).

Record Document : Type := {
  kind : string;
  file_name : string;
  download_url : string
}.

Record LookupResponse : Type := {
  input : CaseQuery;
  parsed : pydict;
  source : option string;
  documents : list Document
}.

Record FileResponse : Type := {
  fr_path : string;
  fr_media_type : string;
  fr_filename : string;
  fr_headers : list (string * string)
}.

(** [kv(lbl, val)]: ["N/A"] stands in when [val in (None, '')]. *)
Definition kv (lbl : string) (val : option pyval) : string * pyval :=
  (lbl, match val with
        | None | Some VNone => VStr "N/A"
        | Some (VStr s) => if String.eqb s "" then VStr "N/A" else VStr s
        | Some v => v
        end).

(** [x or {}] *)
Definition or_empty_dict (x : option pyval) : pyval :=
  match x with
  | Some v => if truthy v then v else VDict []
  | None => VDict []
  end.

(** [_create_pdf_with_details]: the file written, or the [AttributeError]
    of calling [get] or [items] on something that is not a dict. *)
Definition _create_pdf_with_details (reportlab_ok : bool) (path title : string)
    (details : pydict) : result Effect :=
  if negb reportlab_ok then Ok (WritePdf path (FallbackPdf title))
  else
    let fields :=
      [ kv "Parties" (dict_get details "parties");
        kv "Filing Date" (dict_get details "filing_date");
        kv "Next Hearing" (dict_get details "next_hearing");
        kv "Status" (dict_get details "status") ] in
    match or_empty_dict (dict_get details "raw_source") with
    | VDict rs =>
        let src := match dict_get rs "url" with Some u => u | None => VStr "" end in
        let source_line := if truthy src then [kv "Source" (Some src)] else [] in
        let sample := or_empty_dict (dict_get details "sample_data") in
        if SHOW_SAMPLE_LINES && truthy sample then
          match sample with
          | VDict items =>
              Ok (WritePdf path
                    (DetailPdf title
                       (fields ++ source_line
                        ++ List.map (fun e => kv (fst e) (Some (snd e))) (firstn 12 items))%list))
          | _ => Raise AttributeError
          end
        else Ok (WritePdf path (DetailPdf title (fields ++ source_line)%list))
    | _ => Raise AttributeError
    end.

(** [if not details], for the resolver's [Optional[dict]]. *)
Definition no_details (details : option pydict) : bool :=
  match details with
  | Some (_ :: _) => false
  | _ => true
  end.

Definition is_dict (v : pyval) : bool :=
  match v with VDict _ => true | _ => false end.

(** [v != "Error"] *)
Definition differs_from_str (v : option pyval) (s : string) : bool :=
  match v with
  | Some (VStr s') => negb (String.eqb s' s)
  | _ => true
  end.

(** The mock record of [lookup_case]. *)
Definition lookup_mock (q : CaseQuery) : pydict :=
  [ ("parties", VStr (case_type q +:+ " Demo: Alice vs Bob"));
    ("filing_date", VStr "2023-07-18");
    ("next_hearing", VStr "2025-10-10");
    ("status", VStr "Listed");
    ("raw_source", VDict [("url", VStr "https://services.ecourts.gov.in")]) ].

(** The mock record of [dl_file]. *)
Definition download_mock : pydict :=
  [ ("parties", VStr "CIVIL Demo: Alice vs Bob");
    ("filing_date", VStr "2023-07-18");
    ("next_hearing", VStr "2025-10-10");
    ("status", VStr "Listed");
    ("raw_source", VDict [("url", VStr "https://services.ecourts.gov.in")]) ].

(** Lines 299-320 of [lookup_case]: the record before field completion and
    the [source_kind]. *)
Definition lookup_details (env : Env) (t : Tables) (q : CaseQuery) : pyval * option string :=
  let details := _dataset_lookup_by_case (overrides env) t (case_number q) in
  let source_kind := if no_details details then None else Some "dataset" in
  if no_details details then
    if USE_MOCK env then (VDict (lookup_mock q), Some "mock")
    else
      let details :=
        match fetch_case_details env with
        | None => VDict (_as_error "scraper not available" "import")
        | Some fetch =>
            match fetch (case_type q) (case_number q) (year q) (court_level q) with
            | Returns d =>
                if is_dict d && truthy d then d
                else VDict (_as_error "Unexpected scraper response" "scraper")
            | Raises msg => VDict (_as_error msg "exception")
            end
        end in
      (details, Some "live")
  else
    (match details with Some d => VDict d | None => VNone end, source_kind).

(** [details.get("raw_source",{}).get("url","")] *)
Definition source_url_of (details : pydict) : result pyval :=
  match dict_get details "raw_source" with
  | None => Ok (VStr "")
  | Some (VDict rs) => Ok (match dict_get rs "url" with Some u => u | None => VStr "" end)
  | Some _ => Raise AttributeError
  end.

Definition lookup_case (env : Env) (t : Tables) (q : CaseQuery)
    : result (LookupResponse * list Effect) :=
  let '(details, source_kind) := lookup_details env t q in
  let details := _ensure_min_fields details in
  let j_name := "judgment_" +:+ PyStr.of_Z (case_number q) +:+ ".pdf" in
  let j_path := "downloads/" +:+ j_name in
  match _create_pdf_with_details (REPORTLAB_OK env) j_path
          ("Judgment for " +:+ PyStr.of_Z (case_number q)) details with
  | Raise e => Raise e
  | Ok render_j =>
      let c_name := "cause_list_demo.pdf" in
      let c_path := "downloads/" +:+ c_name in
      match (if negb (path_exists env c_path)
             then match _create_pdf_with_details (REPORTLAB_OK env) c_path "Cause List Demo"
                          [("status", VStr "Generated");
                           ("raw_source", VDict [("url", VStr "https://example.invalid")])] with
                  | Ok render_c => Ok [render_c]
                  | Raise e => Raise e
                  end
             else Ok []) with
      | Raise e => Raise e
      | Ok render_c =>
          let status_flag :=
            if differs_from_str (dict_get details "status") "Error" then "ok" else "error" in
          match source_url_of details with
          | Raise e => Raise e
          | Ok url =>
              let entry := {| ql_case_type := case_type q; ql_case_number := case_number q;
                              ql_year := year q; ql_court_level := court_level q;
                              ql_status := status_flag; ql_source_url := url |} in
              Ok ({| input := q; parsed := details; source := source_kind;
                     documents :=
                       [ {| kind := "judgment"; file_name := j_name;
                            download_url := "/dl/file/" +:+ j_name |};
                         {| kind := "cause_list"; file_name := c_name;
                            download_url := "/dl/file/" +:+ c_name |} ] |},
                  (render_j :: render_c ++ [LogQuery entry])%list)
          end
      end
  end.

(** [int(fname[len("judgment_"):-4])] for a name that starts with
    ["judgment_"] and ends with [".pdf"]. *)
Definition judgment_number (fname : string) : option Z :=
  PyStr.to_int (String.substring 9 (String.length fname - 13) fname).

Definition no_cache_headers : list (string * string) :=
  [ ("Cache-Control", "no-store, no-cache, must-revalidate, max-age=0");
    ("Pragma", "no-cache"); ("Expires", "0") ].

Definition dl_file (env : Env) (t : Tables) (fname : string)
    : result (FileResponse * list Effect) :=
  let path := "downloads/" +:+ fname in
  let response := {| fr_path := path; fr_media_type := "application/pdf";
                     fr_filename := fname; fr_headers := no_cache_headers |} in
  if PyStr.startswith fname "judgment_" && PyStr.endswith fname ".pdf" then
    match judgment_number fname with
    | None => Raise (HTTPException 400 "Bad judgment file name")
    | Some num =>
        let details := _dataset_lookup_by_case (overrides env) t num in
        let details :=
          if no_details details then
            if USE_MOCK env then download_mock
            else _as_error "No dataset/mocked details available" "server"
          else match details with Some d => d | None => [] end in
        match _create_pdf_with_details (REPORTLAB_OK env) path
                ("Judgment for " +:+ PyStr.of_Z num) details with
        | Raise e => Raise e
        | Ok render => Ok (response, [render])
        end
    end
  else if String.eqb fname "cause_list_demo.pdf" && negb (path_exists env path) then
    match _create_pdf_with_details (REPORTLAB_OK env) path "Cause List Demo"
            [("status", VStr "Generated")] with
    | Raise e => Raise e
    | Ok render => Ok (response, [render])
    end
  else if negb (path_exists env path) then
    Raise (HTTPException 404 "File not found")
  else Ok (response, []).

(** [POST /admin/dataset/reload]: the tables afterwards, and the [rows]
    and [datasets] members of the reply. *)
Definition reload_dataset (fs : FileSystem) (t : Tables)
    : Tables * result (Z * gmap Z Z) :=
  match _load_ndap_datasets fs t with
  | (t', Ok count) => (t', Ok (count, DATASET_SUMMARY t'))
  | (t', Raise e) => (t', Raise e)
  end.

(** ** Vocabulary of the specification *)

(** The datasets an index build takes in, in scan order: for every scanned
    folder, every report whose code parses, that reads as CSV and is not
    empty. *)
Definition parsed_entry (entry : string * read_result) : option (Z * DataFrame) :=
  match parse_code (fst entry), snd entry with
  | Some code, Frame df => if df_empty df then None else Some (code, df)
  | _, _ => None
  end.

Definition parsed_datasets (fs : FileSystem) : list (Z * DataFrame) :=
  flat_map (fun folder => omap parsed_entry (glob_reports fs folder)) (_scan_dirs fs).

(** What the loader stores for a row of a dataset with the label [l]. *)
Definition row_entry (code : Z) (df : DataFrame) (l : label) (row : list cell) : RowEntry :=
  {| dataset_code := code; row_index := l;
     data := make_row_dict (columns df) row;
     year_col := find_year_col (columns df) |}.

(** The row labels of a frame, in order. *)
Definition labels (df : DataFrame) : list label := List.map fst (rows df).

(** A label is an [int], so that [code + idx] is defined. *)
Definition is_int (l : label) : bool :=
  match l with
  | LInt _ => true
  | LText _ => false
  end.

(** Every row label of every dataset of the list is an [int]. *)
Definition int_labelled (ds : list (Z * DataFrame)) : bool :=
  forallb (fun d => forallb is_int (labels (snd d))) ds.

(** The frame has the default labels 0, 1, 2, ... *)
Definition default_index (df : DataFrame) : Prop :=
  rows df = range_index (List.map snd (rows df)).

(** The row of [rs] that the row loop leaves under the label [l]: the last
    one with this label. *)
Fixpoint stored_row (l : label) (rs : list (label * list cell)) : option (list cell) :=
  match rs with
  | [] => None
  | (l', row) :: rest =>
      match stored_row l rest with
      | Some r => Some r
      | None => if bool_decide (l' = l) then Some row else None
      end
  end.

(** The keys [code + idx] a dataset writes to the case index: [k] is the
    code plus an integer row label. *)
Definition covers (d : Z * DataFrame) (k : Z) : Prop :=
  LInt (k - fst d) ∈ labels (snd d).

#[global] Instance covers_dec (d : Z * DataFrame) (k : Z) : Decision (covers d k).
Proof. unfold covers. apply _. Defined.


(** The sum of [len(df)] over a list of datasets. *)
Definition rows_total (ds : list (Z * DataFrame)) : Z :=
  fold_right (fun d acc => df_len (snd d) + acc) 0 ds.

(** The four canonical fields. *)
Definition canonical_fields : list string :=
  ["parties"; "filing_date"; "next_hearing"; "status"].

(** A key is present with a value other than [None]. *)
Definition non_null (v : option pyval) : bool :=
  match v with
  | None | Some VNone => false
  | Some _ => true
  end.

(** [raw_source.url] is present and not [None]. *)
Definition url_non_null (r : pydict) : bool :=
  match dict_get r "raw_source" with
  | Some (VDict rs) => non_null (dict_get rs "url")
  | _ => false
  end.

(** The output contract of the field-completion pass as the specification
    words it. *)
Definition complete_non_null (r : pydict) : bool :=
  forallb (fun k => non_null (dict_get r k)) canonical_fields && url_non_null r.

(** The defaults of the field-completion pass. *)
Definition min_defaults : pydict :=
  [ ("parties", VStr "N/A"); ("filing_date", VStr "N/A"); ("next_hearing", VStr "N/A");
    ("status", VStr "N/A"); ("raw_source", VDict [("url", VStr "")]) ].

(** The [data] dict the resolver reads for an index entry. *)
Definition row_data (t : Tables) (code idx : Z) : list (string * string) :=
  match DATASET_ROWS t !! (code, LInt idx) with
  | Some r => data r
  | None => []
  end.

(** The three spellings of a column name that the heuristic tries. *)
Definition variants (key : string) : list string :=
  [key; PyStr.title key; PyStr.upper key].

(** The title-like columns in priority order. *)
Definition title_like_columns : list string := flat_map variants title_keys.

(** The first of [cols] that holds a non-empty string. *)
Fixpoint first_non_empty (data : list (string * string)) (cols : list string) : option string :=
  match cols with
  | [] => None
  | c :: rest =>
      match dict_get data c with
      | Some v => if String.eqb v "" then first_non_empty data rest else Some v
      | None => first_non_empty data rest
      end
  end.

(** Priority (a) in the specification's words: the first title-like column
    that is not blank, trimmed. *)
Fixpoint first_title (data : list (string * string)) (cols : list string) : option string :=
  match cols with
  | [] => None
  | c :: rest =>
      match dict_get data c with
      | Some v => if String.eqb (PyStr.strip v) "" then first_title data rest
                  else Some (PyStr.strip v)
      | None => first_title data rest
      end
  end.

(** Priorities (b) and (c): a pair ["A vs B"], the role word standing in
    for a missing side; [None] when both sides are missing. *)
Definition pair_of (data : list (string * string)) (a b word_a word_b : string) : option string :=
  match first_non_empty data (variants a), first_non_empty data (variants b) with
  | None, None => None
  | x, y =>
      Some (PyStr.strip (default word_a x) +:+ " vs " +:+ PyStr.strip (default word_b y))
  end.

(** The parties heuristic as the specification words it. *)
Definition parties_spec (data : list (string * string)) (code idx : Z) : string :=
  match first_title data title_like_columns with
  | Some t => t
  | None =>
      match pair_of data "petitioner" "respondent" "Petitioner" "Respondent" with
      | Some p => p
      | None =>
          match pair_of data "plaintiff" "defendant" "Plaintiff" "Defendant" with
          | Some p => p
          | None => "Case " +:+ PyStr.of_Z code +:+ "-" +:+ PyStr.of_Z idx
          end
      end
  end.

(** A value made of white space only. *)
Definition blank (v : string) : bool :=
  negb (String.eqb v "") && String.eqb (PyStr.strip v) "".

(** A title key is shadowed: the first non-empty one of its three
    spellings holds white space only, while another spelling of the same key
    holds more than that. *)
Definition shadowed (data : list (string * string)) (key : string) : bool :=
  match first_non_empty data (variants key), first_title data (variants key) with
  | Some v, Some _ => blank v
  | _, _ => false
  end.

(** The title key that decides priority (a), which is the first key with
    a spelling that is not blank, is not shadowed. *)
Fixpoint title_unshadowed (data : list (string * string)) (keys : list string) : bool :=
  match keys with
  | [] => true
  | key :: rest =>
      match first_title data (variants key) with
      | Some _ => negb (shadowed data key)
      | None => title_unshadowed data rest
      end
  end.

(** The status rule as the specification words it: the column's value when
    the column is there. *)
Definition status_spec (data : list (string * string)) : string :=
  match dict_get data "status" with
  | Some s => s
  | None => "From NDAP Dataset"
  end.

(** The ways the live tier fails, as [(where, message)] of the error
    record: the scraper is missing, raises, or returns something that is not
    a non-empty dict. *)
Definition live_failure (env : Env) (q : CaseQuery) : option (string * string) :=
  match fetch_case_details env with
  | None => Some ("import", "scraper not available")
  | Some fetch =>
      match fetch (case_type q) (case_number q) (year q) (court_level q) with
      | Raises msg => Some ("exception", msg)
      | Returns d =>
          if is_dict d && truthy d then None
          else Some ("scraper", "Unexpected scraper response")
      end
  end.

(** The tags a response may carry. *)
Definition tier_tags : list string := ["dataset"; "mock"; "live"].

(** The effect of one dataset that passed the loader's three guards: the
    [else] branch of [load_file]. *)
Definition load_dataset (st : Tables * result Z) (d : Z * DataFrame) : Tables * result Z :=
  match st with
  | (_, Raise _) => st
  | (t, Ok total) =>
      match load_rows (fst d) (columns (snd d)) (find_year_col (columns (snd d)))
              (rows (snd d)) (set_summary (insert (fst d) (df_len (snd d))) t) with
      | (t, Ok _) => (t, Ok (total + df_len (snd d)))
      | (t, Raise e) => (t, Raise e)
      end
  end.

(** The tables after the loader took in the dataset [d], up to the row at
    which it raised if it did. *)
Definition dataset_tables (t : Tables) (d : Z * DataFrame) : Tables :=
  fst (load_rows (fst d) (columns (snd d)) (find_year_col (columns (snd d)))
         (rows (snd d)) (set_summary (insert (fst d) (df_len (snd d))) t)).

(** The datasets a build gets to: those up to the first one that has a row
    label which is no number, that one included. *)
Fixpoint reached (ds : list (Z * DataFrame)) : list (Z * DataFrame) :=
  match ds with
  | [] => []
  | d :: rest => if forallb is_int (labels (snd d)) then d :: reached rest else [d]
  end.

(** The tables right after the three [clear()] calls and the assignment of
    [SCANNED_DIRS]. *)
Definition cleared_tables (fs : FileSystem) : Tables :=
  {| DATASET_ROWS := ∅; CASE_INDEX := ∅; DATASET_SUMMARY := ∅;
     SCANNED_DIRS := _scan_dirs fs |}.

(** ** Example inputs *)

(** A table in which the index also has an entry for 8152. *)
Definition shadowed_tables : Tables :=
  {| DATASET_ROWS := {[ (8152, LInt 0) :=
                          {| dataset_code := 8152; row_index := LInt 0;
                             data := [("title", "Someone vs Someone")];
                             year_col := None |} ]};
     CASE_INDEX := {[ 8152 := (8152, 0) ]};
     DATASET_SUMMARY := {[ 8152 := 1 ]};
     SCANNED_DIRS := ["dataset"] |}.

(** The tables before the first index build. *)
Definition empty_tables : Tables :=
  {| DATASET_ROWS := ∅; CASE_INDEX := ∅; DATASET_SUMMARY := ∅; SCANNED_DIRS := [] |}.

(** [dataset/NDAP_REPORT_100.csv] with the lines [Year,status], [2020,]
    and [2021,Pending]: the first row's status cell is missing. The rows
    have the default labels 0 and 1. *)
Definition status_example_fs : FileSystem := fun d =>
  if String.eqb d "dataset" then
    Some [("NDAP_REPORT_100.csv",
           Frame {| columns := ["Year"; "status"];
                    rows := range_index [[Some "2020"; None]; [Some "2021"; Some "Pending"]] |})]
  else None.

Definition status_example_tables : Tables :=
  fst (_load_ndap_datasets status_example_fs empty_tables).

(** [dataset/NDAP_REPORT_100.csv] with the columns [title] and [Title];
    the row holds one space under [title] and [X] under [Title]. *)
Definition title_example_fs : FileSystem := fun d =>
  if String.eqb d "dataset" then
    Some [("NDAP_REPORT_100.csv",
           Frame {| columns := ["title"; "Title"];
                    rows := range_index [[Some " "; Some "X"]; [Some "A vs B "; Some "Y"]] |})]
  else None.

Definition title_example_tables : Tables :=
  fst (_load_ndap_datasets title_example_fs empty_tables).

(** [dataset/NDAP_REPORT_100.csv] with the columns [title] and [parties];
    the row holds one space under [title] and [P] under [parties]. *)
Definition blank_title_fs : FileSystem := fun d =>
  if String.eqb d "dataset" then
    Some [("NDAP_REPORT_100.csv",
           Frame {| columns := ["title"; "parties"];
                    rows := range_index [[Some " "; Some "P"]] |})]
  else None.

Definition blank_title_tables : Tables :=
  fst (_load_ndap_datasets blank_title_fs empty_tables).

(** A request for a case number that no table knows. *)
Definition query_77 : CaseQuery :=
  {| case_type := "Civil"; case_number := 77; year := 2024; court_level := "High Court" |}.

(** A request for the overridden case. *)
Definition query_8152 : CaseQuery :=
  {| case_type := "Civil"; case_number := 8152; year := 2020; court_level := "High Court" |}.

(** Live mode, the scraper failed to import. *)
Definition env_no_scraper : Env :=
  {| USE_MOCK := false; overrides := OVERRIDE_CASES; fetch_case_details := None; REPORTLAB_OK := true;
     path_exists := fun _ => false |}.

(** Live mode, the scraper raises. *)
Definition env_raising_scraper : Env :=
  {| USE_MOCK := false; overrides := OVERRIDE_CASES;
     fetch_case_details := Some (fun _ _ _ _ => Raises "captcha required");
     REPORTLAB_OK := true;
     path_exists := fun _ => false |}.

(** Live mode, the scraper returns an empty list. *)
Definition env_list_scraper : Env :=
  {| USE_MOCK := false; overrides := OVERRIDE_CASES;
     fetch_case_details := Some (fun _ _ _ _ => Returns (VList []));
     REPORTLAB_OK := false;
     path_exists := fun _ => true |}.

(** Mock mode. *)
Definition env_mock : Env :=
  {| USE_MOCK := true; overrides := OVERRIDE_CASES; fetch_case_details := None; REPORTLAB_OK := true;
     path_exists := fun _ => true |}.

(** A request for a case number of the index. *)
Definition query_100 : CaseQuery :=
  {| case_type := "Civil"; case_number := 100; year := 2020; court_level := "High Court" |}.

(** The same report name in two scanned folders: three rows under
    [dataset], two under [archive]. *)
Definition duplicate_code_fs : FileSystem := fun d =>
  if String.eqb d "dataset" then
    Some [("NDAP_REPORT_100.csv",
           Frame {| columns := ["Year"];
                    rows := range_index [[Some "2019"]; [Some "2020"]; [Some "2021"]] |})]
  else if String.eqb d "archive" then
    Some [("NDAP_REPORT_100.csv",
           Frame {| columns := ["Year"]; rows := range_index [[Some "2001"]; [Some "2002"]] |})]
  else None.

(** Two reports whose key ranges overlap: 100 with three rows, then 101
    with two rows; a file that is not a report and a report that does not
    read as CSV sit beside them. *)
Definition overlap_fs : FileSystem := fun d =>
  if String.eqb d "dataset" then
    Some [("NDAP_REPORT_100.csv",
           Frame {| columns := ["Year"];
                    rows := range_index [[Some "2019"]; [Some "2020"]; [Some "2021"]] |});
          ("notes.txt", ReadError);
          ("NDAP_REPORT_55.csv", ReadError);
          ("NDAP_REPORT_101.csv",
           Frame {| columns := ["Year"]; rows := range_index [[Some "1999"]; [Some "2000"]] |})]
  else None.

(** [dataset/NDAP_REPORT_100.csv] with the lines [Year], [5,2020] and
    [7,2021]: each data line has one field more than the header, so the
    first field labels the row. *)
Definition labelled_fs : FileSystem := fun d =>
  if String.eqb d "dataset" then
    Some [("NDAP_REPORT_100.csv",
           Frame {| columns := ["Year"];
                    rows := [(LInt 5, [Some "2020"]); (LInt 7, [Some "2021"])] |})]
  else None.

(** [dataset/NDAP_REPORT_100.csv] with the lines [Year], [a,2019] and
    [b,2020], whose rows are labelled by text, followed in scan order by
    [dataset/NDAP_REPORT_200.csv] with the lines [Year] and [1999]. *)
Definition text_label_fs : FileSystem := fun d =>
  if String.eqb d "dataset" then
    Some [("NDAP_REPORT_100.csv",
           Frame {| columns := ["Year"];
                    rows := [(LText "a", [Some "2019"]); (LText "b", [Some "2020"])] |});
          ("NDAP_REPORT_200.csv",
           Frame {| columns := ["Year"]; rows := range_index [[Some "1999"]] |})]
  else None.

(** [dataset/NDAP_REPORT_100.csv] with the lines [Year], [3,2019],
    [3,2020] and [-1,2021]: a repeated and a negative label. *)
Definition repeated_label_fs : FileSystem := fun d =>
  if String.eqb d "dataset" then
    Some [("NDAP_REPORT_100.csv",
           Frame {| columns := ["Year"];
                    rows := [(LInt 3, [Some "2019"]); (LInt 3, [Some "2020"]);
                             (LInt (-1), [Some "2021"])] |})]
  else None.

(** ** Further vocabulary *)

(** A key is missing from a dict. *)
Definition absent {V : Type} (d : list (string * V)) (k : string) : bool :=
  match dict_get d k with
  | Some _ => false
  | None => true
  end.


(** The value of a printed line is neither [None] nor the empty string. *)
Definition printable (v : pyval) : bool :=
  match v with
  | VNone => false
  | VStr s => negb (String.eqb s "")
  | _ => true
  end.

(** Every character of a string satisfies [p]. *)
Fixpoint all_chars (p : ascii -> bool) (s : string) : bool :=
  match s with
  | EmptyString => true
  | String c r => p c && all_chars p r
  end.

(** The characters of [str(n)]: digits and the minus sign. *)
Definition numeric_char (c : ascii) : bool := PyStr.is_digit c || Ascii.eqb c "-".

(** [f"judgment_{n}.pdf"] for an [n] within the digit limit: the base
    name [lookup_case] gives the judgment document. *)
Definition judgment_name (n : Z) : string := "judgment_" +:+ PyStr.of_Z n +:+ ".pdf".

(** The name of the report file of dataset [n]: [NDAP_REPORT_], the
    decimal numeral of [n] and [.csv]. *)
Definition report_name (n : Z) : string := "NDAP_REPORT_" +:+ PyStr.of_Z n +:+ ".csv".

(** A scanned tree with the single folder [dataset] holding one file. *)
Definition single_file_fs (fname : string) (content : read_result) : FileSystem :=
  fun d => if String.eqb d "dataset" then Some [(fname, content)] else None.

(** The cause-list document as [lookup_case] writes it. *)
Definition cause_list_doc (reportlab_ok : bool) : Pdf :=
  if reportlab_ok
  then DetailPdf "Cause List Demo"
         [ ("Parties", VStr "N/A"); ("Filing Date", VStr "N/A");
           ("Next Hearing", VStr "N/A"); ("Status", VStr "Generated");
           ("Source", VStr "https://example.invalid") ]
  else FallbackPdf "Cause List Demo".

(** The [status] column of the log row for a record. *)
Definition log_status (details : pydict) : string :=
  match dict_get details "status" with
  | Some (VStr s) => if String.eqb s "Error" then "error" else "ok"
  | _ => "ok"
  end.

(** The three tables agree with one another: an index entry [(c, i)] sits
    at the key [c + i] and names a stored row; a stored row carries its own
    key, belongs to a dataset of the summary and, when its label is an
    [int] [i], leaves some entry at the key [c + i]. *)
Definition tables_consistent (t : Tables) : Prop :=
  (forall k c i, CASE_INDEX t !! k = Some (c, i) ->
     k = c + i /\ is_Some (DATASET_ROWS t !! (c, LInt i))) /\
  (forall c l r, DATASET_ROWS t !! (c, l) = Some r ->
     dataset_code r = c /\ row_index r = l /\
     is_Some (DATASET_SUMMARY t !! c) /\
     (forall i, l = LInt i -> is_Some (CASE_INDEX t !! (c + i)))).

(** The reply of [GET /ping]. *)
Record PingReply : Type := {
  ping_status : string;
  ping_mock : bool;
  ndap_rows : Z;
  ping_datasets : gmap Z Z;
  scanned_dirs : list string
}.

Definition ping (env : Env) (t : Tables) : PingReply :=
  {| ping_status := "ok"; ping_mock := USE_MOCK env;
     ndap_rows := Z.of_nat (size (DATASET_ROWS t));
     ping_datasets := DATASET_SUMMARY t; scanned_dirs := SCANNED_DIRS t |}.

(** [("" if pd.isna(x) else str(x))] *)
Definition cell_text (x : cell) : string :=
  match x with
  | None => ""
  | Some s => s
  end.

(** The keys of a dataset-derived record, in order. *)
Definition dataset_record_keys : list string :=
  ["parties"; "filing_date"; "next_hearing"; "status"; "raw_source"; "sample_data"].

(** A field holds a non-empty string. *)
Definition non_empty_str (v : option pyval) : bool :=
  match v with
  | Some (VStr s) => negb (String.eqb s "")
  | _ => false
  end.

(** One entry of the [examples] list of [GET /datasets/list]. *)
Record DatasetExample : Type := {
  example_case_number : Z;
  maps_to : string
}.

(** [sorted(DATASET_SUMMARY.keys())] *)
Definition sorted_codes (summary : gmap Z Z) : list Z :=
  merge_sort Z.le (List.map fst (map_to_list summary)).

(** [list_datasets]: the [datasets] and [examples] members of the reply. *)
Definition list_datasets (t : Tables) : gmap Z Z * list DatasetExample :=
  (DATASET_SUMMARY t,
   firstn 10
     (List.map (fun code => {| example_case_number := code;
                               maps_to := PyStr.of_Z code +:+ "/row0" |})
        (sorted_codes (DATASET_SUMMARY t)))).

(** The same surroundings with another scraper, or none. *)
Definition with_scraper (fetch : option (string -> Z -> Z -> string -> fetch_outcome))
    (env : Env) : Env :=
  {| USE_MOCK := USE_MOCK env; overrides := overrides env; fetch_case_details := fetch;
     REPORTLAB_OK := REPORTLAB_OK env; path_exists := path_exists env |}.

(** The same surroundings with the mock flag set to [b]. *)
Definition with_mock (b : bool) (env : Env) : Env :=
  {| USE_MOCK := b; overrides := overrides env; fetch_case_details := fetch_case_details env;
     REPORTLAB_OK := REPORTLAB_OK env; path_exists := path_exists env |}.

(** ** Dictionaries *)

Section DictFacts.
Context {V : Type}.
Implicit Types (d : list (string * V)) (k : string) (v : V).

Lemma dict_get_set d k v k' :
  dict_get (dict_set d k v) k' = if String.eqb k k' then Some v else dict_get d k'.
Proof.
  induction d as [|[k0 v0] d IH]; simpl.
  - destruct (String.eqb k k'); reflexivity.
  - destruct (String.eqb k0 k) eqn:E0; simpl.
    + apply String.eqb_eq in E0. subst k0.
      destruct (String.eqb k k'); reflexivity.
    + destruct (String.eqb k0 k') eqn:E1.
      * apply String.eqb_eq in E1. subst k0.
        rewrite String.eqb_sym in E0. rewrite E0. reflexivity.
      * exact IH.
Qed.

Lemma dict_get_setdefault d k v k' :
  dict_get (setdefault d k v) k' =
    match dict_get d k' with
    | Some x => Some x
    | None => if String.eqb k k' then Some v else None
    end.
Proof.
  unfold setdefault. destruct (dict_get d k) as [x|] eqn:Hk.
  - destruct (String.eqb k k') eqn:E.
    + apply String.eqb_eq in E. subst k'. rewrite Hk. reflexivity.
    + destruct (dict_get d k'); reflexivity.
  - rewrite dict_get_set. destruct (String.eqb k k') eqn:E.
    + apply String.eqb_eq in E. subst k'. rewrite Hk. reflexivity.
    + destruct (dict_get d k'); reflexivity.
Qed.
End DictFacts.

(** ** The override tier *)

(** C1. A case number of the override table resolves to its override record
    as it stands, whatever the dataset tables hold; with the table the source
    ships, 8152 resolves to the record whose parties are
    ["Alice Sharma vs State of Odisha"]. *)
Theorem override_always_wins :
  (forall (ov : gmap Z pydict) (t : Tables) (n : Z) (rec : pydict),
      ov !! n = Some rec -> _dataset_lookup_by_case ov t n = Some rec) /\
  (forall t : Tables,
      exists rec, _dataset_lookup_by_case OVERRIDE_CASES t 8152 = Some rec /\
                  OVERRIDE_CASES !! 8152 = Some rec /\
                  dict_get rec "parties" = Some (VStr "Alice Sharma vs State of Odisha")).
Proof.
  split.
  - intros ov t n rec Hov. unfold _dataset_lookup_by_case. rewrite Hov. reflexivity.
  - intros t. unfold _dataset_lookup_by_case.
    destruct (OVERRIDE_CASES !! 8152) as [rec|] eqn:Hov; [|vm_compute in Hov; discriminate].
    exists rec. split; [reflexivity|]. split; [reflexivity|].
    vm_compute in Hov. injection Hov as <-. reflexivity.
Qed.

Lemma override_always_wins_witness :
  CASE_INDEX shadowed_tables !! 8152 = Some (8152, 0) /\
  (_dataset_lookup_by_case OVERRIDE_CASES shadowed_tables 8152 ≫= fun r => dict_get r "parties")
    = Some (VStr "Alice Sharma vs State of Odisha").
Proof.
  split; [reflexivity|].
  destruct override_always_wins as [Hwin _].
  destruct (OVERRIDE_CASES !! 8152) as [rec|] eqn:Hov; [|vm_compute in Hov; discriminate].
  rewrite (Hwin OVERRIDE_CASES shadowed_tables 8152 rec Hov).
  vm_compute in Hov. injection Hov as <-. reflexivity.
Defined.

(** ** The field-completion pass *)

(** The record the pass completes: the input when it is a non-empty dict,
    the error record otherwise. *)
Lemma ensure_min_fields_get (v : pyval) (k : string) :
  dict_get (_ensure_min_fields v) k =
    match dict_get (match v with
                    | VDict (e :: d) => e :: d
                    | _ => _as_error "Empty response" "server"
                    end) k with
    | Some x => Some x
    | None => dict_get min_defaults k
    end.
Proof.
  unfold _ensure_min_fields.
  set (base := match v with VDict (e :: d) => e :: d | _ => _ end).
  rewrite !dict_get_setdefault.
  destruct (dict_get base k) as [x|]; [reflexivity|].
  unfold min_defaults, dict_get.
  repeat (match goal with |- context [String.eqb ?a ?b] => destruct (String.eqb a b) end;
          try reflexivity).
Qed.

Lemma ensure_min_fields_error (v : pyval) :
  (forall e d, v <> VDict (e :: d)) ->
  _ensure_min_fields v = _as_error "Empty response" "server".
Proof.
  intros Hv. unfold _ensure_min_fields.
  destruct v as [| | | | |[|e d]]; try reflexivity.
  exfalso. apply (Hv e d). reflexivity.
Qed.

(** C3, as the code has it. The pass returns a dict in which the four
    canonical fields and [raw_source] are present. A key that a non-empty
    dict input already has keeps the input's value, whatever it is; a missing
    canonical field becomes ["N/A"] and a missing [raw_source] becomes
    [{"url": ""}]. An input that is not a non-empty dict gives the error
    record, in which the four fields and [raw_source.url] are non-null. *)
Theorem ensure_min_fields_presence (v : pyval) :
  let r := _ensure_min_fields v in
  (forall k, In k canonical_fields -> is_Some (dict_get r k)) /\
  is_Some (dict_get r "raw_source") /\
  (forall d k x, v = VDict d -> dict_get d k = Some x -> dict_get r k = Some x) /\
  (forall d k, v = VDict d -> d <> [] -> In k canonical_fields ->
               dict_get d k = None -> dict_get r k = Some (VStr "N/A")) /\
  (forall d, v = VDict d -> d <> [] -> dict_get d "raw_source" = None ->
             dict_get r "raw_source" = Some (VDict [("url", VStr "")])) /\
  ((forall e d, v <> VDict (e :: d)) ->
     r = _as_error "Empty response" "server" /\ complete_non_null r = true).
Proof.
  cbv zeta. repeat split.
  - intros k Hk. rewrite ensure_min_fields_get.
    match goal with |- is_Some (match ?o with _ => _ end) => destruct o end; [eauto|].
    simpl in Hk. destruct Hk as [<-|[<-|[<-|[<-|[]]]]]; vm_compute; eauto.
  - rewrite ensure_min_fields_get.
    match goal with |- is_Some (match ?o with _ => _ end) => destruct o end; [eauto|].
    vm_compute; eauto.
  - intros d k x -> Hx. rewrite ensure_min_fields_get.
    destruct d as [|e d]; [discriminate|]. rewrite Hx. reflexivity.
  - intros d k -> Hd Hk Hnone. rewrite ensure_min_fields_get.
    destruct d as [|e d]; [contradiction|]. rewrite Hnone.
    simpl in Hk. destruct Hk as [<-|[<-|[<-|[<-|[]]]]]; reflexivity.
  - intros d -> Hd Hnone. rewrite ensure_min_fields_get.
    destruct d as [|e d]; [contradiction|]. rewrite Hnone. reflexivity.
  - apply ensure_min_fields_error; assumption.
  - rewrite ensure_min_fields_error by assumption. reflexivity.
Qed.

Lemma ensure_min_fields_presence_witness :
  dict_get (_ensure_min_fields (VDict [("status", VStr "Listed")])) "status"
    = Some (VStr "Listed") /\
  dict_get (_ensure_min_fields (VDict [("status", VStr "Listed")])) "parties"
    = Some (VStr "N/A") /\
  dict_get (_ensure_min_fields (VDict [("status", VStr "Listed")])) "raw_source"
    = Some (VDict [("url", VStr "")]) /\
  complete_non_null (_ensure_min_fields (VList [])) = true.
Proof.
  pose proof (ensure_min_fields_presence (VDict [("status", VStr "Listed")]))
    as (_ & _ & Hkeep & Hdflt & Hraw & _).
  pose proof (ensure_min_fields_presence (VList [])) as (_ & _ & _ & _ & _ & Herr).
  split; [apply (Hkeep [("status", VStr "Listed")]); reflexivity|].
  split; [apply (Hdflt [("status", VStr "Listed")]);
          [reflexivity | discriminate | simpl; tauto | reflexivity]|].
  split; [apply (Hraw [("status", VStr "Listed")]); [reflexivity | discriminate | reflexivity]|].
  apply Herr. intros e d. discriminate.
Defined.

(** C3 as stated fails: a field that the input binds to [None] stays
    [None]. *)
Lemma ensure_min_fields_keeps_null :
  dict_get (_ensure_min_fields (VDict [("parties", VNone)])) "parties" = Some VNone /\
  complete_non_null (_ensure_min_fields (VDict [("parties", VNone)])) = false /\
  ~ (forall v, complete_non_null (_ensure_min_fields v) = true).
Proof.
  split; [reflexivity|]. split; [reflexivity|].
  intros H. specialize (H (VDict [("parties", VNone)])). discriminate H.
Qed.

(** ** The dataset tier *)

Lemma dict_get_fold_set {V : Type} (f : string -> V) (cols : list string)
    (d0 : list (string * V)) (k : string) :
  dict_get (fold_left (fun d c => dict_set d c (f c)) cols d0) k =
    if existsb (String.eqb k) cols then Some (f k) else dict_get d0 k.
Proof.
  revert d0. induction cols as [|c cols IH]; intros d0; simpl; [reflexivity|].
  rewrite IH, dict_get_set. rewrite (String.eqb_sym k c).
  destruct (existsb (String.eqb k) cols); [rewrite orb_true_r; reflexivity|].
  rewrite orb_false_r. destruct (String.eqb c k) eqn:E; [|reflexivity].
  apply String.eqb_eq in E. subst c. reflexivity.
Qed.

(** A missing cell is read as the empty string. *)
Lemma make_row_dict_missing (cols : list string) (row : list cell) (c : string) :
  In c cols -> row_at cols row c = None -> dict_get (make_row_dict cols row) c = Some "".
Proof.
  intros Hin Hnone. unfold make_row_dict.
  rewrite (dict_get_fold_set
             (fun c => match row_at cols row c with None => "" | Some s => s end)).
  rewrite Hnone.
  destruct (existsb (String.eqb c) cols) eqn:E; [reflexivity|].
  exfalso. apply not_true_iff_false in E. apply E.
  apply existsb_exists. exists c. split; [assumption|apply String.eqb_refl].
Qed.

Lemma lookup_dataset_tier (ov : gmap Z pydict) (t : Tables) (n code idx : Z) :
  ov !! n = None -> CASE_INDEX t !! n = Some (code, idx) ->
  _dataset_lookup_by_case ov t n = Some (dataset_record (DATASET_ROWS t) code idx).
Proof.
  intros Hov Hix. unfold _dataset_lookup_by_case. rewrite Hov, Hix. reflexivity.
Qed.

Lemma dataset_record_status (rows_tbl : gmap (Z * label) RowEntry) (code idx : Z) :
  dict_get (dataset_record rows_tbl code idx) "status" =
    Some (VStr (or_default
                  (dict_get (match rows_tbl !! (code, LInt idx) with
                             | Some r => data r | None => [] end) "status")
                  "From NDAP Dataset")).
Proof. unfold dataset_record. rewrite dict_get_set. reflexivity. Qed.

Lemma dataset_record_parties (rows_tbl : gmap (Z * label) RowEntry) (code idx : Z) :
  dict_get (dataset_record rows_tbl code idx) "parties" =
    Some (VStr (match _best_parties_from_row
                        (match rows_tbl !! (code, LInt idx) with
                         | Some r => data r | None => [] end) with
                | Some p => if String.eqb p ""
                            then "Case " +:+ PyStr.of_Z code +:+ "-" +:+ PyStr.of_Z idx
                            else p
                | None => "Case " +:+ PyStr.of_Z code +:+ "-" +:+ PyStr.of_Z idx
                end)).
Proof. unfold dataset_record. rewrite dict_get_set. reflexivity. Qed.

(** C4, as the code has it. The status of a dataset-derived record is the
    value of the row's ["status"] column when the column is there and its
    value is not the empty string; it is ["From NDAP Dataset"] when the column
    is absent or holds the empty string, which is what a missing cell is read
    as. *)
Theorem dataset_status_rule (ov : gmap Z pydict) (t : Tables) (n code idx : Z) :
  ov !! n = None -> CASE_INDEX t !! n = Some (code, idx) ->
  (exists r, _dataset_lookup_by_case ov t n = Some r /\
     dict_get r "status" =
       Some (VStr (match dict_get (row_data t code idx) "status" with
                   | Some s => if String.eqb s "" then "From NDAP Dataset" else s
                   | None => "From NDAP Dataset"
                   end))) /\
  (forall cols row c, In c cols -> row_at cols row c = None ->
                      dict_get (make_row_dict cols row) c = Some "").
Proof.
  intros Hov Hix. split; [|apply make_row_dict_missing].
  eexists. split; [apply lookup_dataset_tier; eassumption|].
  rewrite dataset_record_status. unfold row_data, or_default, str_or.
  destruct (dict_get _ "status") as [s|]; [|reflexivity].
  destruct (String.eqb s ""); reflexivity.
Qed.

Lemma dataset_status_rule_witness :
  (_dataset_lookup_by_case ∅ status_example_tables 101 ≫= fun r => dict_get r "status")
    = Some (VStr "Pending") /\
  (_dataset_lookup_by_case ∅ status_example_tables 100 ≫= fun r => dict_get r "status")
    = Some (VStr "From NDAP Dataset").
Proof.
  assert (Hov : (∅ : gmap Z pydict) !! 101 = None) by reflexivity.
  assert (Hov' : (∅ : gmap Z pydict) !! 100 = None) by reflexivity.
  assert (Hix : CASE_INDEX status_example_tables !! 101 = Some (100, 1)) by reflexivity.
  assert (Hix' : CASE_INDEX status_example_tables !! 100 = Some (100, 0)) by reflexivity.
  destruct (dataset_status_rule ∅ status_example_tables 101 100 1 Hov Hix)
    as [(r & -> & Hr) _].
  destruct (dataset_status_rule ∅ status_example_tables 100 100 0 Hov' Hix')
    as [(r' & -> & Hr') _].
  split; simpl; [rewrite Hr | rewrite Hr']; reflexivity.
Defined.

(** C4 as stated fails: the ["status"] column is there, the cell is
    missing and so read as the empty string, and the record's status is
    ["From NDAP Dataset"], not the empty string. *)
Lemma status_missing_cell_counterexample :
  dict_get (row_data status_example_tables 100 0) "status" = Some "" /\
  (_dataset_lookup_by_case ∅ status_example_tables 100 ≫= fun r => dict_get r "status")
    = Some (VStr "From NDAP Dataset") /\
  (_dataset_lookup_by_case ∅ status_example_tables 100 ≫= fun r => dict_get r "status")
    <> Some (VStr (status_spec (row_data status_example_tables 100 0))).
Proof.
  split; [reflexivity|]. split; [reflexivity|]. vm_compute. discriminate.
Qed.

(** *** The parties heuristic *)

Lemma strip_empty : PyStr.strip "" = "".
Proof. reflexivity. Qed.

Lemma first_non_empty_variants (data : list (string * string)) (a b c : string) :
  first_non_empty data [a; b; c] =
    let x := str_or (dict_get data a) (str_or (dict_get data b) (dict_get data c)) in
    if str_truthy x then x else None.
Proof.
  simpl. unfold str_or, str_truthy.
  destruct (dict_get data a) as [va|]; [destruct (String.eqb va "") eqn:Ea|];
  destruct (dict_get data b) as [vb|]; try destruct (String.eqb vb "") eqn:Eb;
  destruct (dict_get data c) as [vc|]; try destruct (String.eqb vc "") eqn:Ec;
  simpl; rewrite ?Ea, ?Eb, ?Ec; reflexivity.
Qed.

(** Case analysis on what a column holds: absent, empty, blank or not. *)
Ltac split_cell v :=
  let E := fresh "E" in
  let S := fresh "S" in
  destruct (String.eqb v "") eqn:E;
  [apply String.eqb_eq in E; subst v; rewrite ?strip_empty in *
  |destruct (String.eqb (PyStr.strip v) "") eqn:S].

Ltac split_cells data :=
  repeat match goal with
         | |- context [dict_get data ?c] =>
             let v := fresh "v" in
             destruct (dict_get data c) as [v|]; [split_cell v|]
         end.

Lemma title_loop_first_title (data : list (string * string)) (keys : list string) :
  title_unshadowed data keys = true ->
  title_loop data keys = first_title data (flat_map variants keys).
Proof.
  induction keys as [|key keys IH]; [reflexivity|].
  cbn [flat_map variants app title_loop first_title title_unshadowed].
  unfold shadowed, get_variants, str_or, blank.
  cbn [variants first_non_empty first_title].
  split_cells data; simpl;
    repeat match goal with H : String.eqb _ _ = _ |- _ => rewrite H end; simpl;
    intros; try discriminate; try reflexivity; try (apply IH; assumption).
Qed.

Lemma first_title_not_empty (data : list (string * string)) (cols : list string) (t : string) :
  first_title data cols = Some t -> String.eqb t "" = false.
Proof.
  induction cols as [|c cols IH]; simpl; [discriminate|].
  destruct (dict_get data c) as [v|]; [|exact IH].
  destruct (String.eqb (PyStr.strip v) "") eqn:E; [exact IH|].
  intros [= <-]. exact E.
Qed.

Lemma vs_not_empty (a b : string) : String.eqb (a +:+ " vs " +:+ b) "" = false.
Proof. destruct a; reflexivity. Qed.

Lemma pair_of_code (data : list (string * string)) (a b wa wb : string) :
  pair_of data a b wa wb =
    let x := str_or (dict_get data a)
               (str_or (dict_get data (PyStr.title a)) (dict_get data (PyStr.upper a))) in
    let y := str_or (dict_get data b)
               (str_or (dict_get data (PyStr.title b)) (dict_get data (PyStr.upper b))) in
    if str_truthy x || str_truthy y
    then Some (side x wa +:+ " vs " +:+ side y wb)
    else None.
Proof.
  unfold pair_of, variants. rewrite !first_non_empty_variants. cbv zeta.
  set (x := str_or (dict_get data a) _). set (y := str_or (dict_get data b) _).
  unfold str_truthy, side, str_or.
  destruct x as [sx|]; [destruct (String.eqb sx "")|];
    (destruct y as [sy|]; [destruct (String.eqb sy "")|]); reflexivity.
Qed.

Lemma best_parties_spec (data : list (string * string)) (code idx : Z) :
  title_unshadowed data title_keys = true ->
  match _best_parties_from_row data with
  | Some p => if String.eqb p "" then "Case " +:+ PyStr.of_Z code +:+ "-" +:+ PyStr.of_Z idx
              else p
  | None => "Case " +:+ PyStr.of_Z code +:+ "-" +:+ PyStr.of_Z idx
  end = parties_spec data code idx.
Proof.
  intros Hnb. destruct data as [|e d]; [reflexivity|].
  set (dat := e :: d) in *.
  unfold parties_spec, _best_parties_from_row. fold dat.
  rewrite (title_loop_first_title dat title_keys Hnb).
  fold title_like_columns.
  destruct (first_title dat title_like_columns) as [t|] eqn:Ht; subst dat; cbv beta iota.
  - rewrite (first_title_not_empty _ _ _ Ht). reflexivity.
  - rewrite !pair_of_code. cbv zeta.
    change (PyStr.title "petitioner") with "Petitioner".
    change (PyStr.upper "petitioner") with "PETITIONER".
    change (PyStr.title "respondent") with "Respondent".
    change (PyStr.upper "respondent") with "RESPONDENT".
    change (PyStr.title "plaintiff") with "Plaintiff".
    change (PyStr.upper "plaintiff") with "PLAINTIFF".
    change (PyStr.title "defendant") with "Defendant".
    change (PyStr.upper "defendant") with "DEFENDANT".
    destruct (str_truthy _ || str_truthy _); [rewrite vs_not_empty; reflexivity|].
    destruct (str_truthy _ || str_truthy _); [rewrite vs_not_empty; reflexivity|].
    reflexivity.
Qed.

(** C5, as the code has it. The parties of a dataset-derived record follow
    the stated priority: (a) the first non-blank title-like column among the
    lower-case, Title-Case and UPPER-CASE spellings of [case_title], [title],
    [parties], [case name], [case_name], trimmed; else (b) ["petitioner vs
    respondent"]; else (c) ["plaintiff vs defendant"], each side trimmed and
    the role word standing in for a missing side; else (d)
    ["Case {code}-{row_index}"]. The one exception is a row in which the
    column that (a) selects is shadowed, an earlier spelling of the same
    column name holding a non-empty value of white space only: such rows are
    left out. *)
Theorem dataset_parties_priority (ov : gmap Z pydict) (t : Tables) (n code idx : Z) :
  ov !! n = None -> CASE_INDEX t !! n = Some (code, idx) ->
  title_unshadowed (row_data t code idx) title_keys = true ->
  exists r, _dataset_lookup_by_case ov t n = Some r /\
    dict_get r "parties" = Some (VStr (parties_spec (row_data t code idx) code idx)).
Proof.
  intros Hov Hix Hnb.
  eexists. split; [apply lookup_dataset_tier; eassumption|].
  rewrite dataset_record_parties. fold (row_data t code idx).
  rewrite best_parties_spec by assumption. reflexivity.
Qed.

Lemma dataset_parties_priority_witness :
  (_dataset_lookup_by_case ∅ title_example_tables 101 ≫= fun r => dict_get r "parties")
    = Some (VStr "A vs B") /\
  row_data blank_title_tables 100 0 = [("title", " "); ("parties", "P")] /\
  (_dataset_lookup_by_case ∅ blank_title_tables 100 ≫= fun r => dict_get r "parties")
    = Some (VStr "P").
Proof.
  assert (Hov : (∅ : gmap Z pydict) !! 101 = None) by reflexivity.
  assert (Hix : CASE_INDEX title_example_tables !! 101 = Some (100, 1)) by reflexivity.
  assert (Hnb : title_unshadowed (row_data title_example_tables 100 1) title_keys = true)
    by reflexivity.
  destruct (dataset_parties_priority ∅ title_example_tables 101 100 1 Hov Hix Hnb)
    as (r & -> & Hr).
  assert (Hov' : (∅ : gmap Z pydict) !! 100 = None) by reflexivity.
  assert (Hix' : CASE_INDEX blank_title_tables !! 100 = Some (100, 0)) by reflexivity.
  assert (Hnb' : title_unshadowed (row_data blank_title_tables 100 0) title_keys = true)
    by reflexivity.
  destruct (dataset_parties_priority ∅ blank_title_tables 100 100 0 Hov' Hix' Hnb')
    as (r' & -> & Hr').
  simpl. rewrite Hr, Hr'. split; [reflexivity|]. split; reflexivity.
Defined.

(** C5 as stated fails: the row has the title-like columns [title],
    holding one space, and [Title], holding [X]; the heuristic passes over
    both and the parties are the placeholder. The column [Title] is shadowed
    by [title]. *)
Lemma parties_blank_title_counterexample :
  row_data title_example_tables 100 0 = [("title", " "); ("Title", "X")] /\
  (_dataset_lookup_by_case ∅ title_example_tables 100 ≫= fun r => dict_get r "parties")
    = Some (VStr "Case 100-0") /\
  parties_spec (row_data title_example_tables 100 0) 100 0 = "X" /\
  shadowed (row_data title_example_tables 100 0) "title" = true /\
  (_dataset_lookup_by_case ∅ title_example_tables 100 ≫= fun r => dict_get r "parties")
    <> Some (VStr (parties_spec (row_data title_example_tables 100 0) 100 0)).
Proof.
  split; [reflexivity|]. split; [reflexivity|]. split; [reflexivity|].
  split; [reflexivity|]. vm_compute. discriminate.
Qed.

(** ** The PDF writer *)

Lemma create_pdf_raise (rl : bool) (path title : string) (details : pydict) (e : exn) :
  _create_pdf_with_details rl path title details = Raise e -> e = AttributeError.
Proof.
  unfold _create_pdf_with_details. destruct rl; [|discriminate]. cbn [negb].
  destruct (or_empty_dict (dict_get details "raw_source")); try (intros [= <-]; reflexivity).
  destruct (SHOW_SAMPLE_LINES && truthy _); [|discriminate].
  destruct (or_empty_dict (dict_get details "sample_data"));
    try discriminate; intros [= <-]; reflexivity.
Qed.

Lemma create_pdf_as_error (rl : bool) (path title m w : string) :
  _create_pdf_with_details rl path title (_as_error m w) =
    Ok (WritePdf path
          (if rl
           then DetailPdf title [ ("Parties", VStr "N/A"); ("Filing Date", VStr "N/A");
                                  ("Next Hearing", VStr "N/A"); ("Status", VStr "Error") ]
           else FallbackPdf title)).
Proof. destruct rl; reflexivity. Qed.

Lemma create_pdf_lookup_mock (rl : bool) (path title : string) (q : CaseQuery) :
  _create_pdf_with_details rl path title (lookup_mock q) =
    Ok (WritePdf path
          (if rl
           then DetailPdf title
                  [ kv "Parties" (Some (VStr (case_type q +:+ " Demo: Alice vs Bob")));
                    ("Filing Date", VStr "2023-07-18");
                    ("Next Hearing", VStr "2025-10-10"); ("Status", VStr "Listed");
                    ("Source", VStr "https://services.ecourts.gov.in") ]
           else FallbackPdf title)).
Proof. destruct rl; reflexivity. Qed.

Lemma create_pdf_download_mock (rl : bool) (path title : string) :
  _create_pdf_with_details rl path title download_mock =
    Ok (WritePdf path
          (if rl
           then DetailPdf title
                  [ ("Parties", VStr "CIVIL Demo: Alice vs Bob");
                    ("Filing Date", VStr "2023-07-18");
                    ("Next Hearing", VStr "2025-10-10"); ("Status", VStr "Listed");
                    ("Source", VStr "https://services.ecourts.gov.in") ]
           else FallbackPdf title)).
Proof. destruct rl; reflexivity. Qed.

Lemma create_pdf_dataset_record (rl : bool) (path title : string)
    (rows_tbl : gmap (Z * label) RowEntry) (code idx : Z) :
  exists doc, _create_pdf_with_details rl path title (dataset_record rows_tbl code idx)
              = Ok (WritePdf path doc).
Proof.
  unfold _create_pdf_with_details. destruct rl; cbn [negb]; [|eauto].
  unfold dataset_record.
  destruct (match rows_tbl !! (code, LInt idx) with Some r => data r | None => [] end)
    as [|cell0 rest]; cbn; eauto.
Qed.

Lemma create_pdf_cause_list (rl : bool) (path : string) :
  exists doc,
    _create_pdf_with_details rl path "Cause List Demo"
      [("status", VStr "Generated");
       ("raw_source", VDict [("url", VStr "https://example.invalid")])]
    = Ok (WritePdf path doc).
Proof. destruct rl; cbn; eauto. Qed.

(** ** The lookup handler *)

Lemma ensure_min_fields_as_error (m w : string) :
  _ensure_min_fields (VDict (_as_error m w)) = _as_error m w.
Proof. reflexivity. Qed.

Lemma ensure_min_fields_dataset_record (rows_tbl : gmap (Z * label) RowEntry) (code idx : Z) :
  _ensure_min_fields (VDict (dataset_record rows_tbl code idx))
    = dataset_record rows_tbl code idx.
Proof. reflexivity. Qed.

Lemma ensure_min_fields_lookup_mock (q : CaseQuery) :
  _ensure_min_fields (VDict (lookup_mock q)) = lookup_mock q.
Proof. reflexivity. Qed.

(** The tag computed by lines 299-320. *)
Lemma lookup_details_tag (env : Env) (t : Tables) (q : CaseQuery) :
  snd (lookup_details env t q) =
    Some (if no_details (_dataset_lookup_by_case (overrides env) t (case_number q))
          then if USE_MOCK env then "mock" else "live"
          else "dataset").
Proof.
  unfold lookup_details.
  destruct (no_details _); [destruct (USE_MOCK env)|]; reflexivity.
Qed.

(** The handler returns when writing the judgment PDF and reading the
    source URL for the log row both do, and then answers with the completed
    record and the tag. *)
Lemma lookup_case_ok (env : Env) (t : Tables) (q : CaseQuery) (render : Effect) (url : pyval) :
  _create_pdf_with_details (REPORTLAB_OK env)
    ("downloads/" +:+ "judgment_" +:+ PyStr.of_Z (case_number q) +:+ ".pdf")
    ("Judgment for " +:+ PyStr.of_Z (case_number q))
    (_ensure_min_fields (fst (lookup_details env t q))) = Ok render ->
  source_url_of (_ensure_min_fields (fst (lookup_details env t q))) = Ok url ->
  exists resp effs,
    lookup_case env t q = Ok (resp, render :: effs) /\
    parsed resp = _ensure_min_fields (fst (lookup_details env t q)) /\
    source resp = snd (lookup_details env t q) /\
    input resp = q.
Proof.
  intros Hrender Hurl. unfold lookup_case.
  destruct (lookup_details env t q) as [details kind]. cbn [fst snd] in *.
  rewrite Hrender, Hurl.
  destruct (path_exists env _); cbn [negb].
  - eexists. eexists. split; [reflexivity|]. cbn. auto.
  - destruct (create_pdf_cause_list (REPORTLAB_OK env)
                ("downloads/" +:+ "cause_list_demo.pdf")) as [doc ->].
    eexists. eexists. split; [reflexivity|]. cbn. auto.
Qed.

Lemma lookup_case_inv (env : Env) (t : Tables) (q : CaseQuery)
    (resp : LookupResponse) (effs : list Effect) :
  lookup_case env t q = Ok (resp, effs) ->
  parsed resp = _ensure_min_fields (fst (lookup_details env t q)) /\
  source resp = snd (lookup_details env t q).
Proof.
  unfold lookup_case.
  destruct (lookup_details env t q) as [details kind]. cbn [fst snd].
  destruct (_create_pdf_with_details _ _ _ _); [|discriminate].
  destruct (if negb _ then _ else _); [|discriminate].
  destruct (source_url_of _); [|discriminate].
  intros [= <- _]. cbn. auto.
Qed.

Lemma source_url_raise (details : pydict) (e : exn) :
  source_url_of details = Raise e -> e = AttributeError.
Proof.
  unfold source_url_of.
  destruct (dict_get details "raw_source") as [[]|]; try discriminate; intros [= <-]; auto.
Qed.

(** When the handler raises, it is the [AttributeError] of the PDF writer
    or of reading the source URL. *)
Lemma lookup_case_raise (env : Env) (t : Tables) (q : CaseQuery) (e : exn) :
  lookup_case env t q = Raise e ->
  e = AttributeError /\
  (_create_pdf_with_details (REPORTLAB_OK env)
     ("downloads/" +:+ "judgment_" +:+ PyStr.of_Z (case_number q) +:+ ".pdf")
     ("Judgment for " +:+ PyStr.of_Z (case_number q))
     (_ensure_min_fields (fst (lookup_details env t q))) = Raise AttributeError \/
   source_url_of (_ensure_min_fields (fst (lookup_details env t q))) = Raise AttributeError).
Proof.
  unfold lookup_case.
  destruct (lookup_details env t q) as [details kind]. cbn [fst snd].
  destruct (_create_pdf_with_details _ _ _ (_ensure_min_fields details)) as [r|e'] eqn:Hr.
  - destruct (path_exists env _); cbn [negb].
    + destruct (source_url_of _) as [u|e'] eqn:Hu; [discriminate|].
      intros [= <-]. pose proof (source_url_raise _ _ Hu) as ->. auto.
    + destruct (create_pdf_cause_list (REPORTLAB_OK env)
                  ("downloads/" +:+ "cause_list_demo.pdf")) as [doc ->].
      destruct (source_url_of _) as [u|e'] eqn:Hu; [discriminate|].
      intros [= <-]. pose proof (source_url_raise _ _ Hu) as ->. auto.
  - intros [= <-]. pose proof (create_pdf_raise _ _ _ _ _ Hr) as ->. auto.
Qed.

Lemma lookup_details_live_failure (env : Env) (t : Tables) (q : CaseQuery) (w m : string) :
  no_details (_dataset_lookup_by_case (overrides env) t (case_number q)) = true ->
  USE_MOCK env = false ->
  live_failure env q = Some (w, m) ->
  lookup_details env t q = (VDict (_as_error m w), Some "live").
Proof.
  intros Hno Hmock Hfail. unfold lookup_details, live_failure in *.
  rewrite Hno, Hmock.
  destruct (fetch_case_details env) as [fetch|].
  - destruct (fetch _ _ _ _) as [d|msg].
    + destruct (is_dict d && truthy d); [discriminate|].
      injection Hfail as <- <-. reflexivity.
    + injection Hfail as <- <-. reflexivity.
  - injection Hfail as <- <-. reflexivity.
Qed.

Lemma lookup_details_found (env : Env) (t : Tables) (q : CaseQuery) (rec : pydict) :
  _dataset_lookup_by_case (overrides env) t (case_number q) = Some rec -> rec <> [] ->
  lookup_details env t q = (VDict rec, Some "dataset").
Proof.
  intros Hrec Hne. unfold lookup_details. rewrite Hrec.
  destruct rec as [|e d]; [contradiction|]. reflexivity.
Qed.

Lemma lookup_details_mock (env : Env) (t : Tables) (q : CaseQuery) :
  no_details (_dataset_lookup_by_case (overrides env) t (case_number q)) = true ->
  USE_MOCK env = true ->
  lookup_details env t q = (VDict (lookup_mock q), Some "mock").
Proof. intros Hno Hmock. unfold lookup_details. rewrite Hno, Hmock. reflexivity. Qed.

Lemma no_details_unmatched (ov : gmap Z pydict) (t : Tables) (n : Z) :
  ov !! n = None -> CASE_INDEX t !! n = None ->
  no_details (_dataset_lookup_by_case ov t n) = true.
Proof. intros Hov Hix. unfold _dataset_lookup_by_case. rewrite Hov, Hix. reflexivity. Qed.

Lemma dataset_record_not_empty (rows_tbl : gmap (Z * label) RowEntry) (code idx : Z) :
  dataset_record rows_tbl code idx <> [].
Proof. unfold dataset_record. discriminate. Qed.

(** The three tiers below the override table always get a response. *)
Lemma lookup_case_dataset (env : Env) (t : Tables) (q : CaseQuery) (code idx : Z) :
  overrides env !! case_number q = None ->
  CASE_INDEX t !! case_number q = Some (code, idx) ->
  exists resp effs, lookup_case env t q = Ok (resp, effs) /\
    source resp = Some "dataset" /\
    parsed resp = dataset_record (DATASET_ROWS t) code idx.
Proof.
  intros Hov Hix.
  pose proof (lookup_details_found env t q _ (lookup_dataset_tier _ _ _ _ _ Hov Hix)
                (dataset_record_not_empty _ _ _)) as Hld.
  destruct (create_pdf_dataset_record (REPORTLAB_OK env)
              ("downloads/" +:+ "judgment_" +:+ PyStr.of_Z (case_number q) +:+ ".pdf")
              ("Judgment for " +:+ PyStr.of_Z (case_number q))
              (DATASET_ROWS t) code idx) as [doc Hdoc].
  edestruct (lookup_case_ok env t q) as (resp & effs & Hok & Hp & Hsrc & _).
  { rewrite Hld. cbn [fst]. rewrite ensure_min_fields_dataset_record. exact Hdoc. }
  { rewrite Hld. reflexivity. }
  eexists. eexists. split; [exact Hok|]. rewrite Hp, Hsrc, Hld. cbn [fst snd].
  rewrite ensure_min_fields_dataset_record. auto.
Qed.

Lemma lookup_case_mock (env : Env) (t : Tables) (q : CaseQuery) :
  overrides env !! case_number q = None -> CASE_INDEX t !! case_number q = None ->
  USE_MOCK env = true ->
  exists resp effs, lookup_case env t q = Ok (resp, effs) /\
    source resp = Some "mock" /\ parsed resp = lookup_mock q /\
    In (WritePdf ("downloads/" +:+ "judgment_" +:+ PyStr.of_Z (case_number q) +:+ ".pdf")
          (if REPORTLAB_OK env
           then DetailPdf ("Judgment for " +:+ PyStr.of_Z (case_number q))
                  [ kv "Parties" (Some (VStr (case_type q +:+ " Demo: Alice vs Bob")));
                    ("Filing Date", VStr "2023-07-18");
                    ("Next Hearing", VStr "2025-10-10"); ("Status", VStr "Listed");
                    ("Source", VStr "https://services.ecourts.gov.in") ]
           else FallbackPdf ("Judgment for " +:+ PyStr.of_Z (case_number q)))) effs.
Proof.
  intros Hov Hix Hmock.
  pose proof (lookup_details_mock env t q (no_details_unmatched _ _ _ Hov Hix) Hmock) as Hld.
  edestruct (lookup_case_ok env t q) as (resp & effs & Hok & Hp & Hsrc & _).
  { rewrite Hld. cbn [fst]. rewrite ensure_min_fields_lookup_mock.
    apply create_pdf_lookup_mock. }
  { rewrite Hld. reflexivity. }
  eexists. eexists. split; [exact Hok|]. rewrite Hp, Hsrc, Hld.
  split; [reflexivity|]. split; [reflexivity|]. left. reflexivity.
Qed.

Lemma lookup_case_live_failure (env : Env) (t : Tables) (q : CaseQuery) (w m : string) :
  overrides env !! case_number q = None -> CASE_INDEX t !! case_number q = None ->
  USE_MOCK env = false ->
  live_failure env q = Some (w, m) ->
  exists resp effs, lookup_case env t q = Ok (resp, effs) /\
    source resp = Some "live" /\ parsed resp = _as_error m w.
Proof.
  intros Hov Hix Hmock Hfail.
  pose proof (lookup_details_live_failure env t q w m
                (no_details_unmatched _ _ _ Hov Hix) Hmock Hfail) as Hld.
  edestruct (lookup_case_ok env t q) as (resp & effs & Hok & Hp & Hsrc & _).
  { rewrite Hld. cbn [fst]. rewrite ensure_min_fields_as_error. apply create_pdf_as_error. }
  { rewrite Hld. reflexivity. }
  eexists. eexists. split; [exact Hok|]. rewrite Hp, Hsrc, Hld. auto.
Qed.

(** C7. When neither the override table nor the index has the case number,
    mock mode is off, and the scraper is missing, raises, or returns
    something that is not a non-empty dict, the handler returns a response
    (it does not raise) whose record is the error record: status ["Error"]
    and an [error] object [{where, message}]. *)
Theorem lookup_failure_is_error_record (env : Env) (t : Tables) (q : CaseQuery)
    (w m : string) :
  overrides env !! case_number q = None ->
  CASE_INDEX t !! case_number q = None ->
  USE_MOCK env = false ->
  live_failure env q = Some (w, m) ->
  exists resp effs,
    lookup_case env t q = Ok (resp, effs) /\
    parsed resp = _as_error m w /\
    dict_get (parsed resp) "status" = Some (VStr "Error") /\
    dict_get (parsed resp) "error" = Some (VDict [("where", VStr w); ("message", VStr m)]).
Proof.
  intros Hov Hix Hmock Hfail.
  destruct (lookup_case_live_failure env t q w m Hov Hix Hmock Hfail)
    as (resp & effs & Hok & _ & Hp).
  exists resp, effs. split; [exact Hok|]. rewrite Hp. repeat split; reflexivity.
Qed.

Lemma lookup_failure_is_error_record_witness :
  (exists resp effs,
      lookup_case env_raising_scraper empty_tables query_77 = Ok (resp, effs) /\
      parsed resp = _as_error "captcha required" "exception" /\
      dict_get (parsed resp) "status" = Some (VStr "Error") /\
      dict_get (parsed resp) "error"
        = Some (VDict [("where", VStr "exception"); ("message", VStr "captcha required")])) /\
  (exists resp effs,
      lookup_case env_no_scraper empty_tables query_77 = Ok (resp, effs) /\
      parsed resp = _as_error "scraper not available" "import" /\
      dict_get (parsed resp) "status" = Some (VStr "Error") /\
      dict_get (parsed resp) "error"
        = Some (VDict [("where", VStr "import"); ("message", VStr "scraper not available")])) /\
  (exists resp effs,
      lookup_case env_list_scraper empty_tables query_77 = Ok (resp, effs) /\
      parsed resp = _as_error "Unexpected scraper response" "scraper" /\
      dict_get (parsed resp) "status" = Some (VStr "Error") /\
      dict_get (parsed resp) "error"
        = Some (VDict [("where", VStr "scraper");
                       ("message", VStr "Unexpected scraper response")])).
Proof.
  split; [|split].
  - apply (lookup_failure_is_error_record env_raising_scraper empty_tables query_77
             "exception" "captcha required"); reflexivity.
  - apply (lookup_failure_is_error_record env_no_scraper empty_tables query_77
             "import" "scraper not available"); reflexivity.
  - apply (lookup_failure_is_error_record env_list_scraper empty_tables query_77
             "scraper" "Unexpected scraper response"); reflexivity.
Defined.

(** C8. Every response of the lookup handler carries a tag that is one of
    ["dataset"], ["mock"], ["live"], and the tiers are tried in the order
    override, dataset, live/mock: a non-empty override record is answered as
    it stands (completed) under the tag ["dataset"]; otherwise an index entry
    is answered with the derived record under ["dataset"]; otherwise the mock
    record under ["mock"] when mock mode is on, and the scraper's answer under
    ["live"] when it is off. The handler returns a response in the dataset and
    mock tiers and whenever the live tier fails; it raises only on a record
    that comes from the override table or from the scraper. *)
Theorem lookup_source_tag (env : Env) (t : Tables) (q : CaseQuery) :
  (forall resp effs, lookup_case env t q = Ok (resp, effs) ->
     exists tag, source resp = Some tag /\ In tag tier_tags) /\
  (forall rec, overrides env !! case_number q = Some rec -> rec <> [] ->
     forall resp effs, lookup_case env t q = Ok (resp, effs) ->
       source resp = Some "dataset" /\ parsed resp = _ensure_min_fields (VDict rec)) /\
  (forall code idx,
     overrides env !! case_number q = None ->
     CASE_INDEX t !! case_number q = Some (code, idx) ->
     exists resp effs, lookup_case env t q = Ok (resp, effs) /\
       source resp = Some "dataset" /\
       parsed resp = dataset_record (DATASET_ROWS t) code idx) /\
  (overrides env !! case_number q = None -> CASE_INDEX t !! case_number q = None ->
   USE_MOCK env = true ->
     exists resp effs, lookup_case env t q = Ok (resp, effs) /\
       source resp = Some "mock" /\ parsed resp = lookup_mock q) /\
  (overrides env !! case_number q = None -> CASE_INDEX t !! case_number q = None ->
   USE_MOCK env = false ->
     (forall resp effs, lookup_case env t q = Ok (resp, effs) -> source resp = Some "live") /\
     (forall w m, live_failure env q = Some (w, m) ->
        exists resp effs, lookup_case env t q = Ok (resp, effs) /\
          source resp = Some "live")) /\
  (forall e, lookup_case env t q = Raise e ->
     e = AttributeError /\
     (is_Some (overrides env !! case_number q) \/
      (USE_MOCK env = false /\ live_failure env q = None))).
Proof.
  split; [|split; [|split; [|split; [|split]]]].
  - intros resp effs Hok. apply lookup_case_inv in Hok as [_ Hsrc].
    rewrite lookup_details_tag in Hsrc. eexists. split; [exact Hsrc|].
    unfold tier_tags. destruct (no_details _); [destruct (USE_MOCK env)|]; simpl; auto.
  - intros rec Hov Hne resp effs Hok. apply lookup_case_inv in Hok as [Hp Hsrc].
    assert (Hrec : _dataset_lookup_by_case (overrides env) t (case_number q) = Some rec).
    { unfold _dataset_lookup_by_case. rewrite Hov. reflexivity. }
    rewrite (lookup_details_found env t q rec Hrec Hne) in Hp, Hsrc. auto.
  - intros code idx Hov Hix. apply lookup_case_dataset; assumption.
  - intros Hov Hix Hmock.
    destruct (lookup_case_mock env t q Hov Hix Hmock) as (resp & effs & Hok & Hs & Hp & _).
    eauto.
  - intros Hov Hix Hmock.
    pose proof (no_details_unmatched _ _ _ Hov Hix) as Hno. split.
    + intros resp effs Hok. apply lookup_case_inv in Hok as [_ Hsrc].
      rewrite lookup_details_tag, Hno, Hmock in Hsrc. exact Hsrc.
    + intros w m Hfail.
      destruct (lookup_case_live_failure env t q w m Hov Hix Hmock Hfail)
        as (resp & effs & Hok & Hs & _).
      eauto.
  - intros e Hraise. split; [apply lookup_case_raise in Hraise as [-> _]; reflexivity|].
    destruct (overrides env !! case_number q) as [rec|] eqn:Hov; [left; eauto|right].
    destruct (CASE_INDEX t !! case_number q) as [[code idx]|] eqn:Hix.
    { destruct (lookup_case_dataset env t q code idx Hov Hix) as (resp & effs & Hok & _).
      congruence. }
    destruct (USE_MOCK env) eqn:Hmock.
    { destruct (lookup_case_mock env t q Hov Hix Hmock) as (resp & effs & Hok & _).
      congruence. }
    split; [reflexivity|].
    destruct (live_failure env q) as [[w m]|] eqn:Hfail; [|reflexivity].
    destruct (lookup_case_live_failure env t q w m Hov Hix Hmock Hfail)
      as (resp & effs & Hok & _).
    congruence.
Qed.

Lemma lookup_source_tag_witness :
  (exists resp effs,
      lookup_case env_mock shadowed_tables query_8152 = Ok (resp, effs) /\
      source resp = Some "dataset" /\
      dict_get (parsed resp) "parties" = Some (VStr "Alice Sharma vs State of Odisha")) /\
  (exists resp effs,
      lookup_case env_mock status_example_tables query_100 = Ok (resp, effs) /\
      source resp = Some "dataset" /\
      parsed resp = dataset_record (DATASET_ROWS status_example_tables) 100 0) /\
  (exists resp effs,
      lookup_case env_mock status_example_tables query_77 = Ok (resp, effs) /\
      source resp = Some "mock" /\ parsed resp = lookup_mock query_77) /\
  (exists resp effs,
      lookup_case env_no_scraper status_example_tables query_77 = Ok (resp, effs) /\
      source resp = Some "live").
Proof.
  split; [|split; [|split]].
  - destruct (lookup_source_tag env_mock shadowed_tables query_8152) as (_ & Hov & _).
    destruct (lookup_case env_mock shadowed_tables query_8152) as [[resp effs]|e] eqn:Hok;
      [|vm_compute in Hok; discriminate Hok].
    destruct (overrides env_mock !! case_number query_8152) as [rec|] eqn:Hrec;
      [|vm_compute in Hrec; discriminate Hrec].
    assert (Hne : rec <> []).
    { vm_compute in Hrec. injection Hrec as <-. discriminate. }
    destruct (Hov rec eq_refl Hne resp effs eq_refl) as [Hsrc Hp].
    exists resp, effs. split; [reflexivity|]. split; [exact Hsrc|].
    rewrite Hp. vm_compute in Hrec. injection Hrec as <-. reflexivity.
  - destruct (lookup_source_tag env_mock status_example_tables query_100)
      as (_ & _ & Hds & _).
    apply (Hds 100 0); reflexivity.
  - destruct (lookup_source_tag env_mock status_example_tables query_77)
      as (_ & _ & _ & Hmock & _).
    apply Hmock; reflexivity.
  - destruct (lookup_source_tag env_no_scraper status_example_tables query_77)
      as (_ & _ & _ & _ & Hlive & _).
    destruct (Hlive eq_refl eq_refl eq_refl) as [_ Hfail].
    apply (Hfail "import" "scraper not available"). reflexivity.
Defined.

(** ** The download handler *)

Lemma kv_demo_parties (case_type : string) :
  kv "Parties" (Some (VStr (case_type +:+ " Demo: Alice vs Bob")))
    = ("Parties", VStr (case_type +:+ " Demo: Alice vs Bob")).
Proof. destruct case_type; reflexivity. Qed.

(** C10. For a judgment download whose case number has neither an override
    nor an index entry, in mock mode, the record handed to the PDF writer is
    the fixed record with parties ["CIVIL Demo: Alice vs Bob"], filing date
    ["2023-07-18"], next hearing ["2025-10-10"] and status ["Listed"], and with
    ReportLab these are the lines of the regenerated document; the handler has
    no request body to depend on. The lookup handler answers the same case
    number with the parties ["{case_type} Demo: Alice vs Bob"] of the request
    at hand, and writes them to the document. *)
Theorem download_mock_record (env : Env) (t : Tables) (fname : string) (num : Z) :
  PyStr.startswith fname "judgment_" = true ->
  PyStr.endswith fname ".pdf" = true ->
  judgment_number fname = Some num ->
  overrides env !! num = None ->
  CASE_INDEX t !! num = None ->
  USE_MOCK env = true ->
  (exists resp doc,
      dl_file env t fname = Ok (resp, [WritePdf ("downloads/" +:+ fname) doc]) /\
      _create_pdf_with_details (REPORTLAB_OK env) ("downloads/" +:+ fname)
        ("Judgment for " +:+ PyStr.of_Z num)
        [ ("parties", VStr "CIVIL Demo: Alice vs Bob");
          ("filing_date", VStr "2023-07-18");
          ("next_hearing", VStr "2025-10-10");
          ("status", VStr "Listed");
          ("raw_source", VDict [("url", VStr "https://services.ecourts.gov.in")]) ]
        = Ok (WritePdf ("downloads/" +:+ fname) doc) /\
      (REPORTLAB_OK env = true ->
       doc = DetailPdf ("Judgment for " +:+ PyStr.of_Z num)
               [ ("Parties", VStr "CIVIL Demo: Alice vs Bob");
                 ("Filing Date", VStr "2023-07-18");
                 ("Next Hearing", VStr "2025-10-10"); ("Status", VStr "Listed");
                 ("Source", VStr "https://services.ecourts.gov.in") ])) /\
  (forall q, case_number q = num ->
     exists resp effs,
       lookup_case env t q = Ok (resp, effs) /\
       dict_get (parsed resp) "parties"
         = Some (VStr (case_type q +:+ " Demo: Alice vs Bob")) /\
       (REPORTLAB_OK env = true ->
        In (WritePdf ("downloads/" +:+ "judgment_" +:+ PyStr.of_Z num +:+ ".pdf")
              (DetailPdf ("Judgment for " +:+ PyStr.of_Z num)
                 [ ("Parties", VStr (case_type q +:+ " Demo: Alice vs Bob"));
                   ("Filing Date", VStr "2023-07-18");
                   ("Next Hearing", VStr "2025-10-10"); ("Status", VStr "Listed");
                   ("Source", VStr "https://services.ecourts.gov.in") ])) effs)).
Proof.
  intros Hstart Hend Hnum Hov Hix Hmock. split.
  - unfold dl_file. rewrite Hstart, Hend, Hnum. cbn [andb].
    rewrite (no_details_unmatched _ _ _ Hov Hix), Hmock.
    fold download_mock. rewrite create_pdf_download_mock.
    eexists. eexists. split; [reflexivity|]. split; [reflexivity|].
    intros ->. reflexivity.
  - intros q <-.
    destruct (lookup_case_mock env t q Hov Hix Hmock) as (resp & effs & Hok & _ & Hp & Hin).
    exists resp, effs. split; [exact Hok|]. split; [rewrite Hp; reflexivity|].
    intros Hrl. rewrite Hrl, kv_demo_parties in Hin. exact Hin.
Qed.

Lemma download_mock_record_witness :
  (exists resp,
      dl_file env_mock status_example_tables "judgment_77.pdf"
        = Ok (resp, [WritePdf "downloads/judgment_77.pdf"
                       (DetailPdf "Judgment for 77"
                          [ ("Parties", VStr "CIVIL Demo: Alice vs Bob");
                            ("Filing Date", VStr "2023-07-18");
                            ("Next Hearing", VStr "2025-10-10"); ("Status", VStr "Listed");
                            ("Source", VStr "https://services.ecourts.gov.in") ])])) /\
  (exists resp effs,
      lookup_case env_mock status_example_tables query_77 = Ok (resp, effs) /\
      dict_get (parsed resp) "parties" = Some (VStr "Civil Demo: Alice vs Bob")).
Proof.
  destruct (download_mock_record env_mock status_example_tables "judgment_77.pdf" 77)
    as [(resp & doc & Hdl & _ & Hdoc) Hlk]; try reflexivity.
  split.
  - exists resp. rewrite Hdl, (Hdoc eq_refl). reflexivity.
  - destruct (Hlk query_77 eq_refl) as (resp' & effs & Hok & Hp' & _).
    exists resp', effs. split; [exact Hok | exact Hp'].
Defined.
(** ** The index build *)

Lemma load_file_parsed (st : Tables * result Z) (entry : string * read_result) :
  load_file st entry =
    match parsed_entry entry with
    | Some d => load_dataset st d
    | None => st
    end.
Proof.
  unfold load_file, parsed_entry, load_dataset. destruct st as [t [total|e]];
    (destruct (parse_code (fst entry)) as [code|]; [|reflexivity]);
    (destruct (snd entry) as [|df]; [reflexivity|]);
    destruct (df_empty df); reflexivity.
Qed.

Lemma load_files_parsed (entries : Directory) (st : Tables * result Z) :
  fold_left load_file entries st = fold_left load_dataset (omap parsed_entry entries) st.
Proof.
  revert st. induction entries as [|e entries IH]; intros st; [reflexivity|].
  cbn [fold_left]. rewrite load_file_parsed.
  change (omap parsed_entry (e :: entries))
    with (match parsed_entry e with
          | Some d => d :: omap parsed_entry entries
          | None => omap parsed_entry entries
          end).
  destruct (parsed_entry e) as [d|]; cbn [fold_left]; apply IH.
Qed.

Lemma load_folders_parsed (fs : FileSystem) (dirs : list string) (st : Tables * result Z) :
  fold_left (load_folder fs) dirs st =
    fold_left load_dataset
      (flat_map (fun folder => omap parsed_entry (glob_reports fs folder)) dirs) st.
Proof.
  revert st. induction dirs as [|d dirs IH]; intros st; [reflexivity|].
  cbn [fold_left flat_map]. rewrite fold_left_app, IH.
  unfold load_folder at 1. rewrite load_files_parsed. reflexivity.
Qed.

(** The build is a left fold of [load_dataset] over the parsed datasets,
    from the cleared tables; what the tables held before plays no part. *)
Lemma load_ndap_datasets_fold (fs : FileSystem) (t : Tables) :
  _load_ndap_datasets fs t
    = fold_left load_dataset (parsed_datasets fs) (cleared_tables fs, Ok 0).
Proof. unfold _load_ndap_datasets. cbn [set_scanned SCANNED_DIRS]. apply load_folders_parsed. Qed.

(** C6. Running the index build again over the same files, enumerated in
    the same order, leaves the row, summary and case-index tables (and the
    scanned folders) as the first run left them, and returns the same total,
    whatever the tables held before the first run. *)
Theorem load_twice_same_tables (fs : FileSystem) (t : Tables) :
  _load_ndap_datasets fs (fst (_load_ndap_datasets fs t)) = _load_ndap_datasets fs t /\
  DATASET_ROWS (fst (_load_ndap_datasets fs (fst (_load_ndap_datasets fs t))))
    = DATASET_ROWS (fst (_load_ndap_datasets fs t)) /\
  DATASET_SUMMARY (fst (_load_ndap_datasets fs (fst (_load_ndap_datasets fs t))))
    = DATASET_SUMMARY (fst (_load_ndap_datasets fs t)) /\
  CASE_INDEX (fst (_load_ndap_datasets fs (fst (_load_ndap_datasets fs t))))
    = CASE_INDEX (fst (_load_ndap_datasets fs t)).
Proof.
  assert (H : _load_ndap_datasets fs (fst (_load_ndap_datasets fs t))
              = _load_ndap_datasets fs t).
  { rewrite !load_ndap_datasets_fold. reflexivity. }
  rewrite H. auto.
Qed.

(** *** Row loop *)

Lemma stored_row_None (l : label) (rs : list (label * list cell)) :
  stored_row l rs = None <-> l ∉ List.map fst rs.
Proof.
  induction rs as [|[l' row] rs IH]; cbn [stored_row List.map fst].
  - split; [intros _; apply not_elem_of_nil|reflexivity].
  - rewrite not_elem_of_cons, <- IH.
    destruct (stored_row l rs) as [r|].
    + split; [discriminate|]. intros [_ [=]].
    + case_bool_decide as Hl.
      * split; [discriminate|]. intros [Hne _]. congruence.
      * split; [|reflexivity]. intros _. split; [congruence|reflexivity].
Qed.

(** The last row with a label is the one stored. *)
Lemma stored_row_last (l : label) (row : list cell) (rs1 rs2 : list (label * list cell)) :
  l ∉ List.map fst rs2 -> stored_row l (rs1 ++ (l, row) :: rs2) = Some row.
Proof.
  intros Hl. apply stored_row_None in Hl.
  induction rs1 as [|[l' row'] rs1 IH].
  - cbn [app stored_row]. rewrite Hl, bool_decide_eq_true_2 by reflexivity. reflexivity.
  - cbn [app stored_row]. rewrite IH. reflexivity.
Qed.

Lemma range_from_labels (rs : list (list cell)) (start : Z) (l : label) :
  l ∈ List.map fst (range_from start rs) <->
  exists i, l = LInt i /\ start <= i < start + Z.of_nat (List.length rs).
Proof.
  revert start. induction rs as [|row rs IH]; intros start; cbn [range_from List.map fst].
  - split; [intros H; apply elem_of_nil in H; contradiction|].
    intros (i & _ & Hi). cbn [List.length] in Hi. lia.
  - rewrite elem_of_cons, IH. cbn [List.length]. split.
    + intros [->|(i & -> & Hi)]; [exists start|exists i]; split; try reflexivity; lia.
    + intros (i & -> & Hi). destruct (decide (i = start)) as [->|Hne]; [left; reflexivity|].
      right. exists i. split; [reflexivity|lia].
Qed.

Section LoadRows.
Variables (code : Z) (cols : list string) (ycol : option string).

Lemma load_rows_summary (rs : list (label * list cell)) (t : Tables) :
  DATASET_SUMMARY (fst (load_rows code cols ycol rs t)) = DATASET_SUMMARY t.
Proof.
  revert t. induction rs as [|[[z|s] row] rs IH]; intros t; [reflexivity| |reflexivity].
  cbn [load_rows label_is_zero]. rewrite IH. destruct (z =? 0); reflexivity.
Qed.

Lemma load_rows_scanned (rs : list (label * list cell)) (t : Tables) :
  SCANNED_DIRS (fst (load_rows code cols ycol rs t)) = SCANNED_DIRS t.
Proof.
  revert t. induction rs as [|[[z|s] row] rs IH]; intros t; [reflexivity| |reflexivity].
  cbn [load_rows label_is_zero]. rewrite IH. destruct (z =? 0); reflexivity.
Qed.

(** The loop runs to its end exactly when every label is an [int]. *)
Lemma load_rows_result (rs : list (label * list cell)) (t : Tables) :
  snd (load_rows code cols ycol rs t)
    = if forallb is_int (List.map fst rs) then Ok tt else Raise TypeError.
Proof.
  revert t. induction rs as [|[[z|s] row] rs IH]; intros t; [reflexivity| |reflexivity].
  cbn [load_rows List.map fst forallb is_int andb]. apply IH.
Qed.

(** The loop leaves alone every key that is not the code plus a label. *)
Lemma load_rows_index_other (rs : list (label * list cell)) (t : Tables) (k : Z) :
  LInt (k - code) ∉ List.map fst rs ->
  CASE_INDEX (fst (load_rows code cols ycol rs t)) !! k = CASE_INDEX t !! k.
Proof.
  revert t. induction rs as [|[[z|s] row] rs IH]; intros t Hk; [reflexivity| |reflexivity].
  cbn [List.map fst] in Hk. apply not_elem_of_cons in Hk as [Hz Hk].
  assert (k - code <> z) by congruence.
  cbn [load_rows label_is_zero]. rewrite IH by exact Hk.
  destruct (z =? 0) eqn:E0; cbn [set_index set_rows CASE_INDEX].
  - apply Z.eqb_eq in E0. rewrite !lookup_insert_ne by lia. reflexivity.
  - rewrite lookup_insert_ne by lia. reflexivity.
Qed.

(** After a loop over integer labels, the index holds [(code, k - code)]
    at every key [k] that is the code plus a label. *)
Lemma load_rows_index (rs : list (label * list cell)) (t : Tables) (k : Z) :
  forallb is_int (List.map fst rs) = true ->
  CASE_INDEX (fst (load_rows code cols ycol rs t)) !! k =
    if bool_decide (LInt (k - code) ∈ List.map fst rs)
    then Some (code, k - code)
    else CASE_INDEX t !! k.
Proof.
  intros Hint. case_bool_decide as Hin; [|apply load_rows_index_other; exact Hin].
  revert t Hint Hin. induction rs as [|[[z|s] row] rs IH]; intros t Hint Hin.
  - apply elem_of_nil in Hin. contradiction.
  - cbn [List.map fst forallb is_int andb] in Hint, Hin. cbn [load_rows label_is_zero].
    destruct (decide (LInt (k - code) ∈ List.map fst rs)) as [Hrest|Hrest].
    + apply IH; assumption.
    + rewrite load_rows_index_other by exact Hrest.
      apply elem_of_cons in Hin as [[= Hz]|Hin]; [|contradiction].
      replace (code + z) with k by lia. cbn [set_index CASE_INDEX].
      rewrite lookup_insert_eq. rewrite Hz. reflexivity.
  - discriminate Hint.
Qed.

(** The loop leaves alone every row key of another code or label. *)
Lemma load_rows_rows_other (rs : list (label * list cell)) (t : Tables) (c : Z) (l : label) :
  c <> code \/ l ∉ List.map fst rs ->
  DATASET_ROWS (fst (load_rows code cols ycol rs t)) !! (c, l) = DATASET_ROWS t !! (c, l).
Proof.
  revert t. induction rs as [|[l' row] rs IH]; intros t Hk; [reflexivity|].
  assert (Hne : (code, l') <> (c, l)).
  { intros [= <- <-]. destruct Hk as [Hc|Hl]; [contradiction|].
    apply Hl. cbn [List.map fst]. left. }
  assert (Hrest : c <> code \/ l ∉ List.map fst rs).
  { destruct Hk as [Hc|Hl]; [left; exact Hc|right].
    cbn [List.map fst] in Hl. apply not_elem_of_cons in Hl as [_ Hl]. exact Hl. }
  destruct l' as [z|s]; cbn [load_rows label_is_zero].
  - rewrite IH by exact Hrest.
    destruct (z =? 0); cbn [set_index set_rows DATASET_ROWS];
      rewrite lookup_insert_ne by exact Hne; reflexivity.
  - cbn [fst set_rows DATASET_ROWS]. rewrite lookup_insert_ne by exact Hne. reflexivity.
Qed.

(** After a loop over integer labels, the row table holds under
    [(code, l)] the last row labelled [l]. *)
Lemma load_rows_rows (rs : list (label * list cell)) (t : Tables) (l : label) :
  forallb is_int (List.map fst rs) = true ->
  DATASET_ROWS (fst (load_rows code cols ycol rs t)) !! (code, l) =
    match stored_row l rs with
    | Some row => Some {| dataset_code := code; row_index := l;
                          data := make_row_dict cols row; year_col := ycol |}
    | None => DATASET_ROWS t !! (code, l)
    end.
Proof.
  revert t. induction rs as [|[[z|s] row] rs IH]; intros t Hint.
  - reflexivity.
  - cbn [List.map fst forallb is_int andb] in Hint. cbn [load_rows label_is_zero stored_row].
    rewrite IH by exact Hint.
    destruct (stored_row l rs) as [r|]; [reflexivity|].
    case_bool_decide as Hl.
    + subst l. destruct (z =? 0); cbn [set_index set_rows DATASET_ROWS];
        rewrite lookup_insert_eq; reflexivity.
    + destruct (z =? 0); cbn [set_index set_rows DATASET_ROWS];
        rewrite lookup_insert_ne by congruence; reflexivity.
  - discriminate Hint.
Qed.

(** A key that the loop leaves in the index names a row that it leaves in
    the row table, and the other way round for integer labels; this holds
    also when the loop raises. *)
Lemma load_rows_consistent (rs : list (label * list cell)) (t : Tables) :
  is_Some (DATASET_SUMMARY t !! code) ->
  tables_consistent t -> tables_consistent (fst (load_rows code cols ycol rs t)).
Proof.
  intros Hsum. revert t Hsum.
  induction rs as [|[l row] rs IH]; intros t Hsum Hcons; [exact Hcons|].
  set (entry := {| dataset_code := code; row_index := l;
                   data := make_row_dict cols row; year_col := ycol |}).
  set (t1 := set_rows (insert (code, l) entry) t).
  assert (Hcons1 : forall t2,
            DATASET_ROWS t2 = DATASET_ROWS t1 ->
            DATASET_SUMMARY t2 = DATASET_SUMMARY t ->
            (forall k, CASE_INDEX t2 !! k = CASE_INDEX t !! k \/
                       exists z, l = LInt z /\ k = code + z /\
                                 CASE_INDEX t2 !! k = Some (code, z)) ->
            (forall z, l = LInt z -> is_Some (CASE_INDEX t2 !! (code + z))) ->
            tables_consistent t2).
  { intros t2 Hrows Hsummary Hindex Hown. destruct Hcons as [Hidx Hrow]. split.
    - intros k c i Hk. destruct (Hindex k) as [Hsame|(z & -> & -> & Hnew)].
      + rewrite Hsame in Hk. destruct (Hidx k c i Hk) as [-> Hstored].
        split; [reflexivity|]. rewrite Hrows. unfold t1. cbn [set_rows DATASET_ROWS].
        apply lookup_insert_is_Some'. right. exact Hstored.
      + rewrite Hnew in Hk. injection Hk as <- <-. split; [reflexivity|].
        rewrite Hrows. unfold t1. cbn [set_rows DATASET_ROWS].
        apply lookup_insert_is_Some'. left. reflexivity.
    - intros c l0 r. rewrite Hrows. unfold t1. cbn [set_rows DATASET_ROWS].
      destruct (decide ((code, l) = (c, l0))) as [[= <- <-]|Hne].
      + rewrite lookup_insert_eq. intros [= <-]. cbn [entry dataset_code row_index].
        split; [reflexivity|]. split; [reflexivity|]. split; [rewrite Hsummary; exact Hsum|].
        exact Hown.
      + rewrite lookup_insert_ne by exact Hne. intros Hr.
        destruct (Hrow c l0 r Hr) as (Hc & Hl & Hs & Hi).
        split; [exact Hc|]. split; [exact Hl|]. split; [rewrite Hsummary; exact Hs|].
        intros i Hi0. destruct (Hindex (c + i)) as [Hsame|(z & _ & _ & Hnew)].
        * rewrite Hsame. apply Hi. exact Hi0.
        * rewrite Hnew. eauto. }
  destruct l as [z|s]; cbn [load_rows label_is_zero]; fold entry; fold t1.
  - apply IH.
    + destruct (z =? 0); exact Hsum.
    + apply Hcons1.
      * destruct (z =? 0); reflexivity.
      * destruct (z =? 0); reflexivity.
      * intros k. destruct (decide (k = code + z)) as [->|Hne].
        -- right. exists z. split; [reflexivity|]. split; [reflexivity|].
           cbn [set_index CASE_INDEX]. apply lookup_insert_eq.
        -- left. destruct (z =? 0) eqn:E0; cbn [set_index set_rows CASE_INDEX t1].
           ++ apply Z.eqb_eq in E0. rewrite !lookup_insert_ne by lia. reflexivity.
           ++ rewrite lookup_insert_ne by lia. reflexivity.
      * intros z' [= <-]. cbn [set_index CASE_INDEX]. rewrite lookup_insert_eq. eauto.
  - cbn [fst]. apply Hcons1; try reflexivity.
    + intros k. left. reflexivity.
    + intros z [=].
Qed.
End LoadRows.
(** *** Datasets *)

Lemma load_dataset_eq (t : Tables) (n : Z) (d : Z * DataFrame) :
  load_dataset (t, Ok n) d =
    (dataset_tables t d,
     if forallb is_int (labels (snd d)) then Ok (n + df_len (snd d)) else Raise TypeError).
Proof.
  unfold load_dataset, dataset_tables, labels.
  pose proof (load_rows_result (fst d) (columns (snd d)) (find_year_col (columns (snd d)))
                (rows (snd d)) (set_summary (insert (fst d) (df_len (snd d))) t)) as Hres.
  destruct (load_rows _ _ _ _ _) as [t' r]. cbn [fst snd] in *. subst r.
  destruct (forallb is_int _); reflexivity.
Qed.

(** Once an exception is raised, no further dataset is taken in. *)
Lemma load_datasets_raised (ds : list (Z * DataFrame)) (t : Tables) (e : exn) :
  fold_left load_dataset ds (t, Raise e) = (t, Raise e).
Proof. induction ds as [|d ds IH]; [reflexivity|exact IH]. Qed.

Lemma load_datasets_reached (ds : list (Z * DataFrame)) (t : Tables) (n : Z) :
  fold_left load_dataset ds (t, Ok n) =
    (fold_left dataset_tables (reached ds) t,
     if int_labelled ds then Ok (n + rows_total ds) else Raise TypeError).
Proof.
  revert t n. induction ds as [|d ds IH]; intros t n.
  - cbn. f_equal. f_equal. lia.
  - change (rows_total (d :: ds)) with (df_len (snd d) + rows_total ds).
    cbn [fold_left reached int_labelled forallb]. rewrite load_dataset_eq.
    destruct (forallb is_int (labels (snd d))); cbn [andb].
    + rewrite IH. cbn [fold_left]. fold (int_labelled ds).
      destruct (int_labelled ds); [|reflexivity]. f_equal. f_equal. lia.
    + apply load_datasets_raised.
Qed.

Lemma reached_int_labelled (ds : list (Z * DataFrame)) :
  int_labelled ds = true -> reached ds = ds.
Proof.
  induction ds as [|d ds IH]; [reflexivity|].
  cbn [int_labelled forallb reached]. rewrite andb_true_iff. intros [-> Hds].
  f_equal. apply IH. exact Hds.
Qed.

(** What a build gets to is a prefix of what it was given. *)
Lemma reached_prefix (ds : list (Z * DataFrame)) :
  exists rest, ds = (reached ds ++ rest)%list.
Proof.
  induction ds as [|d ds [rest IH]]; [exists []; reflexivity|].
  cbn [reached]. destruct (forallb is_int (labels (snd d))).
  - exists rest. cbn [app]. f_equal. exact IH.
  - exists ds. reflexivity.
Qed.

Lemma reached_elem (ds : list (Z * DataFrame)) (d : Z * DataFrame) :
  d ∈ reached ds -> d ∈ ds.
Proof.
  destruct (reached_prefix ds) as [rest Hds]. intros Hd.
  rewrite Hds. apply elem_of_app. left. exact Hd.
Qed.

(** The build leaves the tables that taking in the reached datasets one
    after the other gives, from the cleared tables; it returns the total of
    the row counts, or raises when a label is no number. *)
Lemma load_ndap_datasets_reached (fs : FileSystem) (t : Tables) :
  _load_ndap_datasets fs t =
    (fold_left dataset_tables (reached (parsed_datasets fs)) (cleared_tables fs),
     if int_labelled (parsed_datasets fs) then Ok (rows_total (parsed_datasets fs))
     else Raise TypeError).
Proof. rewrite load_ndap_datasets_fold, load_datasets_reached. reflexivity. Qed.

Lemma load_ndap_datasets_tables (fs : FileSystem) (t : Tables) :
  int_labelled (parsed_datasets fs) = true ->
  fst (_load_ndap_datasets fs t)
    = fold_left dataset_tables (parsed_datasets fs) (cleared_tables fs).
Proof.
  intros Hint. rewrite load_ndap_datasets_reached, reached_int_labelled by exact Hint.
  reflexivity.
Qed.

(** *** Totals *)

Lemma dataset_tables_summary (t : Tables) (d : Z * DataFrame) :
  DATASET_SUMMARY (dataset_tables t d) = <[fst d := df_len (snd d)]> (DATASET_SUMMARY t).
Proof. unfold dataset_tables. apply load_rows_summary. Qed.

Lemma dataset_tables_scanned (ds : list (Z * DataFrame)) (t : Tables) :
  SCANNED_DIRS (fold_left dataset_tables ds t) = SCANNED_DIRS t.
Proof.
  revert t. induction ds as [|d ds IH]; intros t; [reflexivity|].
  cbn [fold_left]. rewrite IH. unfold dataset_tables. rewrite load_rows_scanned.
  reflexivity.
Qed.





(** *** The case index *)

Lemma dataset_tables_index_other (t : Tables) (d : Z * DataFrame) (k : Z) :
  ~ covers d k ->
  CASE_INDEX (dataset_tables t d) !! k = CASE_INDEX t !! k.
Proof. intros Hk. unfold dataset_tables. rewrite load_rows_index_other by exact Hk. reflexivity. Qed.

Lemma dataset_tables_index (t : Tables) (d : Z * DataFrame) (k : Z) :
  forallb is_int (labels (snd d)) = true ->
  CASE_INDEX (dataset_tables t d) !! k =
    if bool_decide (covers d k) then Some (fst d, k - fst d)
    else CASE_INDEX t !! k.
Proof. intros Hint. unfold dataset_tables. rewrite load_rows_index by exact Hint. reflexivity. Qed.

Lemma dataset_tables_rows_other (t : Tables) (d : Z * DataFrame) (c : Z) (l : label) :
  c <> fst d \/ l ∉ labels (snd d) ->
  DATASET_ROWS (dataset_tables t d) !! (c, l) = DATASET_ROWS t !! (c, l).
Proof. intros Hk. unfold dataset_tables. rewrite load_rows_rows_other by exact Hk. reflexivity. Qed.

Lemma dataset_tables_rows (t : Tables) (d : Z * DataFrame) (l : label) :
  forallb is_int (labels (snd d)) = true ->
  DATASET_ROWS (dataset_tables t d) !! (fst d, l) =
    match stored_row l (rows (snd d)) with
    | Some row => Some (row_entry (fst d) (snd d) l row)
    | None => DATASET_ROWS t !! (fst d, l)
    end.
Proof. intros Hint. unfold dataset_tables. rewrite load_rows_rows by exact Hint. reflexivity. Qed.

(** Datasets that do not cover a key leave its index entry alone. *)
Lemma tables_index_other (ds : list (Z * DataFrame)) (t : Tables) (k : Z) :
  (forall d, d ∈ ds -> ~ covers d k) ->
  CASE_INDEX (fold_left dataset_tables ds t) !! k = CASE_INDEX t !! k.
Proof.
  revert t. induction ds as [|d ds IH]; intros t Hnc; [reflexivity|].
  cbn [fold_left]. rewrite IH by (intros d' Hd'; apply Hnc; right; exact Hd').
  apply dataset_tables_index_other, Hnc. left.
Qed.

(** Datasets that do not cover the key [c + i] leave the row [(c, i)]
    alone. *)
Lemma tables_rows_other (ds : list (Z * DataFrame)) (t : Tables) (c i : Z) :
  (forall d, d ∈ ds -> ~ covers d (c + i)) ->
  DATASET_ROWS (fold_left dataset_tables ds t) !! (c, LInt i)
    = DATASET_ROWS t !! (c, LInt i).
Proof.
  revert t. induction ds as [|d ds IH]; intros t Hnc; [reflexivity|].
  cbn [fold_left]. rewrite IH by (intros d' Hd'; apply Hnc; right; exact Hd').
  apply dataset_tables_rows_other.
  destruct (decide (c = fst d)) as [->|Hne]; [right|left; exact Hne].
  intros Hin. apply (Hnc d); [left|]. unfold covers.
  replace (fst d + i - fst d) with i by lia. exact Hin.
Qed.

(** Last write wins in the index: the entry of the last dataset that covers
    a key. *)
Lemma tables_index_last (ds1 ds2 : list (Z * DataFrame)) (d : Z * DataFrame)
    (t : Tables) (k : Z) :
  forallb is_int (labels (snd d)) = true ->
  covers d k ->
  (forall d', d' ∈ ds2 -> ~ covers d' k) ->
  CASE_INDEX (fold_left dataset_tables (ds1 ++ d :: ds2) t) !! k = Some (fst d, k - fst d).
Proof.
  intros Hint Hcov Hlater. rewrite fold_left_app. cbn [fold_left].
  rewrite tables_index_other by exact Hlater.
  rewrite dataset_tables_index, bool_decide_eq_true_2 by assumption. reflexivity.
Qed.

(** Last write wins in the row table: the last row with the label [i] of
    the last dataset that covers [c + i]. *)
Lemma tables_rows_last (ds1 ds2 : list (Z * DataFrame)) (c : Z) (df : DataFrame)
    (t : Tables) (i : Z) (row : list cell) :
  forallb is_int (labels df) = true ->
  stored_row (LInt i) (rows df) = Some row ->
  (forall d, d ∈ ds2 -> ~ covers d (c + i)) ->
  DATASET_ROWS (fold_left dataset_tables (ds1 ++ (c, df) :: ds2) t) !! (c, LInt i)
    = Some (row_entry c df (LInt i) row).
Proof.
  intros Hint Hrow Hlater. rewrite fold_left_app. cbn [fold_left].
  rewrite tables_rows_other by exact Hlater.
  rewrite (dataset_tables_rows _ (c, df)) by exact Hint. cbn [fst snd]. rewrite Hrow.
  reflexivity.
Qed.

Lemma int_labelled_elem (ds : list (Z * DataFrame)) (d : Z * DataFrame) :
  int_labelled ds = true -> d ∈ ds -> forallb is_int (labels (snd d)) = true.
Proof.
  unfold int_labelled. rewrite forallb_forall. intros Hall Hd.
  apply Hall, list_elem_of_In, Hd.
Qed.

Lemma covers_label (c : Z) (df : DataFrame) (i : Z) :
  covers (c, df) (c + i) <-> LInt i ∈ labels df.
Proof. unfold covers. cbn [fst snd]. replace (c + i - c) with i by lia. reflexivity. Qed.

Lemma parsed_entry_not_empty (entry : string * read_result) (c : Z) (df : DataFrame) :
  parsed_entry entry = Some (c, df) -> df_empty df = false.
Proof.
  unfold parsed_entry. destruct (parse_code (fst entry)); [|discriminate].
  destruct (snd entry) as [|df']; [discriminate|].
  destruct (df_empty df') eqn:E; [discriminate|]. intros [= _ <-]. exact E.
Qed.

(** Every dataset the build takes in has a first row. *)
Lemma parsed_datasets_first_row (fs : FileSystem) (c : Z) (df : DataFrame) :
  (c, df) ∈ parsed_datasets fs -> exists r, rows df !! 0%nat = Some r.
Proof.
  intros Hin. apply list_elem_of_In, in_flat_map in Hin as (folder & _ & Hin).
  apply list_elem_of_In, list_elem_of_omap in Hin as (entry & _ & Hentry).
  apply parsed_entry_not_empty in Hentry. unfold df_empty in Hentry.
  destruct (rows df) as [|r rs]; [discriminate|]. exists r. reflexivity.
Qed.





(** * Further properties of the code *)

(** ** Field completion, continued *)

Lemma dict_set_absent {V : Type} (d : list (string * V)) (k : string) (v : V) :
  dict_get d k = None -> dict_set d k v = (d ++ [(k, v)])%list.
Proof.
  induction d as [|[k0 v0] d IH]; simpl; [reflexivity|].
  destruct (String.eqb k0 k); [discriminate|]. intros H. rewrite IH by exact H. reflexivity.
Qed.

Lemma dict_get_app {V : Type} (d1 d2 : list (string * V)) (k : string) :
  dict_get (d1 ++ d2)%list k =
    match dict_get d1 k with
    | Some x => Some x
    | None => dict_get d2 k
    end.
Proof.
  induction d1 as [|[k0 v0] d1 IH]; simpl; [reflexivity|].
  destruct (String.eqb k0 k); [reflexivity|exact IH].
Qed.

(** A run of [setdefault] calls with distinct keys appends, in order, the
    defaults whose keys are missing. *)
Lemma fold_setdefault {V : Type} (defs d : list (string * V)) :
  NoDup (List.map fst defs) ->
  fold_left (fun acc kv => setdefault acc (fst kv) (snd kv)) defs d
    = (d ++ List.filter (fun kv => absent d (fst kv)) defs)%list.
Proof.
  revert d. induction defs as [|[k v] defs IH]; intros d Hnd.
  - simpl. rewrite app_nil_r. reflexivity.
  - apply NoDup_cons in Hnd as [Hk Hnd]. cbn [fold_left List.filter fst snd].
    rewrite IH by exact Hnd. unfold setdefault, absent at 2.
    destruct (dict_get d k) as [x|] eqn:Hget; [reflexivity|].
    rewrite (dict_set_absent d k v Hget), <- app_assoc. cbn [app]. f_equal. f_equal.
    apply filter_ext_in. intros [k' v'] Hin. unfold absent. cbn [fst].
    rewrite dict_get_app. destruct (dict_get d k'); [reflexivity|].
    cbn [dict_get]. destruct (String.eqb k k') eqn:E; [|reflexivity].
    apply String.eqb_eq in E. subst k'. exfalso. apply Hk.
    apply list_elem_of_In. apply (in_map fst) in Hin. exact Hin.
Qed.

(** On a non-empty dict the completion pass appends the defaults of the
    missing keys and touches nothing else. *)
Lemma ensure_min_fields_closed_form (d : pydict) :
  d <> [] ->
  _ensure_min_fields (VDict d)
    = (d ++ List.filter (fun kv => absent d (fst kv)) min_defaults)%list.
Proof.
  intros Hne. destruct d as [|e d]; [contradiction|].
  rewrite <- (fold_setdefault min_defaults (e :: d)).
  - reflexivity.
  - apply (bool_decide_eq_true_1 (NoDup (List.map fst min_defaults))). reflexivity.
Qed.

(** X1. On a non-empty dict the completion pass only appends: the result is
    the input, entry for entry and in the same order, followed by the
    defaults of exactly those of [parties], [filing_date], [next_hearing],
    [status], [raw_source] that the input lacks, in that order; so it adds at
    most five entries. *)
Theorem ensure_min_fields_appends (d : pydict) :
  d <> [] ->
  _ensure_min_fields (VDict d)
    = (d ++ List.filter (fun kv => absent d (fst kv)) min_defaults)%list /\
  (List.length (_ensure_min_fields (VDict d)) <= List.length d + 5)%nat.
Proof.
  intros Hne. rewrite (ensure_min_fields_closed_form d Hne). split; [reflexivity|].
  rewrite length_app.
  pose proof (filter_length_le (fun kv => absent d (fst kv)) min_defaults) as Hle.
  change (List.length min_defaults) with 5%nat in Hle. lia.
Qed.

Lemma ensure_min_fields_appends_witness :
  _ensure_min_fields (VDict [("status", VStr "Listed"); ("note", VNone)])
    = [ ("status", VStr "Listed"); ("note", VNone);
        ("parties", VStr "N/A"); ("filing_date", VStr "N/A");
        ("next_hearing", VStr "N/A"); ("raw_source", VDict [("url", VStr "")]) ].
Proof.
  destruct (ensure_min_fields_appends [("status", VStr "Listed"); ("note", VNone)])
    as [-> _]; [discriminate|reflexivity].
Defined.

Lemma ensure_min_fields_not_empty (v : pyval) : _ensure_min_fields v <> [].
Proof.
  intros H. pose proof (ensure_min_fields_get v "parties") as Hget.
  rewrite H in Hget. cbn [dict_get] in Hget.
  destruct (dict_get _ "parties"); discriminate.
Qed.

Lemma ensure_min_fields_complete (v : pyval) (kv : string * pyval) :
  In kv min_defaults -> absent (_ensure_min_fields v) (fst kv) = false.
Proof.
  intros Hin. unfold absent. rewrite ensure_min_fields_get.
  destruct (dict_get _ (fst kv)); [reflexivity|].
  simpl in Hin. destruct Hin as [<-|[<-|[<-|[<-|[<-|[]]]]]]; reflexivity.
Qed.

Lemma filter_none {A : Type} (f : A -> bool) (l : list A) :
  (forall x, In x l -> f x = false) -> List.filter f l = [].
Proof.
  induction l as [|x l IH]; intros H; [reflexivity|]. cbn [List.filter].
  rewrite (H x) by (left; reflexivity). apply IH. intros y Hy. apply H. right. exact Hy.
Qed.

(** A dict that has the five keys passes through unchanged. *)
Lemma ensure_min_fields_fixed (d : pydict) :
  forallb (fun kv => negb (absent d (fst kv))) min_defaults = true ->
  _ensure_min_fields (VDict d) = d.
Proof.
  intros Hall. destruct d as [|e d]; [discriminate Hall|].
  rewrite ensure_min_fields_closed_form by discriminate.
  rewrite filter_none; [apply app_nil_r|].
  intros kv Hin. rewrite forallb_forall in Hall. specialize (Hall kv Hin).
  destruct (absent (e :: d) (fst kv)); [discriminate|reflexivity].
Qed.

(** X2. The completion pass is idempotent, and it returns a dict input
    unchanged exactly when the input already has the five keys. *)
Theorem ensure_min_fields_idempotent :
  (forall v : pyval, _ensure_min_fields (VDict (_ensure_min_fields v)) = _ensure_min_fields v) /\
  (forall d : pydict,
      _ensure_min_fields (VDict d) = d <->
      forallb (fun kv => negb (absent d (fst kv))) min_defaults = true).
Proof.
  split.
  - intros v. apply ensure_min_fields_fixed. apply forallb_forall.
    intros kv Hin. rewrite ensure_min_fields_complete by exact Hin. reflexivity.
  - intros d. split; [|apply ensure_min_fields_fixed].
    intros Hfix. apply forallb_forall. intros kv Hin.
    rewrite <- Hfix. rewrite ensure_min_fields_complete by exact Hin. reflexivity.
Qed.

Lemma ensure_min_fields_idempotent_witness :
  _ensure_min_fields (VDict (_ensure_min_fields (VDict [("parties", VNone)])))
    = _ensure_min_fields (VDict [("parties", VNone)]) /\
  _ensure_min_fields (VDict download_mock) = download_mock.
Proof.
  destruct ensure_min_fields_idempotent as [Hidem Hfix].
  split; [apply Hidem|]. apply Hfix. reflexivity.
Defined.

(** ** The PDF writer, continued *)




Lemma kv_printable (lbl : string) (val : option pyval) : printable (snd (kv lbl val)) = true.
Proof.
  unfold kv. cbn [snd]. destruct val as [[| | |s| |]|]; try reflexivity.
  destruct (String.eqb s "") eqn:E; [reflexivity|]. cbn [printable]. rewrite E. reflexivity.
Qed.

(** X4. With ReportLab, a written document carries the title it was given
    and starts with the four lines Parties, Filing Date, Next Hearing and
    Status, read from the record with ["N/A"] for a missing, [None] or empty
    value; at most 13 more lines follow (the source URL and up to 12 sample
    entries), and no line prints [None] or an empty string. Without
    ReportLab the document shows the title alone, whatever the record. *)
Theorem create_pdf_layout (path title : string) (details : pydict) :
  (forall eff, _create_pdf_with_details true path title details = Ok eff ->
     exists rest,
       eff = WritePdf path
               (DetailPdf title
                  ([ kv "Parties" (dict_get details "parties");
                     kv "Filing Date" (dict_get details "filing_date");
                     kv "Next Hearing" (dict_get details "next_hearing");
                     kv "Status" (dict_get details "status") ] ++ rest)%list) /\
       (List.length rest <= 13)%nat /\
       forallb (fun line => printable (snd line)) rest = true) /\
  (forall lbl val, printable (snd (kv lbl val)) = true) /\
  _create_pdf_with_details false path title details = Ok (WritePdf path (FallbackPdf title)).
Proof.
  split; [|split; [apply kv_printable|reflexivity]].
  intros eff. unfold _create_pdf_with_details. cbn [negb].
  destruct (or_empty_dict (dict_get details "raw_source")) as [| | | | |rs]; try discriminate.
  set (src := match dict_get rs "url" with Some u => u | None => VStr "" end).
  set (source_line := if truthy src then [kv "Source" (Some src)] else []).
  assert (Hsrc_len : (List.length source_line <= 1)%nat).
  { unfold source_line. destruct (truthy src); simpl; lia. }
  assert (Hsrc_pr : forallb (fun line => printable (snd line)) source_line = true).
  { unfold source_line. destruct (truthy src); [|reflexivity].
    cbn [forallb]. rewrite kv_printable. reflexivity. }
  destruct (SHOW_SAMPLE_LINES && truthy (or_empty_dict (dict_get details "sample_data"))).
  - destruct (or_empty_dict (dict_get details "sample_data")) as [| | | | |items];
      try discriminate.
    intros [= <-]. eexists. split; [reflexivity|]. split.
    + rewrite length_app, length_map, length_firstn. lia.
    + rewrite forallb_app, Hsrc_pr. cbn [andb]. apply forallb_forall.
      intros line Hin. apply in_map_iff in Hin as (e & <- & _). apply kv_printable.
  - intros [= <-]. exists source_line. split; [reflexivity|]. split; [lia|exact Hsrc_pr].
Qed.

Lemma create_pdf_layout_witness :
  exists rest,
    _create_pdf_with_details true "downloads/judgment_8152.pdf" "Judgment for 8152"
      [("parties", VStr "A vs B"); ("status", VStr "");
       ("raw_source", VDict [("url", VStr "https://ndap.niti.gov.in")])]
    = Ok (WritePdf "downloads/judgment_8152.pdf"
            (DetailPdf "Judgment for 8152"
               ([ ("Parties", VStr "A vs B"); ("Filing Date", VStr "N/A");
                  ("Next Hearing", VStr "N/A"); ("Status", VStr "N/A") ] ++ rest)%list)) /\
    (List.length rest <= 13)%nat.
Proof.
  destruct (create_pdf_layout "downloads/judgment_8152.pdf" "Judgment for 8152"
              [("parties", VStr "A vs B"); ("status", VStr "");
               ("raw_source", VDict [("url", VStr "https://ndap.niti.gov.in")])])
    as [Hlay _].
  destruct (Hlay _ eq_refl) as (rest & Heq & Hlen & _).
  exists rest. split; [|exact Hlen].
  injection Heq as Heq. subst rest. reflexivity.
Defined.

(** ** Numbers in file names *)

Lemma int_digits_acc (d : Decimal.uint) (p : positive) (b : bool) :
  b = true \/ d <> Decimal.Nil ->
  PyStr.int_digits b (Z.pos p) (NilEmpty.string_of_uint d) = Some (Z.pos (Pos.of_uint_acc d p)).
Proof.
  revert p b. induction d; intros p b Hb; cbn [NilEmpty.string_of_uint PyStr.int_digits];
    try (change (PyStr.is_digit _) with true; cbv iota; cbn [Pos.of_uint_acc];
         rewrite <- (IHd _ true) by (left; reflexivity); f_equal;
         match goal with |- context [Z.of_N ?n] =>
           let v := eval vm_compute in (Z.of_N n) in change (Z.of_N n) with v end;
         lia).
  destruct Hb as [->|Hd]; [reflexivity|contradiction].
Qed.

Lemma int_digits_zero (d : Decimal.uint) (b : bool) :
  b = true \/ d <> Decimal.Nil ->
  PyStr.int_digits b 0 (NilEmpty.string_of_uint d) = Some (Z.of_N (Pos.of_uint d)).
Proof.
  revert b. induction d; intros b Hb; cbn [NilEmpty.string_of_uint PyStr.int_digits];
    try (change (PyStr.is_digit _) with true; cbv iota;
         first [ apply IHd; left; reflexivity
               | apply (int_digits_acc d _ true); left; reflexivity ]).
  destruct Hb as [->|Hd]; [reflexivity|contradiction].
Qed.

Lemma all_chars_uint (d : Decimal.uint) :
  all_chars PyStr.is_digit (NilEmpty.string_of_uint d) = true.
Proof. induction d; cbn [NilEmpty.string_of_uint all_chars]; try exact IHd; reflexivity. Qed.

Lemma all_chars_weaken (p q : ascii -> bool) (s : string) :
  (forall c, p c = true -> q c = true) -> all_chars p s = true -> all_chars q s = true.
Proof.
  intros Hpq. induction s as [|c r IH]; cbn [all_chars]; [reflexivity|].
  rewrite !andb_true_iff. intros [Hc Hr]. split; [apply Hpq; exact Hc|apply IH; exact Hr].
Qed.

Lemma digit_not_int_space (c : ascii) :
  PyStr.is_digit c = true -> PyStr.is_int_space c = false.
Proof.
  unfold PyStr.is_digit, PyStr.is_int_space. generalize (PyStr.code c). intros n.
  rewrite andb_true_iff, !N.leb_le. intros [H1 H2].
  repeat match goal with
         | |- context [(?a <=? ?b)%N] =>
             let E := fresh in destruct (N.leb_spec a b) as [E|E]
         | |- context [(?a =? ?b)%N] =>
             let E := fresh in destruct (N.eqb_spec a b) as [E|E]
         end; try reflexivity; lia.
Qed.

Lemma rstrip_by_none (sp : ascii -> bool) (s : string) :
  all_chars (fun c => negb (sp c)) s = true -> PyStr.rstrip_by sp s = s.
Proof.
  induction s as [|c r IH]; cbn [all_chars PyStr.rstrip_by]; [reflexivity|].
  rewrite andb_true_iff, negb_true_iff. intros [Hc Hr]. rewrite (IH Hr), Hc.
  destruct r; reflexivity.
Qed.

Lemma strip_by_none (sp : ascii -> bool) (s : string) :
  all_chars (fun c => negb (sp c)) s = true ->
  PyStr.rstrip_by sp (PyStr.lstrip_by sp s) = s.
Proof.
  intros H.
  assert (Hl : PyStr.lstrip_by sp s = s).
  { destruct s as [|c r]; [reflexivity|]. cbn [all_chars] in H.
    apply andb_true_iff in H as [Hc _]. apply negb_true_iff in Hc.
    cbn [PyStr.lstrip_by]. rewrite Hc. reflexivity. }
  rewrite Hl. apply rstrip_by_none. exact H.
Qed.

Lemma all_chars_of_Z (z : Z) : all_chars numeric_char (PyStr.of_Z z) = true.
Proof.
  assert (Hu : forall d, all_chars numeric_char (NilZero.string_of_uint d) = true).
  { intros d. destruct d; try reflexivity;
      apply (all_chars_weaken PyStr.is_digit);
      try (intros c Hc; unfold numeric_char; rewrite Hc; reflexivity);
      apply (all_chars_uint (_ d)). }
  unfold PyStr.of_Z. destruct (Z.to_int z) as [d|d]; cbn [NilZero.string_of_int all_chars].
  - apply Hu.
  - rewrite Hu. reflexivity.
Qed.

Lemma uint_no_space (d : Decimal.uint) :
  all_chars (fun c => negb (PyStr.is_int_space c)) (NilEmpty.string_of_uint d) = true.
Proof.
  apply (all_chars_weaken PyStr.is_digit); [|apply all_chars_uint].
  intros c Hc. rewrite (digit_not_int_space c Hc). reflexivity.
Qed.

(** Every character of a numeral counts towards the digit limit. *)
Lemma count_digits_all (s : string) :
  all_chars PyStr.is_digit s = true -> PyStr.count_digits s = String.length s.
Proof.
  induction s as [|c r IH]; [reflexivity|].
  cbn [all_chars PyStr.count_digits String.length]. rewrite andb_true_iff.
  intros [-> Hr]. rewrite (IH Hr). reflexivity.
Qed.

Lemma int_literal_uint (d : Decimal.uint) :
  d <> Decimal.Nil ->
  PyStr.int_literal (NilEmpty.string_of_uint d) =
    if (String.length (NilEmpty.string_of_uint d) <=? PyStr.max_str_digits)%nat
    then Some (Z.of_N (Pos.of_uint d)) else None.
Proof.
  intros Hd. unfold PyStr.int_literal.
  rewrite count_digits_all by apply all_chars_uint.
  rewrite int_digits_zero by (right; exact Hd). reflexivity.
Qed.

Lemma to_int_uint (d : Decimal.uint) :
  d <> Decimal.Nil ->
  PyStr.to_int (NilEmpty.string_of_uint d) = PyStr.int_literal (NilEmpty.string_of_uint d).
Proof.
  intros Hd. unfold PyStr.to_int. rewrite strip_by_none by apply uint_no_space.
  destruct d; [contradiction| ..]; reflexivity.
Qed.

Lemma to_int_neg_uint (d : Decimal.uint) :
  PyStr.to_int (String "-" (NilEmpty.string_of_uint d))
    = Z.opp <$> PyStr.int_literal (NilEmpty.string_of_uint d).
Proof.
  unfold PyStr.to_int. rewrite strip_by_none; [reflexivity|].
  cbn [all_chars]. rewrite uint_no_space. reflexivity.
Qed.

Lemma nilzero_nonnil (d : Decimal.uint) :
  d <> Decimal.Nil -> NilZero.string_of_uint d = NilEmpty.string_of_uint d.
Proof. destruct d; [contradiction| ..]; reflexivity. Qed.

(** [int(str(n)) == n] for an [n] within the digit limit; beyond it the
    conversion is refused. *)
Lemma to_int_of_Z (z : Z) :
  PyStr.to_int (PyStr.of_Z z) = if PyStr.within_limit z then Some z else None.
Proof.
  assert (Hpos : forall p, PyStr.of_Z (Z.pos p) = NilEmpty.string_of_uint (Pos.to_uint p)).
  { intros p. unfold PyStr.of_Z. cbn [Z.to_int NilZero.string_of_int].
    apply nilzero_nonnil, DecimalPos.Unsigned.to_uint_nonnil. }
  assert (Hneg : forall p, PyStr.of_Z (Z.neg p)
                           = String "-" (NilEmpty.string_of_uint (Pos.to_uint p))).
  { intros p. unfold PyStr.of_Z. cbn [Z.to_int NilZero.string_of_int]. f_equal.
    apply nilzero_nonnil, DecimalPos.Unsigned.to_uint_nonnil. }
  unfold PyStr.within_limit. destruct z as [|p|p].
  - reflexivity.
  - change (Z.abs (Z.pos p)) with (Z.pos p).
    rewrite Hpos, to_int_uint, int_literal_uint by apply DecimalPos.Unsigned.to_uint_nonnil.
    rewrite DecimalPos.Unsigned.of_to. reflexivity.
  - change (Z.abs (Z.neg p)) with (Z.pos p).
    rewrite Hpos, Hneg, to_int_neg_uint, int_literal_uint
      by apply DecimalPos.Unsigned.to_uint_nonnil.
    rewrite DecimalPos.Unsigned.of_to.
    destruct (_ <=? _)%nat; reflexivity.
Qed.

(** Different numbers have different numerals. *)
Lemma of_Z_inj (m n : Z) : PyStr.of_Z m = PyStr.of_Z n -> m = n.
Proof.
  assert (Hnn : forall z, Z.to_int z <> Decimal.Pos Decimal.Nil /\
                          Z.to_int z <> Decimal.Neg Decimal.Nil).
  { intros [|p|p]; cbn [Z.to_int]; split; try discriminate;
      intros [= H]; exact (DecimalPos.Unsigned.to_uint_nonnil p H). }
  unfold PyStr.of_Z. intros H. apply (f_equal NilZero.int_of_string) in H.
  rewrite !NilZero.isi in H by apply Hnn.
  injection H as H. apply DecimalZ.to_int_inj. exact H.
Qed.

Lemma string_length_app (a b : string) :
  String.length (a +:+ b) = (String.length a + String.length b)%nat.
Proof.
  induction a as [|c a IH]; [reflexivity|].
  change (S (String.length (a +:+ b)) = S (String.length a + String.length b)).
  rewrite IH. reflexivity.
Qed.

Lemma substring_whole_prefix (s b : string) :
  String.substring 0 (String.length s) (s +:+ b) = s.
Proof.
  induction s as [|c s IH]; [destruct b; reflexivity|].
  change (String c (String.substring 0 (String.length s) (s +:+ b)) = String c s).
  rewrite IH. reflexivity.
Qed.

Lemma substring_skip (a s : string) (n : nat) :
  String.substring (String.length a) n (a +:+ s) = String.substring 0 n s.
Proof. induction a as [|c a IH]; [reflexivity|exact IH]. Qed.

Lemma substring_all (s : string) : String.substring 0 (String.length s) s = s.
Proof.
  induction s as [|c s IH]; [reflexivity|].
  change (String c (String.substring 0 (String.length s) s) = String c s).
  rewrite IH. reflexivity.
Qed.

Lemma prefix_app (a b : string) : String.prefix a (a +:+ b) = true.
Proof.
  induction a as [|c a IH]; [destruct b; reflexivity|].
  change (String c a +:+ b) with (String c (a +:+ b)). cbn [String.prefix].
  destruct (ascii_dec c c) as [_|Hne]; [exact IH|contradiction].
Qed.

Lemma endswith_app (a b : string) : PyStr.endswith (a +:+ b) b = true.
Proof.
  unfold PyStr.endswith. cbv zeta. rewrite !string_length_app.
  replace (String.length a + String.length b - String.length b)%nat
    with (String.length a) by lia.
  rewrite substring_skip, substring_all, String.eqb_refl, andb_true_r.
  apply Nat.leb_le. lia.
Qed.

Lemma string_app_assoc (a b c : string) : (a +:+ b) +:+ c = a +:+ (b +:+ c).
Proof.
  induction a as [|x a IH]; [reflexivity|].
  change (String x ((a +:+ b) +:+ c) = String x (a +:+ (b +:+ c))).
  rewrite IH. reflexivity.
Qed.

Lemma judgment_name_parses (n : Z) :
  PyStr.startswith (judgment_name n) "judgment_" = true /\
  PyStr.endswith (judgment_name n) ".pdf" = true /\
  judgment_number (judgment_name n) = if PyStr.within_limit n then Some n else None.
Proof.
  unfold judgment_name. split; [apply prefix_app|]. split.
  - rewrite <- string_app_assoc. apply endswith_app.
  - unfold judgment_number. rewrite !string_length_app.
    change (String.length "judgment_") with 9%nat. change (String.length ".pdf") with 4%nat.
    replace (9 + (String.length (PyStr.of_Z n) + 4) - 13)%nat
      with (String.length (PyStr.of_Z n)) by lia.
    rewrite (substring_skip "judgment_"), substring_whole_prefix. apply to_int_of_Z.
Qed.

Lemma contains_sep_app (p : ascii -> bool) (sep : ascii) (s r : string) :
  p sep = false -> all_chars p s = true ->
  PyStr.contains (String sep EmptyString) (s +:+ r)
    = PyStr.contains (String sep EmptyString) r.
Proof.
  intros Hsep. induction s as [|c s IH]; [reflexivity|].
  cbn [all_chars]. rewrite andb_true_iff. intros [Hc Hs].
  change (String c s +:+ r) with (String c (s +:+ r)).
  cbn [PyStr.contains String.prefix]. rewrite (IH Hs).
  destruct (ascii_dec sep c) as [->|_]; [congruence|reflexivity].
Qed.

Lemma split_first_app (p : ascii -> bool) (sep : ascii) (s r : string) :
  p sep = false -> all_chars p s = true ->
  PyStr.split_first sep (s +:+ String sep r) = s.
Proof.
  intros Hsep. induction s as [|c s IH].
  - intros _. change (EmptyString +:+ String sep r) with (String sep r).
    cbn [PyStr.split_first]. rewrite Ascii.eqb_refl. reflexivity.
  - cbn [all_chars]. rewrite andb_true_iff. intros [Hc Hs].
    change (String c s +:+ String sep r) with (String c (s +:+ String sep r)).
    cbn [PyStr.split_first]. rewrite (IH Hs).
    destruct (Ascii.eqb c sep) eqn:E; [|reflexivity].
    apply Ascii.eqb_eq in E. congruence.
Qed.

Lemma contains_sep_hit (sep : ascii) (a r : string) :
  PyStr.contains (String sep EmptyString) (a +:+ String sep r) = true.
Proof.
  induction a as [|c a IH].
  - change (EmptyString +:+ String sep r) with (String sep r).
    cbn [PyStr.contains String.prefix].
    destruct (ascii_dec sep sep) as [_|Hne]; [|contradiction]. destruct r; reflexivity.
  - change (String c a +:+ String sep r) with (String c (a +:+ String sep r)).
    cbn [PyStr.contains]. rewrite IH. apply orb_true_r.
Qed.

Lemma split_last_app (sep : ascii) (a r : string) :
  PyStr.contains (String sep EmptyString) r = false ->
  PyStr.split_last sep (a +:+ String sep r) = r.
Proof.
  intros Hr. induction a as [|c a IH].
  - change (EmptyString +:+ String sep r) with (String sep r).
    cbn [PyStr.split_last]. rewrite Hr, Ascii.eqb_refl. reflexivity.
  - change (String c a +:+ String sep r) with (String c (a +:+ String sep r)).
    cbn [PyStr.split_last]. rewrite contains_sep_hit. exact IH.
Qed.

(** The text between the last underscore and the first dot after it. *)
Lemma report_name_code_text (n : Z) :
  PyStr.split_first "." (PyStr.split_last "_" (report_name n)) = PyStr.of_Z n.
Proof.
  pose proof (all_chars_of_Z n) as Hnum. unfold report_name.
  assert (Hlast : PyStr.split_last "_" ("NDAP_REPORT_" +:+ PyStr.of_Z n +:+ ".csv")
                  = PyStr.of_Z n +:+ ".csv").
  { apply (split_last_app "_" "NDAP_REPORT" (PyStr.of_Z n +:+ ".csv")).
    rewrite (contains_sep_app numeric_char "_" _ ".csv" eq_refl Hnum). reflexivity. }
  rewrite Hlast.
  apply (split_first_app numeric_char "." (PyStr.of_Z n) "csv" eq_refl Hnum).
Qed.

Lemma report_name_parses (n : Z) :
  glob_match (report_name n) = true /\
  parse_code (report_name n) = if PyStr.within_limit n then Some n else None.
Proof.
  split.
  - unfold report_name, glob_match. rewrite !andb_true_iff. split; [split|].
    + apply prefix_app.
    + rewrite <- string_app_assoc. apply endswith_app.
    + rewrite !string_length_app. apply Nat.leb_le. cbn. lia.
  - unfold parse_code. rewrite report_name_code_text. apply to_int_of_Z.
Qed.

Lemma report_name_inj (m n : Z) : report_name m = report_name n -> m = n.
Proof.
  intros H. apply of_Z_inj. rewrite <- !report_name_code_text, H. reflexivity.
Qed.

(** X6. For every integer [n], the file name [NDAP_REPORT_<n>.csv] matches
    the loader's glob pattern, and different codes never share a report name.
    The code the loader parses from the name is [n] when [n] has at most 4300
    digits, so that a non-empty frame read from the file is taken in under
    the code [n]; for a longer [n] no code parses, as [int] refuses the
    text. *)
Theorem report_name_round_trip (n : Z) :
  glob_match (report_name n) = true /\
  parse_code (report_name n) = (if PyStr.within_limit n then Some n else None) /\
  (forall df, PyStr.within_limit n = true -> df_empty df = false ->
              parsed_entry (report_name n, Frame df) = Some (n, df)) /\
  (forall m, report_name m = report_name n -> m = n).
Proof.
  destruct (report_name_parses n) as [Hglob Hcode].
  split; [exact Hglob|]. split; [exact Hcode|]. split.
  - intros df Hlim Hne. unfold parsed_entry. cbn [fst snd]. rewrite Hcode, Hlim, Hne.
    reflexivity.
  - intros m. apply report_name_inj.
Qed.

(** ** What a lookup leaves behind *)

Lemma create_pdf_ok_path (rl : bool) (path title : string) (details : pydict) (eff : Effect) :
  _create_pdf_with_details rl path title details = Ok eff ->
  exists doc, eff = WritePdf path doc.
Proof.
  unfold _create_pdf_with_details. destruct rl; cbn [negb]; [|intros [= <-]; eauto].
  destruct (or_empty_dict (dict_get details "raw_source")); try discriminate.
  destruct (SHOW_SAMPLE_LINES && _).
  - destruct (or_empty_dict (dict_get details "sample_data")); try discriminate.
    intros [= <-]. eauto.
  - intros [= <-]. eauto.
Qed.

Lemma log_status_flag (details : pydict) :
  (if differs_from_str (dict_get details "status") "Error" then "ok" else "error")
    = log_status details.
Proof.
  unfold log_status, differs_from_str.
  destruct (dict_get details "status") as [[| | |s| |]|]; try reflexivity.
  destruct (String.eqb s "Error"); reflexivity.
Qed.

(** The first thing a returning lookup did was to write the judgment
    document from the record it answers with. *)
Lemma lookup_case_first_write (env : Env) (t : Tables) (q : CaseQuery)
    (resp : LookupResponse) (effs : list Effect) :
  lookup_case env t q = Ok (resp, effs) ->
  exists doc rest,
    _create_pdf_with_details (REPORTLAB_OK env) ("downloads/" +:+ judgment_name (case_number q))
      ("Judgment for " +:+ PyStr.of_Z (case_number q)) (parsed resp)
      = Ok (WritePdf ("downloads/" +:+ judgment_name (case_number q)) doc) /\
    effs = WritePdf ("downloads/" +:+ judgment_name (case_number q)) doc :: rest.
Proof.
  unfold lookup_case, judgment_name.
  destruct (lookup_details env t q) as [details kind].
  destruct (_create_pdf_with_details _ _ _ (_ensure_min_fields details)) as [r|e] eqn:Hr;
    [|discriminate].
  destruct (create_pdf_ok_path _ _ _ _ _ Hr) as [doc ->].
  destruct (if negb _ then _ else _); [|discriminate].
  destruct (source_url_of _); [|discriminate].
  intros [= <- <-]. cbn [parsed]. eauto.
Qed.

(** X7. A lookup that returns has done exactly this, in this order: written
    the judgment document [downloads/judgment_<n>.pdf], titled
    [Judgment for <n>], from the record it answers with; written the
    cause-list demo document if and only if that file did not exist; added
    one row to the query log, with the request's four fields, status
    ["error"] when the record's status is ["Error"] and ["ok"] otherwise. The
    response echoes the request and names the two documents. *)
Theorem lookup_case_effects (env : Env) (t : Tables) (q : CaseQuery)
    (resp : LookupResponse) (effs : list Effect) :
  lookup_case env t q = Ok (resp, effs) ->
  exists doc url,
    _create_pdf_with_details (REPORTLAB_OK env) ("downloads/" +:+ judgment_name (case_number q))
      ("Judgment for " +:+ PyStr.of_Z (case_number q)) (parsed resp)
      = Ok (WritePdf ("downloads/" +:+ judgment_name (case_number q)) doc) /\
    effs = (WritePdf ("downloads/" +:+ judgment_name (case_number q)) doc
            :: (if path_exists env "downloads/cause_list_demo.pdf" then []
                else [WritePdf "downloads/cause_list_demo.pdf"
                        (cause_list_doc (REPORTLAB_OK env))])
            ++ [LogQuery {| ql_case_type := case_type q; ql_case_number := case_number q;
                            ql_year := year q; ql_court_level := court_level q;
                            ql_status := log_status (parsed resp);
                            ql_source_url := url |}])%list /\
    source_url_of (parsed resp) = Ok url /\
    input resp = q /\
    documents resp =
      [ {| kind := "judgment"; file_name := judgment_name (case_number q);
           download_url := "/dl/file/" +:+ judgment_name (case_number q) |};
        {| kind := "cause_list"; file_name := "cause_list_demo.pdf";
           download_url := "/dl/file/cause_list_demo.pdf" |} ].
Proof.
  unfold lookup_case, judgment_name.
  destruct (lookup_details env t q) as [details kind].
  destruct (_create_pdf_with_details _ _ _ (_ensure_min_fields details)) as [r|e] eqn:Hr;
    [|discriminate].
  destruct (create_pdf_ok_path _ _ _ _ _ Hr) as [doc ->].
  change ("downloads/" +:+ "cause_list_demo.pdf") with "downloads/cause_list_demo.pdf".
  destruct (path_exists env "downloads/cause_list_demo.pdf"); cbn [negb].
  - destruct (source_url_of _) as [url|e] eqn:Hu; [|discriminate].
    intros [= <- <-]. exists doc, url. cbn [parsed input documents].
    rewrite log_status_flag. repeat split; try reflexivity; assumption.
  - assert (Hc : _create_pdf_with_details (REPORTLAB_OK env) "downloads/cause_list_demo.pdf"
                   "Cause List Demo"
                   [("status", VStr "Generated");
                    ("raw_source", VDict [("url", VStr "https://example.invalid")])]
                 = Ok (WritePdf "downloads/cause_list_demo.pdf"
                         (cause_list_doc (REPORTLAB_OK env)))).
    { destruct (REPORTLAB_OK env); reflexivity. }
    rewrite Hc.
    destruct (source_url_of _) as [url|e] eqn:Hu; [|discriminate].
    intros [= <- <-]. exists doc, url. cbn [parsed input documents].
    rewrite log_status_flag. repeat split; try reflexivity; assumption.
Qed.

Lemma lookup_case_effects_witness :
  exists resp doc url,
    lookup_case env_no_scraper empty_tables query_77
      = Ok (resp,
            [ WritePdf "downloads/judgment_77.pdf" doc;
              WritePdf "downloads/cause_list_demo.pdf" (cause_list_doc true);
              LogQuery {| ql_case_type := "Civil"; ql_case_number := 77; ql_year := 2024;
                          ql_court_level := "High Court"; ql_status := "error";
                          ql_source_url := url |} ]).
Proof.
  destruct (lookup_case env_no_scraper empty_tables query_77) as [[resp effs]|e] eqn:Hok;
    [|vm_compute in Hok; discriminate Hok].
  destruct (lookup_case_effects _ _ _ _ _ Hok) as (doc & url & _ & Heffs & _ & _ & _).
  exists resp, doc, url. rewrite Heffs. f_equal. f_equal. f_equal. f_equal. f_equal.
  apply lookup_case_inv in Hok as [Hp _]. rewrite Hp. reflexivity.
Defined.

(** ** Lookup, then download *)

Lemma dl_file_judgment (env : Env) (t : Tables) (n : Z) :
  PyStr.within_limit n = true ->
  dl_file env t (judgment_name n) =
    match _create_pdf_with_details (REPORTLAB_OK env) ("downloads/" +:+ judgment_name n)
            ("Judgment for " +:+ PyStr.of_Z n)
            (if no_details (_dataset_lookup_by_case (overrides env) t n)
             then if USE_MOCK env then download_mock
                  else _as_error "No dataset/mocked details available" "server"
             else match _dataset_lookup_by_case (overrides env) t n with
                  | Some d => d
                  | None => []
                  end) with
    | Raise e => Raise e
    | Ok render =>
        Ok ({| fr_path := "downloads/" +:+ judgment_name n;
               fr_media_type := "application/pdf";
               fr_filename := judgment_name n; fr_headers := no_cache_headers |},
            [render])
    end.
Proof.
  intros Hlim. destruct (judgment_name_parses n) as (Hs & He & Hn).
  unfold dl_file. rewrite Hs, He, Hn, Hlim. reflexivity.
Qed.

(** X5. The base name that [lookup_case] gives the judgment document of case
    [n] is one that [dl_file] takes for a judgment document. When [n] has at
    most 4300 digits, the number [dl_file] parses out of the name is [n]
    again, so a download under that name is never answered 400 or 404. For a
    longer [n] no number parses, as [int] refuses the text, and the download
    is answered 400. *)
Theorem judgment_name_round_trip (n : Z) :
  PyStr.startswith (judgment_name n) "judgment_" = true /\
  PyStr.endswith (judgment_name n) ".pdf" = true /\
  judgment_number (judgment_name n) = (if PyStr.within_limit n then Some n else None) /\
  (forall env t e,
     PyStr.within_limit n = true ->
     dl_file env t (judgment_name n) = Raise e -> e = AttributeError) /\
  (forall env t,
     PyStr.within_limit n = false ->
     dl_file env t (judgment_name n) = Raise (HTTPException 400 "Bad judgment file name")).
Proof.
  destruct (judgment_name_parses n) as (Hs & He & Hn).
  split; [exact Hs|]. split; [exact He|]. split; [exact Hn|]. split.
  - intros env t e Hlim. rewrite dl_file_judgment by exact Hlim.
    destruct (_create_pdf_with_details _ _ _ _) as [r|e'] eqn:Hr; [discriminate|].
    intros [= <-]. apply (create_pdf_raise _ _ _ _ _ Hr).
  - intros env t Hlim. unfold dl_file. rewrite Hs, He, Hn, Hlim. reflexivity.
Qed.

(** X8. Take a case number of at most 4300 digits. When the resolver finds
    a record that already has the five keys of the completion pass (every
    dataset-derived record does, and so does the shipped override),
    downloading the judgment file named in a lookup response writes the same
    document that the lookup wrote, under the same path, and serves it under
    the same name. For a case number of the index that has no override, both
    handlers always return. *)
Theorem download_regenerates_lookup (env : Env) (t : Tables) (q : CaseQuery) :
  PyStr.within_limit (case_number q) = true ->
  (forall rec resp effs,
     _dataset_lookup_by_case (overrides env) t (case_number q) = Some rec ->
     forallb (fun kv => negb (absent rec (fst kv))) min_defaults = true ->
     lookup_case env t q = Ok (resp, effs) ->
     exists doc rest served,
       effs = WritePdf ("downloads/" +:+ judgment_name (case_number q)) doc :: rest /\
       dl_file env t (judgment_name (case_number q))
         = Ok (served, [WritePdf ("downloads/" +:+ judgment_name (case_number q)) doc]) /\
       fr_filename served = judgment_name (case_number q)) /\
  (forall code idx,
     overrides env !! case_number q = None ->
     CASE_INDEX t !! case_number q = Some (code, idx) ->
     exists resp doc rest served,
       lookup_case env t q
         = Ok (resp, WritePdf ("downloads/" +:+ judgment_name (case_number q)) doc :: rest) /\
       dl_file env t (judgment_name (case_number q))
         = Ok (served, [WritePdf ("downloads/" +:+ judgment_name (case_number q)) doc])).
Proof.
  intros Hlim.
  assert (Hgen : forall rec resp effs,
     _dataset_lookup_by_case (overrides env) t (case_number q) = Some rec ->
     forallb (fun kv => negb (absent rec (fst kv))) min_defaults = true ->
     lookup_case env t q = Ok (resp, effs) ->
     exists doc rest served,
       effs = WritePdf ("downloads/" +:+ judgment_name (case_number q)) doc :: rest /\
       dl_file env t (judgment_name (case_number q))
         = Ok (served, [WritePdf ("downloads/" +:+ judgment_name (case_number q)) doc]) /\
       fr_filename served = judgment_name (case_number q)).
  { intros rec resp effs Hrec Hfull Hok.
    assert (Hne : rec <> []) by (intros ->; discriminate Hfull).
    destruct (lookup_case_first_write _ _ _ _ _ Hok) as (doc & rest & Hpdf & Heffs).
    apply lookup_case_inv in Hok as [Hp _].
    rewrite (lookup_details_found env t q rec Hrec Hne) in Hp. cbn [fst] in Hp.
    rewrite (ensure_min_fields_fixed rec Hfull) in Hp. rewrite Hp in Hpdf.
    exists doc, rest. eexists. split; [exact Heffs|].
    rewrite dl_file_judgment by exact Hlim. rewrite Hrec.
    destruct rec as [|e rec]; [contradiction|]. cbn [no_details].
    rewrite Hpdf. split; reflexivity. }
  split; [exact Hgen|].
  intros code idx Hov Hix.
  destruct (lookup_case_dataset env t q code idx Hov Hix) as (resp & effs & Hok & _ & _).
  destruct (Hgen _ resp effs (lookup_dataset_tier _ _ _ _ _ Hov Hix)) as
    (doc & rest & served & -> & Hdl & _); [reflexivity|exact Hok|].
  exists resp, doc, rest, served. split; assumption.
Qed.

Lemma download_regenerates_lookup_witness :
  exists resp doc rest served,
    lookup_case env_mock status_example_tables query_100
      = Ok (resp, WritePdf "downloads/judgment_100.pdf" doc :: rest) /\
    dl_file env_mock status_example_tables "judgment_100.pdf"
      = Ok (served, [WritePdf "downloads/judgment_100.pdf" doc]).
Proof.
  destruct (download_regenerates_lookup env_mock status_example_tables query_100 eq_refl)
    as [_ Hds].
  apply (Hds 100 0); reflexivity.
Defined.

(** ** The download handler, continued *)


(** ** Invariants of the index build *)

Lemma dataset_tables_consistent (t : Tables) (d : Z * DataFrame) :
  tables_consistent t -> tables_consistent (dataset_tables t d).
Proof.
  intros [Hidx Hrows]. unfold dataset_tables. apply load_rows_consistent.
  - cbn [set_summary DATASET_SUMMARY]. rewrite lookup_insert_eq. eauto.
  - split; [exact Hidx|]. intros c l r Hr. cbn [set_summary DATASET_ROWS] in Hr.
    destruct (Hrows c l r Hr) as (Hc & Hl & Hs & Hi).
    split; [exact Hc|]. split; [exact Hl|]. split; [|exact Hi].
    cbn [set_summary DATASET_SUMMARY]. apply lookup_insert_is_Some.
    destruct (decide (fst d = c)); [left; assumption|right; split; assumption].
Qed.

Lemma tables_consistent_fold (ds : list (Z * DataFrame)) (t : Tables) :
  tables_consistent t -> tables_consistent (fold_left dataset_tables ds t).
Proof.
  revert t. induction ds as [|d ds IH]; intros t Ht; [exact Ht|].
  cbn [fold_left]. apply IH, dataset_tables_consistent, Ht.
Qed.

Lemma cleared_tables_consistent (fs : FileSystem) : tables_consistent (cleared_tables fs).
Proof.
  split.
  - intros k c i Hk. cbn in Hk. rewrite lookup_empty in Hk. discriminate.
  - intros c l r Hr. cbn in Hr. rewrite lookup_empty in Hr. discriminate.
Qed.

Lemma load_datasets_consistent (fs : FileSystem) (t : Tables) :
  tables_consistent (fst (_load_ndap_datasets fs t)).
Proof.
  rewrite load_ndap_datasets_reached. cbn [fst].
  apply tables_consistent_fold, cleared_tables_consistent.
Qed.

(** X10. After every index build, also after one that a row label which is
    no number cut short, the three tables agree: each index entry [(c, i)]
    sits at the key [c + i] and names a row that is stored, so the resolver
    never falls back to an empty row; each stored row records its code and
    its label, its code is in the summary, and when its label is an integer
    [i] the key [c + i] resolves to some row. *)
Theorem load_keeps_tables_consistent (fs : FileSystem) (t : Tables) :
  tables_consistent (fst (_load_ndap_datasets fs t)).
Proof. apply load_datasets_consistent. Qed.

Lemma find_app_first {A : Type} (f : A -> bool) (l1 l2 : list A) :
  List.find f (l1 ++ l2)%list =
    match List.find f l1 with
    | Some x => Some x
    | None => List.find f l2
    end.
Proof.
  induction l1 as [|x l1 IH]; [reflexivity|]. cbn [app List.find].
  destruct (f x); [reflexivity|exact IH].
Qed.

Lemma tables_summary_lookup (ds : list (Z * DataFrame)) (t : Tables) (c : Z) :
  DATASET_SUMMARY (fold_left dataset_tables ds t) !! c =
    match List.find (fun d => Z.eqb (fst d) c) (rev ds) with
    | Some d => Some (df_len (snd d))
    | None => DATASET_SUMMARY t !! c
    end.
Proof.
  revert t. induction ds as [|d ds IH]; intros t; [reflexivity|].
  cbn [fold_left rev]. rewrite IH, find_app_first.
  destruct (List.find _ (rev ds)) as [d'|]; [reflexivity|].
  cbn [List.find]. rewrite dataset_tables_summary.
  destruct (Z.eqb_spec (fst d) c) as [->|Hne].
  - apply lookup_insert_eq.
  - apply lookup_insert_ne. exact Hne.
Qed.

Lemma parsed_datasets_positive (fs : FileSystem) (d : Z * DataFrame) :
  In d (parsed_datasets fs) -> 1 <= df_len (snd d).
Proof.
  intros Hin. destruct d as [c df].
  destruct (parsed_datasets_first_row fs c df) as [row Hrow];
    [apply list_elem_of_In; exact Hin|].
  apply lookup_lt_Some in Hrow. unfold df_len. cbn [snd]. lia.
Qed.

(** X11. After an index build the summary table has exactly the codes of
    the datasets the build got to; each code holds the row count of the file
    with that code that was scanned last among them, and every count is at
    least 1. The build gets to every parsed non-empty dataset when all row
    labels are integers; a label that is no number stops it at that
    dataset. *)
Theorem summary_holds_last_count (fs : FileSystem) (t : Tables) :
  (forall ds1 c df ds2,
     reached (parsed_datasets fs) = (ds1 ++ (c, df) :: ds2)%list ->
     ~ In c (List.map fst ds2) ->
     DATASET_SUMMARY (fst (_load_ndap_datasets fs t)) !! c = Some (df_len df)) /\
  (forall c, is_Some (DATASET_SUMMARY (fst (_load_ndap_datasets fs t)) !! c)
             <-> In c (List.map fst (reached (parsed_datasets fs)))) /\
  (forall c n, DATASET_SUMMARY (fst (_load_ndap_datasets fs t)) !! c = Some n -> 1 <= n) /\
  (int_labelled (parsed_datasets fs) = true ->
   reached (parsed_datasets fs) = parsed_datasets fs).
Proof.
  rewrite load_ndap_datasets_reached. cbn [fst]. split; [|split; [|split]].
  - intros ds1 c df ds2 Hparsed Hlast. rewrite tables_summary_lookup, Hparsed.
    rewrite rev_app_distr. cbn [rev]. rewrite <- app_assoc, find_app_first.
    destruct (List.find _ (rev ds2)) as [d'|] eqn:Hfind.
    + apply find_some in Hfind as [Hin Heq]. exfalso. apply Hlast.
      apply Z.eqb_eq in Heq. subst c. apply in_map, in_rev, Hin.
    + cbn [app List.find fst]. rewrite Z.eqb_refl. reflexivity.
  - intros c. rewrite tables_summary_lookup.
    destruct (List.find _ (rev (reached (parsed_datasets fs)))) as [d|] eqn:Hfind.
    + apply find_some in Hfind as [Hin Heq]. apply Z.eqb_eq in Heq. subst c.
      split; [intros _|eauto]. apply in_map, in_rev, Hin.
    + cbn. rewrite lookup_empty. split; [intros [x [=]]|].
      intros Hin. apply in_map_iff in Hin as (d & <- & Hd).
      apply in_rev in Hd. apply (find_none _ _ Hfind) in Hd.
      rewrite Z.eqb_refl in Hd. discriminate.
  - intros c n. rewrite tables_summary_lookup.
    destruct (List.find _ (rev (reached (parsed_datasets fs)))) as [d|] eqn:Hfind.
    + intros [= <-]. apply find_some in Hfind as [Hin _].
      apply (parsed_datasets_positive fs). apply list_elem_of_In, reached_elem, list_elem_of_In.
      apply in_rev. exact Hin.
    + cbn. rewrite lookup_empty. discriminate.
  - apply reached_int_labelled.
Qed.

Lemma summary_holds_last_count_witness :
  DATASET_SUMMARY (fst (_load_ndap_datasets duplicate_code_fs empty_tables)) !! 100 = Some 2 /\
  DATASET_SUMMARY (fst (_load_ndap_datasets text_label_fs empty_tables)) !! 100 = Some 2.
Proof.
  destruct (summary_holds_last_count duplicate_code_fs empty_tables) as [Hlast _].
  destruct (summary_holds_last_count text_label_fs empty_tables) as [Htext _].
  split.
  - apply (Hlast [(100, {| columns := ["Year"];
                           rows := range_index
                                     [[Some "2019"]; [Some "2020"]; [Some "2021"]] |})]
                 100 {| columns := ["Year"];
                        rows := range_index [[Some "2001"]; [Some "2002"]] |} []).
    + reflexivity.
    + intros [].
  - apply (Htext [] 100
             {| columns := ["Year"];
                rows := [(LText "a", [Some "2019"]); (LText "b", [Some "2020"])] |} []).
    + reflexivity.
    + intros [].
Defined.

Lemma tables_index_is_Some (ds : list (Z * DataFrame)) (t : Tables) (k : Z) :
  int_labelled ds = true ->
  is_Some (CASE_INDEX (fold_left dataset_tables ds t) !! k) <->
  is_Some (CASE_INDEX t !! k) \/ exists d, In d ds /\ covers d k.
Proof.
  revert t. induction ds as [|d ds IH]; intros t Hint.
  - cbn [fold_left]. split; [auto|]. intros [H|(d & [] & _)]. exact H.
  - cbn [int_labelled forallb] in Hint. apply andb_true_iff in Hint as [Hd Hds].
    cbn [fold_left]. rewrite (IH _ Hds), dataset_tables_index by exact Hd.
    case_bool_decide as Hcov.
    + split; [intros _|eauto]. right. exists d. split; [left; reflexivity|exact Hcov].
    + split.
      * intros [H|(d' & Hin & Hc)]; [left; exact H|right]. exists d'. split; [right|]; assumption.
      * intros [H|(d' & [<-|Hin] & Hc)]; [left; exact H|contradiction|right; eauto].
Qed.

(** The keys of a frame with the default labels: the code and the numbers
    after it, one for each row. *)
Lemma covers_default (d : Z * DataFrame) (k : Z) :
  default_index (snd d) ->
  covers d k <-> fst d <= k < fst d + df_len (snd d).
Proof.
  unfold default_index, covers, labels, df_len, range_index. intros Hdef.
  rewrite Hdef at 1. rewrite range_from_labels, length_map. split.
  - intros (i & [= Heq] & Hi). lia.
  - intros Hk. exists (k - fst d). split; [reflexivity|lia].
Qed.

(** X12. After an index build that ran to its end, a case number is
    answered from the override or dataset tier exactly when it has an
    override or is the sum of the code and a row label of some parsed
    dataset; every other number falls through to the live/mock tier. For a
    dataset with the default labels these sums are the numbers [code] to
    [code + rows - 1]. *)
Theorem resolver_misses_iff_uncovered (fs : FileSystem) (t : Tables)
    (ov : gmap Z pydict) (k : Z) :
  (int_labelled (parsed_datasets fs) = true ->
   _dataset_lookup_by_case ov (fst (_load_ndap_datasets fs t)) k = None <->
   ov !! k = None /\ forall d, In d (parsed_datasets fs) -> ~ covers d k) /\
  (forall d, default_index (snd d) ->
     covers d k <-> fst d <= k < fst d + df_len (snd d)).
Proof.
  split; [|intros d; apply covers_default].
  intros Hint. unfold _dataset_lookup_by_case.
  pose proof (tables_index_is_Some (parsed_datasets fs) (cleared_tables fs) k Hint) as Hiff.
  rewrite <- (load_ndap_datasets_tables fs t Hint) in Hiff.
  destruct (ov !! k) as [rec|].
  - split; [discriminate|]. intros [[=] _].
  - destruct (CASE_INDEX (fst (_load_ndap_datasets fs t)) !! k) as [[c i]|] eqn:Hix.
    + split; [discriminate|]. intros [_ Hnone]. exfalso.
      destruct (proj1 Hiff (ex_intro _ _ eq_refl)) as [[x Hx]|(d & Hin & Hc)].
      * cbn in Hx. rewrite lookup_empty in Hx. discriminate.
      * exact (Hnone d Hin Hc).
    + split; [|reflexivity]. intros _. split; [reflexivity|].
      intros d Hin Hc. destruct (proj2 Hiff) as [x Hx]; [right; eauto|discriminate].
Qed.
(** ** Row counts *)

Lemma load_rows_size_le (code : Z) (cols : list string) (ycol : option string)
    (rs : list (label * list cell)) (t : Tables) :
  (size (DATASET_ROWS (fst (load_rows code cols ycol rs t)))
     <= size (DATASET_ROWS t) + List.length rs)%nat.
Proof.
  revert t. induction rs as [|[l row] rs IH]; intros t; [cbn; lia|].
  set (entry := {| dataset_code := code; row_index := l;
                   data := make_row_dict cols row; year_col := ycol |}).
  assert (Hins : (size (<[(code, l) := entry]> (DATASET_ROWS t))
                  <= size (DATASET_ROWS t) + 1)%nat).
  { rewrite map_size_insert. destruct (DATASET_ROWS t !! (code, l)); cbn; lia. }
  destruct l as [z|s]; cbn [load_rows label_is_zero List.length]; fold entry.
  - etransitivity; [apply IH|].
    assert (Hrows : forall t', DATASET_ROWS
                      (set_index (insert (code + z) (code, z))
                         (if z =? 0 then set_index (insert code (code, 0)) t' else t'))
                    = DATASET_ROWS t') by (intros t'; destruct (z =? 0); reflexivity).
    rewrite Hrows. cbn [set_rows DATASET_ROWS]. lia.
  - cbn [fst set_rows DATASET_ROWS]. lia.
Qed.

Lemma load_rows_size (code : Z) (cols : list string) (ycol : option string)
    (rs : list (label * list cell)) (t : Tables) :
  forallb is_int (List.map fst rs) = true ->
  NoDup (List.map fst rs) ->
  (forall l, l ∈ List.map fst rs -> DATASET_ROWS t !! (code, l) = None) ->
  size (DATASET_ROWS (fst (load_rows code cols ycol rs t)))
    = (size (DATASET_ROWS t) + List.length rs)%nat.
Proof.
  revert t. induction rs as [|[[z|s] row] rs IH]; intros t Hint Hnd Hfresh.
  - cbn. lia.
  - cbn [List.map fst forallb is_int andb] in Hint, Hnd, Hfresh.
    apply NoDup_cons in Hnd as [Hz Hnd].
    cbn [load_rows label_is_zero List.length]. rewrite IH; [|exact Hint|exact Hnd|].
    + assert (Hrows : forall t', DATASET_ROWS
                        (set_index (insert (code + z) (code, z))
                           (if z =? 0 then set_index (insert code (code, 0)) t' else t'))
                      = DATASET_ROWS t') by (intros t'; destruct (z =? 0); reflexivity).
      rewrite Hrows. cbn [set_rows DATASET_ROWS].
      rewrite map_size_insert, (Hfresh (LInt z)) by left. lia.
    + intros l Hl.
      assert (Hrows : forall t', DATASET_ROWS
                        (set_index (insert (code + z) (code, z))
                           (if z =? 0 then set_index (insert code (code, 0)) t' else t'))
                      = DATASET_ROWS t') by (intros t'; destruct (z =? 0); reflexivity).
      rewrite Hrows. cbn [set_rows DATASET_ROWS].
      rewrite lookup_insert_ne by (intros [= <-]; contradiction).
      apply Hfresh. right. exact Hl.
  - discriminate Hint.
Qed.

Lemma rows_total_nonneg (ds : list (Z * DataFrame)) : 0 <= rows_total ds.
Proof.
  induction ds as [|d ds IH]; [cbn; lia|].
  change (rows_total (d :: ds)) with (df_len (snd d) + rows_total ds). unfold df_len. lia.
Qed.

Lemma rows_total_app (ds1 ds2 : list (Z * DataFrame)) :
  rows_total (ds1 ++ ds2) = rows_total ds1 + rows_total ds2.
Proof.
  induction ds1 as [|d ds1 IH]; [cbn [app]; change (rows_total []) with 0; lia|].
  change (rows_total ((d :: ds1) ++ ds2)) with (df_len (snd d) + rows_total (ds1 ++ ds2)).
  change (rows_total (d :: ds1)) with (df_len (snd d) + rows_total ds1). lia.
Qed.

Lemma tables_size_le (ds : list (Z * DataFrame)) (t : Tables) :
  Z.of_nat (size (DATASET_ROWS (fold_left dataset_tables ds t)))
    <= Z.of_nat (size (DATASET_ROWS t)) + rows_total ds.
Proof.
  revert t. induction ds as [|d ds IH]; intros t.
  - cbn. lia.
  - change (rows_total (d :: ds)) with (df_len (snd d) + rows_total ds).
    cbn [fold_left]. etransitivity; [apply IH|]. unfold dataset_tables.
    pose proof (load_rows_size_le (fst d) (columns (snd d))
                  (find_year_col (columns (snd d))) (rows (snd d))
                  (set_summary (insert (fst d) (df_len (snd d))) t)) as Hle.
    cbn [set_summary DATASET_ROWS] in Hle. unfold df_len in *. lia.
Qed.

Lemma tables_size_distinct (ds : list (Z * DataFrame)) (t : Tables) :
  int_labelled ds = true ->
  NoDup (List.map fst ds) ->
  (forall d, In d ds -> NoDup (labels (snd d))) ->
  tables_consistent t ->
  (forall c, In c (List.map fst ds) -> DATASET_SUMMARY t !! c = None) ->
  Z.of_nat (size (DATASET_ROWS (fold_left dataset_tables ds t)))
    = Z.of_nat (size (DATASET_ROWS t)) + rows_total ds.
Proof.
  revert t. induction ds as [|d ds IH]; intros t Hint Hnd Hlab Hcons Hfresh.
  - cbn. lia.
  - change (rows_total (d :: ds)) with (df_len (snd d) + rows_total ds).
    cbn [int_labelled forallb] in Hint. apply andb_true_iff in Hint as [Hd Hds].
    cbn [fold_left List.map] in *. apply NoDup_cons in Hnd as [Hfst Hnd].
    rewrite IH; [|exact Hds|exact Hnd| |apply dataset_tables_consistent; exact Hcons|].
    + assert (Hnone : forall l, l ∈ List.map fst (rows (snd d)) ->
                DATASET_ROWS (set_summary (insert (fst d) (df_len (snd d))) t)
                  !! (fst d, l) = None).
      { intros l _. cbn [set_summary DATASET_ROWS].
        destruct (DATASET_ROWS t !! (fst d, l)) as [r|] eqn:Hr; [|reflexivity].
        destruct Hcons as [_ Hrows]. destruct (Hrows _ _ _ Hr) as (_ & _ & [n Hn] & _).
        rewrite (Hfresh (fst d)) in Hn by (left; reflexivity). discriminate. }
      unfold dataset_tables.
      rewrite (load_rows_size _ _ _ _ _ Hd (Hlab d (or_introl eq_refl)) Hnone).
      cbn [set_summary DATASET_ROWS]. unfold df_len. lia.
    + intros d' Hd'. apply Hlab. right. exact Hd'.
    + intros c Hc. rewrite dataset_tables_summary, lookup_insert_ne.
      * apply Hfresh. right. exact Hc.
      * intros Heq. subst c. apply Hfst. apply list_elem_of_In. exact Hc.
Qed.

(** X13. After an index build, the [ndap_rows] that [/ping] reports (the
    number of stored rows) never exceeds the sum of the row counts of the
    parsed datasets, which is what a build that runs to its end returns. The
    two are equal when the build runs to its end, no dataset code occurs in
    more than one parsed file and no row label occurs twice in a file;
    [/ping] reports the summary and the scanned folders as the build left
    them. *)
Theorem ping_rows_vs_loaded (env : Env) (fs : FileSystem) (t : Tables) :
  ndap_rows (ping env (fst (_load_ndap_datasets fs t))) <= rows_total (parsed_datasets fs) /\
  (forall total, snd (_load_ndap_datasets fs t) = Ok total ->
     ndap_rows (ping env (fst (_load_ndap_datasets fs t))) <= total) /\
  (int_labelled (parsed_datasets fs) = true ->
   NoDup (List.map fst (parsed_datasets fs)) ->
   (forall d, In d (parsed_datasets fs) -> NoDup (labels (snd d))) ->
   snd (_load_ndap_datasets fs t)
     = Ok (ndap_rows (ping env (fst (_load_ndap_datasets fs t))))) /\
  ping_datasets (ping env (fst (_load_ndap_datasets fs t)))
    = DATASET_SUMMARY (fst (_load_ndap_datasets fs t)) /\
  scanned_dirs (ping env (fst (_load_ndap_datasets fs t))) = _scan_dirs fs.
Proof.
  unfold ping. cbn [ndap_rows scanned_dirs ping_datasets].
  rewrite load_ndap_datasets_reached. cbn [fst snd].
  assert (Hle : Z.of_nat (size (DATASET_ROWS
                  (fold_left dataset_tables (reached (parsed_datasets fs))
                     (cleared_tables fs))))
                <= rows_total (parsed_datasets fs)).
  { pose proof (tables_size_le (reached (parsed_datasets fs)) (cleared_tables fs)) as Hle.
    cbn [cleared_tables DATASET_ROWS] in Hle. rewrite map_size_empty in Hle.
    destruct (reached_prefix (parsed_datasets fs)) as [rest Hrest].
    rewrite Hrest at 2. rewrite rows_total_app.
    pose proof (rows_total_nonneg rest). lia. }
  split; [exact Hle|]. split; [|split; [|split]].
  - intros total. destruct (int_labelled (parsed_datasets fs)); [|discriminate].
    intros [= <-]. exact Hle.
  - intros Hint Hnd Hlab. rewrite Hint, reached_int_labelled by exact Hint.
    rewrite (tables_size_distinct (parsed_datasets fs) (cleared_tables fs) Hint Hnd Hlab).
    + cbn [cleared_tables DATASET_ROWS]. rewrite map_size_empty. reflexivity.
    + apply cleared_tables_consistent.
    + intros c _. apply lookup_empty.
  - reflexivity.
  - apply dataset_tables_scanned.
Qed.

Lemma ping_rows_vs_loaded_witness :
  ndap_rows (ping env_mock (fst (_load_ndap_datasets overlap_fs empty_tables))) = 5 /\
  snd (_load_ndap_datasets overlap_fs empty_tables) = Ok 5 /\
  ndap_rows (ping env_mock (fst (_load_ndap_datasets duplicate_code_fs empty_tables))) = 3 /\
  snd (_load_ndap_datasets duplicate_code_fs empty_tables) = Ok 5 /\
  ndap_rows (ping env_mock (fst (_load_ndap_datasets repeated_label_fs empty_tables))) = 2 /\
  snd (_load_ndap_datasets repeated_label_fs empty_tables) = Ok 3.
Proof.
  destruct (ping_rows_vs_loaded env_mock overlap_fs empty_tables) as (_ & _ & Heq & _).
  assert (Hok : snd (_load_ndap_datasets overlap_fs empty_tables)
                = Ok (ndap_rows (ping env_mock
                                   (fst (_load_ndap_datasets overlap_fs empty_tables))))).
  { apply Heq.
    - reflexivity.
    - apply (bool_decide_eq_true_1 (NoDup (List.map fst (parsed_datasets overlap_fs)))).
      reflexivity.
    - assert (Hall : Forall (fun d => NoDup (labels (snd d))) (parsed_datasets overlap_fs)).
      { apply (bool_decide_eq_true_1
                 (Forall (fun d => NoDup (labels (snd d))) (parsed_datasets overlap_fs))).
        reflexivity. }
      intros d Hd. rewrite Forall_forall in Hall. apply Hall, list_elem_of_In, Hd. }
  split; [|split; [exact (eq_trans Hok eq_refl)|repeat split; reflexivity]].
  reflexivity.
Defined.

(** ** Rows and the records derived from them *)

Lemma fold_dict_set_fresh {V : Type} (f : string -> V) (cols : list string)
    (d0 : list (string * V)) :
  NoDup cols ->
  (forall c, In c cols -> dict_get d0 c = None) ->
  fold_left (fun d c => dict_set d c (f c)) cols d0
    = (d0 ++ List.map (fun c => (c, f c)) cols)%list.
Proof.
  revert d0. induction cols as [|c cols IH]; intros d0 Hnd Hfresh.
  - cbn. rewrite app_nil_r. reflexivity.
  - apply NoDup_cons in Hnd as [Hc Hnd]. cbn [fold_left List.map].
    rewrite dict_set_absent by (apply Hfresh; left; reflexivity).
    rewrite IH; [rewrite <- app_assoc; reflexivity|exact Hnd|].
    intros c' Hc'. rewrite dict_get_app, (Hfresh c') by (right; exact Hc').
    cbn [dict_get]. destruct (String.eqb c c') eqn:E; [|reflexivity].
    apply String.eqb_eq in E. subst c'. exfalso. apply Hc, list_elem_of_In, Hc'.
Qed.

Lemma map_positional (g : string -> cell) (cols : list string) (row : list cell) :
  NoDup cols -> List.length row = List.length cols ->
  (forall c, In c cols -> g c = match dict_get (combine cols row) c with
                                | Some x => x | None => None end) ->
  List.map (fun c => (c, cell_text (g c))) cols = combine cols (List.map cell_text row).
Proof.
  revert row. induction cols as [|c cols IH]; intros row Hnd Hlen Hg.
  - reflexivity.
  - destruct row as [|x row]; [discriminate|].
    apply NoDup_cons in Hnd as [Hc Hnd]. cbn [List.map combine]. f_equal.
    + rewrite (Hg c) by (left; reflexivity). cbn [combine dict_get].
      rewrite String.eqb_refl. reflexivity.
    + apply IH; [exact Hnd|cbn in Hlen; lia|].
      intros c' Hc'. rewrite (Hg c') by (right; exact Hc'). cbn [combine dict_get].
      destruct (String.eqb c c') eqn:E; [|reflexivity].
      apply String.eqb_eq in E. subst c'. exfalso. apply Hc, list_elem_of_In, Hc'.
Qed.

Lemma make_row_dict_zip (cols : list string) (row : list cell) :
  NoDup cols -> List.length row = List.length cols ->
  make_row_dict cols row = combine cols (List.map cell_text row).
Proof.
  intros Hnd Hlen. unfold make_row_dict.
  rewrite (fold_dict_set_fresh
             (fun c => match row_at cols row c with None => "" | Some s => s end))
    by (exact Hnd || reflexivity).
  cbn [app].
  apply (map_positional (row_at cols row) cols row Hnd Hlen).
  intros c _. reflexivity.
Qed.

(** X14. For a frame with distinct column labels, the dict stored for a row
    has exactly the columns as keys, in column order, each with the text of
    the row's cell in that column, a missing cell giving the empty string. *)
Theorem make_row_dict_columns (cols : list string) (row : list cell) :
  NoDup cols -> List.length row = List.length cols ->
  make_row_dict cols row = combine cols (List.map cell_text row) /\
  List.map fst (make_row_dict cols row) = cols.
Proof.
  intros Hnd Hlen. pose proof (make_row_dict_zip cols row Hnd Hlen) as Hzip.
  split; [exact Hzip|]. rewrite Hzip.
  clear Hzip Hnd. revert row Hlen. induction cols as [|c cols IH]; intros row Hlen.
  - reflexivity.
  - destruct row as [|x row]; [discriminate|]. cbn [List.map combine fst]. f_equal.
    apply IH. cbn in Hlen. lia.
Qed.

Lemma make_row_dict_columns_witness :
  make_row_dict ["Year"; "State"; "status"] [Some "2020"; None; Some "Pending"]
    = [("Year", "2020"); ("State", ""); ("status", "Pending")].
Proof.
  destruct (make_row_dict_columns ["Year"; "State"; "status"]
              [Some "2020"; None; Some "Pending"]) as [Hzip _].
  - apply (bool_decide_eq_true_1 (NoDup ["Year"; "State"; "status"])). reflexivity.
  - reflexivity.
  - rewrite Hzip. reflexivity.
Defined.

Lemma or_default_not_empty (a : option string) (dflt : string) :
  String.eqb dflt "" = false -> String.eqb (or_default a dflt) "" = false.
Proof.
  intros Hd. unfold or_default, str_or. destruct a as [s|]; [|exact Hd].
  destruct (String.eqb s "") eqn:E; [exact Hd|exact E].
Qed.

(** The record of the dataset tier, spelled out. *)
Lemma dataset_record_fields (rows_tbl : gmap (Z * label) RowEntry) (code idx : Z) :
  dataset_record rows_tbl code idx =
    let dat := match rows_tbl !! (code, LInt idx) with Some r => data r | None => [] end in
    let ycol := match rows_tbl !! (code, LInt idx) with Some r => year_col r | None => None end in
    [ ("parties",
         VStr (match _best_parties_from_row dat with
               | Some p => if String.eqb p ""
                           then "Case " +:+ PyStr.of_Z code +:+ "-" +:+ PyStr.of_Z idx
                           else p
               | None => "Case " +:+ PyStr.of_Z code +:+ "-" +:+ PyStr.of_Z idx
               end));
      ("filing_date",
         VStr (or_default (if str_truthy ycol
                           then match ycol with Some y => dict_get dat y | None => None end
                           else Some "N/A") "N/A"));
      ("next_hearing", VStr (or_default (dict_get dat "next_hearing") "N/A"));
      ("status", VStr (or_default (dict_get dat "status") "From NDAP Dataset"));
      ("raw_source", VDict [("url", VStr "https://ndap.niti.gov.in")]);
      ("sample_data", VDict (List.map (fun kv => (fst kv, VStr (snd kv))) (firstn 5 dat))) ].
Proof. reflexivity. Qed.

(** X15. Every record derived from the dataset tier has the six keys
    [parties], [filing_date], [next_hearing], [status], [raw_source],
    [sample_data] in this order; the first four hold non-empty strings,
    [raw_source] is [{"url": "https://ndap.niti.gov.in"}] and [sample_data]
    has at most five entries. Hence the record meets the output contract of
    the completion pass, and that pass returns it unchanged. *)
Theorem dataset_record_complete (rows_tbl : gmap (Z * label) RowEntry) (code idx : Z) :
  List.map fst (dataset_record rows_tbl code idx) = dataset_record_keys /\
  forallb (fun k => non_empty_str (dict_get (dataset_record rows_tbl code idx) k))
          canonical_fields = true /\
  dict_get (dataset_record rows_tbl code idx) "raw_source"
    = Some (VDict [("url", VStr "https://ndap.niti.gov.in")]) /\
  (exists sample, dict_get (dataset_record rows_tbl code idx) "sample_data"
                  = Some (VDict sample) /\ (List.length sample <= 5)%nat) /\
  complete_non_null (dataset_record rows_tbl code idx) = true /\
  _ensure_min_fields (VDict (dataset_record rows_tbl code idx))
    = dataset_record rows_tbl code idx.
Proof.
  rewrite dataset_record_fields. cbv zeta.
  set (dat := match rows_tbl !! (code, LInt idx) with Some r => data r | None => [] end).
  set (ycol := match rows_tbl !! (code, LInt idx) with Some r => year_col r | None => None end).
  split; [reflexivity|]. split.
  - cbn [canonical_fields forallb]. 
    change (negb (String.eqb
                    (match _best_parties_from_row dat with
                     | Some p => if String.eqb p ""
                                 then "Case " +:+ PyStr.of_Z code +:+ "-" +:+ PyStr.of_Z idx
                                 else p
                     | None => "Case " +:+ PyStr.of_Z code +:+ "-" +:+ PyStr.of_Z idx
                     end) "")
            && (negb (String.eqb (or_default (if str_truthy ycol
                           then match ycol with Some y => dict_get dat y | None => None end
                           else Some "N/A") "N/A") "")
            && (negb (String.eqb (or_default (dict_get dat "next_hearing") "N/A") "")
            && (negb (String.eqb (or_default (dict_get dat "status") "From NDAP Dataset") "")
            && true))) = true).
    rewrite !or_default_not_empty by reflexivity.
    destruct (_best_parties_from_row dat) as [p|]; [|reflexivity].
    destruct (String.eqb p "") eqn:E; [reflexivity|]. rewrite E. reflexivity.
  - split; [reflexivity|]. split.
    + eexists. split; [reflexivity|]. rewrite length_map, length_firstn. lia.
    + split; reflexivity.
Qed.

Lemma or_default_cases (a : option string) (dflt : string) :
  or_default a dflt = match a with
                      | Some v => if String.eqb v "" then dflt else v
                      | None => dflt
                      end.
Proof. unfold or_default, str_or. destruct a as [v|]; [|reflexivity]. destruct (String.eqb v ""); reflexivity. Qed.

(** The date fields and the sample of the record derived from a stored
    row. *)
Lemma dataset_record_of_row (rows_tbl : gmap (Z * label) RowEntry) (code idx : Z) (r : RowEntry) :
  rows_tbl !! (code, LInt idx) = Some r ->
  dict_get (dataset_record rows_tbl code idx) "filing_date" =
    Some (VStr (match year_col r with
                | Some y =>
                    if String.eqb y "" then "N/A"
                    else match dict_get (data r) y with
                         | Some v => if String.eqb v "" then "N/A" else v
                         | None => "N/A"
                         end
                | None => "N/A"
                end)) /\
  dict_get (dataset_record rows_tbl code idx) "next_hearing" =
    Some (VStr (match dict_get (data r) "next_hearing" with
                | Some v => if String.eqb v "" then "N/A" else v
                | None => "N/A"
                end)) /\
  dict_get (dataset_record rows_tbl code idx) "sample_data" =
    Some (VDict (List.map (fun kv => (fst kv, VStr (snd kv))) (firstn 5 (data r)))).
Proof.
  intros Hrow. rewrite dataset_record_fields, Hrow. cbv zeta.
  split; [|split; [|reflexivity]].
  - cbn [dict_get String.eqb Ascii.eqb Bool.eqb]. f_equal. f_equal.
    rewrite or_default_cases. unfold str_truthy.
    destruct (year_col r) as [y|]; [|reflexivity].
    destruct (String.eqb y ""); reflexivity.
  - cbn [dict_get String.eqb Ascii.eqb Bool.eqb]. rewrite or_default_cases. reflexivity.
Qed.

(** X16. For a dataset-derived record read from a stored row: the filing
    date is the row's value in the detected year column when there is one and
    the value is not empty, and ["N/A"] otherwise; the next hearing is the
    value of a literal [next_hearing] column when that is present and not
    empty, and ["N/A"] otherwise; [sample_data] is the row's first five
    columns with their values, in column order. *)
Theorem dataset_dates_and_sample (ov : gmap Z pydict) (t : Tables) (n code idx : Z)
    (r : RowEntry) :
  ov !! n = None -> CASE_INDEX t !! n = Some (code, idx) ->
  DATASET_ROWS t !! (code, LInt idx) = Some r ->
  exists rec, _dataset_lookup_by_case ov t n = Some rec /\
    dict_get rec "filing_date" =
      Some (VStr (match year_col r with
                  | Some y =>
                      if String.eqb y "" then "N/A"
                      else match dict_get (data r) y with
                           | Some v => if String.eqb v "" then "N/A" else v
                           | None => "N/A"
                           end
                  | None => "N/A"
                  end)) /\
    dict_get rec "next_hearing" =
      Some (VStr (match dict_get (data r) "next_hearing" with
                  | Some v => if String.eqb v "" then "N/A" else v
                  | None => "N/A"
                  end)) /\
    dict_get rec "sample_data" =
      Some (VDict (List.map (fun kv => (fst kv, VStr (snd kv))) (firstn 5 (data r)))).
Proof.
  intros Hov Hix Hrow. eexists. split; [apply lookup_dataset_tier; eassumption|].
  apply dataset_record_of_row. exact Hrow.
Qed.

Lemma dataset_dates_and_sample_witness :
  (_dataset_lookup_by_case ∅ status_example_tables 101 ≫= fun r => dict_get r "filing_date")
    = Some (VStr "2021") /\
  (_dataset_lookup_by_case ∅ status_example_tables 101 ≫= fun r => dict_get r "next_hearing")
    = Some (VStr "N/A") /\
  (_dataset_lookup_by_case ∅ status_example_tables 101 ≫= fun r => dict_get r "sample_data")
    = Some (VDict [("Year", VStr "2021"); ("status", VStr "Pending")]).
Proof.
  destruct (DATASET_ROWS status_example_tables !! (100, LInt 1)) as [r|] eqn:Hrow;
    [|vm_compute in Hrow; discriminate Hrow].
  destruct (dataset_dates_and_sample ∅ status_example_tables 101 100 1 r)
    as (rec & -> & Hf & Hh & Hs); [reflexivity|reflexivity|exact Hrow|].
  vm_compute in Hrow. injection Hrow as <-.
  cbn [mbind option_bind]. rewrite Hf, Hh, Hs. repeat split; reflexivity.
Defined.

(** ** From a report file to a resolved record *)

Lemma find_year_col_not_empty (cols : list string) (y : string) :
  find_year_col cols = Some y -> String.eqb y "" = false.
Proof.
  intros H. apply find_some in H as [_ Hy].
  destruct y; [discriminate Hy|reflexivity].
Qed.

(** X17. End to end: take a row of a parsed dataset of code [c] whose
    column labels are distinct; let the row have the integer label [i] (its
    number, under the default labels) and be the last row of the dataset with
    that label, and suppose no dataset scanned later writes the key [c + i].
    After a build that ran to its end, resolving [c + i] gives a record whose
    filing date is the row's cell in the first column whose lower-cased name
    contains ["year"] (["N/A"] when there is no such column or the cell is
    missing) and whose [sample_data] is the row's first five columns with
    their cell texts. *)
Theorem resolved_record_of_loaded_row (fs : FileSystem) (t : Tables)
    (ds1 ds2 : list (Z * DataFrame)) (c : Z) (df : DataFrame)
    (rs1 rs2 : list (label * list cell)) (i : Z) (row : list cell) :
  int_labelled (parsed_datasets fs) = true ->
  parsed_datasets fs = (ds1 ++ (c, df) :: ds2)%list ->
  rows df = (rs1 ++ (LInt i, row) :: rs2)%list ->
  LInt i ∉ List.map fst rs2 ->
  (forall d, d ∈ ds2 -> ~ covers d (c + i)) ->
  NoDup (columns df) -> List.length row = List.length (columns df) ->
  exists rec,
    _dataset_lookup_by_case ∅ (fst (_load_ndap_datasets fs t)) (c + i) = Some rec /\
    dict_get rec "filing_date" =
      Some (VStr (match find_year_col (columns df) with
                  | Some y =>
                      match dict_get (combine (columns df) (List.map cell_text row)) y with
                      | Some v => if String.eqb v "" then "N/A" else v
                      | None => "N/A"
                      end
                  | None => "N/A"
                  end)) /\
    dict_get rec "sample_data" =
      Some (VDict (List.map (fun kv => (fst kv, VStr (snd kv)))
                     (firstn 5 (combine (columns df) (List.map cell_text row))))).
Proof.
  intros Hint Hparsed Hrows Hlabel Hlater Hnd Hlen.
  assert (Hdf : forallb is_int (labels df) = true).
  { apply (int_labelled_elem _ (c, df) Hint). rewrite Hparsed.
    apply elem_of_app. right. left. }
  assert (Hix : CASE_INDEX (fst (_load_ndap_datasets fs t)) !! (c + i) = Some (c, i)).
  { rewrite load_ndap_datasets_tables by exact Hint. rewrite Hparsed.
    rewrite (tables_index_last ds1 ds2 (c, df)); [| exact Hdf | | exact Hlater].
    - cbn [fst]. f_equal. f_equal. lia.
    - apply covers_label. unfold labels. rewrite Hrows, map_app.
      apply elem_of_app. right. left. }
  assert (Hrow : DATASET_ROWS (fst (_load_ndap_datasets fs t)) !! (c, LInt i)
                 = Some (row_entry c df (LInt i) row)).
  { rewrite load_ndap_datasets_tables by exact Hint. rewrite Hparsed.
    apply tables_rows_last; [exact Hdf| |exact Hlater].
    rewrite Hrows. apply stored_row_last. exact Hlabel. }
  destruct (dataset_record_of_row (DATASET_ROWS (fst (_load_ndap_datasets fs t)))
              c i (row_entry c df (LInt i) row) Hrow) as (Hf & _ & Hs).
  eexists. split; [apply lookup_dataset_tier; [apply lookup_empty|exact Hix]|].
  pose proof (make_row_dict_zip (columns df) row Hnd Hlen) as Hzip.
  cbn [row_entry data year_col] in Hf, Hs. rewrite Hzip in Hf, Hs.
  split; [|exact Hs]. rewrite Hf.
  destruct (find_year_col (columns df)) as [y|] eqn:Hy; [|reflexivity].
  rewrite (find_year_col_not_empty _ _ Hy). reflexivity.
Qed.

Lemma resolved_record_of_loaded_row_witness :
  exists rec,
    _dataset_lookup_by_case ∅ (fst (_load_ndap_datasets status_example_fs empty_tables)) 101
      = Some rec /\
    dict_get rec "filing_date" = Some (VStr "2021") /\
    dict_get rec "sample_data" = Some (VDict [("Year", VStr "2021"); ("status", VStr "Pending")]).
Proof.
  destruct (resolved_record_of_loaded_row status_example_fs empty_tables
              [] [] 100
              {| columns := ["Year"; "status"];
                 rows := range_index [[Some "2020"; None]; [Some "2021"; Some "Pending"]] |}
              [(LInt 0, [Some "2020"; None])] [] 1 [Some "2021"; Some "Pending"])
    as (rec & Hrec & Hf & Hs).
  - reflexivity.
  - reflexivity.
  - reflexivity.
  - apply not_elem_of_nil.
  - intros d Hd. apply elem_of_nil in Hd. contradiction.
  - apply (bool_decide_eq_true_1 (NoDup ["Year"; "status"])). reflexivity.
  - reflexivity.
  - exists rec. split; [exact Hrec|]. split; [exact Hf|exact Hs].
Defined.

(** ** One report file *)

Lemma single_file_parsed (fname : string) (content : read_result) :
  parsed_datasets (single_file_fs fname content) =
    if glob_match fname
    then match parsed_entry (fname, content) with Some d => [d] | None => [] end
    else [].
Proof.
  unfold parsed_datasets, _scan_dirs, DATASET_DIRS, glob_reports, single_file_fs.
  cbn [List.filter String.eqb Ascii.eqb Bool.eqb flat_map fst].
  destruct (glob_match fname); [|reflexivity].
  change (omap parsed_entry [(fname, content)])
    with (match parsed_entry (fname, content) with Some d => [d] | None => [] end).
  rewrite app_nil_r. reflexivity.
Qed.

(** X18. A tree whose only folder is [dataset], holding one file. If the
    file is [NDAP_REPORT_<n>.csv] for an integer [n] of at most 4300 digits
    (negative included) and reads as a non-empty frame whose row labels are
    integers, the build returns the frame's row count, records it in the
    summary under [n], and indexes [n + i] for every row label [i] and
    nothing else; under the default labels these are the keys [n] to
    [n + rows - 1]. If a row label of the frame is no number, the build
    raises [TypeError], with the row count in the summary. If the name does
    not match the report pattern, or no integer code parses from it, or the
    file does not read as CSV, or the frame is empty, the build returns 0 and
    leaves the summary and the index empty. *)
Theorem single_report_build (t : Tables) :
  (forall n df,
     PyStr.within_limit n = true ->
     df_empty df = false ->
     forallb is_int (labels df) = true ->
     let built := _load_ndap_datasets (single_file_fs (report_name n) (Frame df)) t in
     snd built = Ok (df_len df) /\
     DATASET_SUMMARY (fst built) = {[ n := df_len df ]} /\
     (forall k, CASE_INDEX (fst built) !! k =
                if bool_decide (LInt (k - n) ∈ labels df) then Some (n, k - n) else None) /\
     (default_index df ->
      forall k, CASE_INDEX (fst built) !! k =
                if bool_decide (n <= k < n + df_len df) then Some (n, k - n) else None)) /\
  (forall n df,
     PyStr.within_limit n = true ->
     df_empty df = false ->
     forallb is_int (labels df) = false ->
     let built := _load_ndap_datasets (single_file_fs (report_name n) (Frame df)) t in
     snd built = Raise TypeError /\
     DATASET_SUMMARY (fst built) = {[ n := df_len df ]}) /\
  (forall fname content,
     glob_match fname = false \/ parse_code fname = None \/ content = ReadError \/
     (exists df, content = Frame df /\ df_empty df = true) ->
     let built := _load_ndap_datasets (single_file_fs fname content) t in
     snd built = Ok 0 /\ DATASET_SUMMARY (fst built) = ∅ /\ CASE_INDEX (fst built) = ∅ /\
     DATASET_ROWS (fst built) = ∅).
Proof.
  assert (Hparsed : forall n df,
            PyStr.within_limit n = true -> df_empty df = false ->
            parsed_datasets (single_file_fs (report_name n) (Frame df)) = [(n, df)]).
  { intros n df Hlim Hne. rewrite single_file_parsed.
    destruct (report_name_parses n) as [-> Hcode].
    unfold parsed_entry. cbn [fst snd]. rewrite Hcode, Hlim, Hne. reflexivity. }
  split; [|split].
  - intros n df Hlim Hne Hint. cbv zeta.
    assert (Hindex : forall k,
              CASE_INDEX (fst (_load_ndap_datasets
                                 (single_file_fs (report_name n) (Frame df)) t)) !! k =
                if bool_decide (LInt (k - n) ∈ labels df) then Some (n, k - n) else None).
    { intros k. rewrite load_ndap_datasets_reached, (Hparsed n df Hlim Hne).
      cbn [reached snd fst]. rewrite Hint. cbn [fold_left].
      rewrite dataset_tables_index by exact Hint.
      destruct (decide (LInt (k - n) ∈ labels df)) as [Hin|Hin].
      - rewrite (bool_decide_eq_true_2 (covers (n, df) k)) by exact Hin.
        rewrite bool_decide_eq_true_2 by exact Hin. reflexivity.
      - rewrite (bool_decide_eq_false_2 (covers (n, df) k)) by exact Hin.
        rewrite bool_decide_eq_false_2 by exact Hin. cbn. apply lookup_empty. }
    split; [|split; [|split]].
    + rewrite load_ndap_datasets_reached, (Hparsed n df Hlim Hne).
      cbn [int_labelled forallb snd]. rewrite Hint. cbn. f_equal. lia.
    + rewrite load_ndap_datasets_reached, (Hparsed n df Hlim Hne).
      cbn [reached snd fst]. rewrite Hint. cbn [fold_left].
      rewrite dataset_tables_summary. cbn [fst snd cleared_tables DATASET_SUMMARY].
      apply insert_empty.
    + exact Hindex.
    + intros Hdef k. rewrite Hindex.
      pose proof (covers_default (n, df) k Hdef) as Hcov. unfold covers in Hcov.
      cbn [fst snd] in Hcov.
      destruct (decide (n <= k < n + df_len df)) as [Hk|Hk].
      * rewrite !bool_decide_eq_true_2; [reflexivity|exact Hk|apply Hcov; exact Hk].
      * rewrite !bool_decide_eq_false_2; [reflexivity|exact Hk|].
        intros Hin. apply Hk, Hcov, Hin.
  - intros n df Hlim Hne Hint. cbv zeta.
    rewrite load_ndap_datasets_reached, (Hparsed n df Hlim Hne).
    cbn [int_labelled forallb reached snd fst]. rewrite Hint. cbn [andb fold_left].
    split; [reflexivity|]. rewrite dataset_tables_summary.
    cbn [fst snd cleared_tables DATASET_SUMMARY]. apply insert_empty.
  - intros fname content Hskip. cbv zeta.
    rewrite load_ndap_datasets_reached, single_file_parsed.
    assert (Hnone : (if glob_match fname
                     then match parsed_entry (fname, content) with
                          | Some d => [d] | None => [] end
                     else []) = []).
    { destruct (glob_match fname); [|reflexivity]. unfold parsed_entry. cbn [fst snd].
      destruct Hskip as [H|[H|[H|(df & -> & H)]]].
      - discriminate.
      - rewrite H. reflexivity.
      - rewrite H. destruct (parse_code fname); reflexivity.
      - rewrite H. destruct (parse_code fname); reflexivity. }
    rewrite Hnone. cbn. auto.
Qed.

Lemma single_report_build_witness :
  snd (_load_ndap_datasets
         (single_file_fs (report_name (-5))
            (Frame {| columns := ["Year"];
                      rows := range_index [[Some "2001"]; [None]] |})) empty_tables) = Ok 2 /\
  CASE_INDEX (fst (_load_ndap_datasets
         (single_file_fs (report_name (-5))
            (Frame {| columns := ["Year"];
                      rows := range_index [[Some "2001"]; [None]] |})) empty_tables))
    !! (-4) = Some (-5, 1) /\
  snd (_load_ndap_datasets
         (single_file_fs (report_name 100)
            (Frame {| columns := ["Year"];
                      rows := [(LText "a", [Some "2019"])] |})) empty_tables)
    = Raise TypeError /\
  snd (_load_ndap_datasets
         (single_file_fs "NDAP_REPORT_final.csv"
            (Frame {| columns := ["Year"];
                      rows := range_index [[Some "2001"]] |})) empty_tables) = Ok 0.
Proof.
  destruct (single_report_build empty_tables) as (Hload & Hraise & Hskip).
  destruct (Hload (-5) {| columns := ["Year"]; rows := range_index [[Some "2001"]; [None]] |}
              eq_refl eq_refl eq_refl)
    as (Htotal & _ & _ & Hix).
  destruct (Hraise 100 {| columns := ["Year"]; rows := [(LText "a", [Some "2019"])] |}
              eq_refl eq_refl eq_refl) as (Hte & _).
  destruct (Hskip "NDAP_REPORT_final.csv"
              (Frame {| columns := ["Year"]; rows := range_index [[Some "2001"]] |}))
    as (Hzero & _); [right; left; reflexivity|].
  split; [exact Htotal|]. split; [rewrite Hix; reflexivity|]. split; [exact Hte|exact Hzero].
Defined.

(** ** The dataset listing *)

Lemma sorted_codes_elem (summary : gmap Z Z) (c : Z) :
  In c (sorted_codes summary) <-> is_Some (summary !! c).
Proof.
  unfold sorted_codes. rewrite <- list_elem_of_In, merge_sort_Permutation.
  rewrite list_elem_of_fmap. split.
  - intros ([k v] & -> & Hin). apply elem_of_map_to_list in Hin. eauto.
  - intros [v Hv]. exists (c, v). split; [reflexivity|]. apply elem_of_map_to_list. exact Hv.
Qed.

Lemma sorted_codes_NoDup (summary : gmap Z Z) : NoDup (sorted_codes summary).
Proof.
  unfold sorted_codes. rewrite merge_sort_Permutation. apply NoDup_fst_map_to_list.
Qed.

Lemma sorted_codes_sorted (summary : gmap Z Z) : StronglySorted Z.le (sorted_codes summary).
Proof. apply StronglySorted_merge_sort; apply _. Qed.

Lemma sorted_codes_length (summary : gmap Z Z) :
  List.length (sorted_codes summary) = size summary.
Proof.
  unfold sorted_codes. rewrite merge_sort_Permutation, length_map.
  apply length_map_to_list.
Qed.

Lemma example_numbers (t : Tables) :
  List.map example_case_number (snd (list_datasets t))
    = firstn 10 (sorted_codes (DATASET_SUMMARY t)).
Proof.
  unfold list_datasets. cbn [snd]. rewrite <- firstn_map, map_map. cbn [example_case_number].
  rewrite map_id. reflexivity.
Qed.

Lemma in_firstn_in {A : Type} (n : nat) (l : list A) (x : A) :
  In x (firstn n l) -> In x l.
Proof.
  intros H. rewrite <- (firstn_skipn n l). apply in_or_app. left. exact H.
Qed.

Lemma dataset_code_is_indexed (fs : FileSystem) (t : Tables) (c : Z) :
  int_labelled (parsed_datasets fs) = true ->
  (forall d, In d (parsed_datasets fs) -> LInt 0 ∈ labels (snd d)) ->
  is_Some (DATASET_SUMMARY (fst (_load_ndap_datasets fs t)) !! c) ->
  is_Some (CASE_INDEX (fst (_load_ndap_datasets fs t)) !! c).
Proof.
  intros Hint Hzero. rewrite load_ndap_datasets_tables by exact Hint.
  rewrite tables_summary_lookup.
  destruct (List.find _ (rev (parsed_datasets fs))) as [d|] eqn:Hfind.
  - intros _. apply find_some in Hfind as [Hin Heq]. apply Z.eqb_eq in Heq. subst c.
    apply in_rev in Hin. apply tables_index_is_Some; [exact Hint|]. right. exists d.
    split; [exact Hin|]. unfold covers. rewrite Z.sub_diag. apply Hzero, Hin.
  - cbn. rewrite lookup_empty. intros [x [=]].
Qed.

(** X19. [/datasets/list] returns the summary table and, as examples, the
    ten smallest dataset codes (all of them when there are fewer), in
    strictly ascending order, each labelled [<code>/row0]. After an index
    build that ran to its end over datasets that each have a row labelled 0,
    as every frame with the default labels has, every listed case number is
    in the case index, at an entry [(c, i)] with [c + i] equal to the number
    and a stored row behind it. *)
Theorem list_datasets_examples (fs : FileSystem) (t0 t : Tables) :
  fst (list_datasets t) = DATASET_SUMMARY t /\
  List.length (snd (list_datasets t)) = Nat.min 10 (size (DATASET_SUMMARY t)) /\
  StronglySorted Z.lt (List.map example_case_number (snd (list_datasets t))) /\
  (forall e, In e (snd (list_datasets t)) ->
     is_Some (DATASET_SUMMARY t !! example_case_number e) /\
     maps_to e = PyStr.of_Z (example_case_number e) +:+ "/row0") /\
  (forall c, is_Some (DATASET_SUMMARY t !! c) ->
     ~ In c (List.map example_case_number (snd (list_datasets t))) ->
     forall n, In n (List.map example_case_number (snd (list_datasets t))) -> n < c) /\
  (int_labelled (parsed_datasets fs) = true ->
   (forall d, In d (parsed_datasets fs) -> LInt 0 ∈ labels (snd d)) ->
   forall e, In e (snd (list_datasets (fst (_load_ndap_datasets fs t0)))) ->
     exists c i,
       CASE_INDEX (fst (_load_ndap_datasets fs t0)) !! example_case_number e = Some (c, i) /\
       c + i = example_case_number e /\
       is_Some (DATASET_ROWS (fst (_load_ndap_datasets fs t0)) !! (c, LInt i))).
Proof.
  assert (Hin_num : forall t' e, In e (snd (list_datasets t')) ->
            In (example_case_number e) (sorted_codes (DATASET_SUMMARY t'))).
  { intros t' e He. apply (in_map example_case_number) in He.
    rewrite example_numbers in He. apply (in_firstn_in _ _ _ He). }
  pose proof (sorted_codes_sorted (DATASET_SUMMARY t)) as Hsorted.
  rewrite <- (firstn_skipn 10 (sorted_codes (DATASET_SUMMARY t))) in Hsorted.
  split; [reflexivity|]. split; [|split; [|split; [|split]]].
  - rewrite <- (length_map example_case_number), example_numbers, length_firstn,
      sorted_codes_length. reflexivity.
  - rewrite example_numbers.
    pose proof (sorted_codes_NoDup (DATASET_SUMMARY t)) as Hnd.
    rewrite <- (firstn_skipn 10 (sorted_codes (DATASET_SUMMARY t))) in Hnd.
    apply NoDup_app in Hnd as (Hnd & _ & _).
    apply StronglySorted_app_1_l in Hsorted.
    revert Hsorted Hnd. generalize (firstn 10 (sorted_codes (DATASET_SUMMARY t))).
    induction l as [|x l IH]; intros Hs Hnd; [constructor|].
    apply StronglySorted_inv in Hs as [Hs Hall]. apply NoDup_cons in Hnd as [Hx Hnd].
    constructor; [apply IH; assumption|].
    rewrite Forall_forall in Hall |- *. intros y Hy. specialize (Hall y Hy).
    assert (x <> y) by (intros ->; apply Hx; exact Hy). lia.
  - intros e He. split.
    + apply sorted_codes_elem, Hin_num, He.
    + unfold list_datasets in He. cbn [snd] in He. apply in_firstn_in in He.
      apply in_map_iff in He as (code & <- & _). reflexivity.
  - intros c Hc Hnot n Hn. rewrite example_numbers in Hnot, Hn.
    apply sorted_codes_elem in Hc.
    rewrite <- (firstn_skipn 10 (sorted_codes (DATASET_SUMMARY t))) in Hc.
    apply in_app_or in Hc as [Hc|Hc]; [contradiction|].
    pose proof (StronglySorted_app_1_elem_of _ _ _ n c Hsorted) as Hle.
    rewrite !list_elem_of_In in Hle. specialize (Hle Hn Hc).
    assert (n <> c) by (intros ->; contradiction). lia.
  - intros Hint Hzero e He.
    pose proof (proj1 (sorted_codes_elem _ _) (Hin_num _ e He)) as Hsum.
    destruct (dataset_code_is_indexed fs t0 _ Hint Hzero Hsum) as [[c i] Hix].
    destruct (load_datasets_consistent fs t0) as [Hidx _].
    destruct (Hidx _ _ _ Hix) as (Heq & Hrow).
    exists c, i. split; [exact Hix|]. split; [lia|exact Hrow].
Qed.

Lemma list_datasets_examples_witness :
  List.map example_case_number
    (snd (list_datasets (fst (_load_ndap_datasets overlap_fs empty_tables)))) = [100; 101] /\
  (exists c i,
    CASE_INDEX (fst (_load_ndap_datasets overlap_fs empty_tables)) !! 101 = Some (c, i) /\
    c + i = 101) /\
  List.map example_case_number
    (snd (list_datasets (fst (_load_ndap_datasets labelled_fs empty_tables)))) = [100] /\
  CASE_INDEX (fst (_load_ndap_datasets labelled_fs empty_tables)) !! 100 = None.
Proof.
  split; [reflexivity|]. split; [|split; reflexivity].
  destruct (list_datasets_examples overlap_fs empty_tables empty_tables)
    as (_ & _ & _ & _ & _ & Hix).
  destruct (Hix eq_refl) with (e := {| example_case_number := 101; maps_to := "101/row0" |})
    as (c & i & Hc & Hsum & _).
  - assert (Hall : Forall (fun d => LInt 0 ∈ labels (snd d)) (parsed_datasets overlap_fs)).
    { apply (bool_decide_eq_true_1
               (Forall (fun d => LInt 0 ∈ labels (snd d)) (parsed_datasets overlap_fs))).
      reflexivity. }
    intros d Hd. rewrite Forall_forall in Hall. apply Hall, list_elem_of_In, Hd.
  - right. left. reflexivity.
  - exists c, i. split; assumption.
Defined.

(** ** What the handlers do not depend on *)

Lemma lookup_case_same_details (env env' : Env) (t : Tables) (q : CaseQuery) :
  REPORTLAB_OK env' = REPORTLAB_OK env ->
  path_exists env' = path_exists env ->
  lookup_details env' t q = lookup_details env t q ->
  lookup_case env' t q = lookup_case env t q.
Proof. intros Hrl Hex Hld. unfold lookup_case. rewrite Hrl, Hex, Hld. reflexivity. Qed.

(** X20. The scraper is consulted only as the last resort: when the
    override table or the index has the case number, or when mock mode is on,
    the lookup handler's result is the same whatever the scraper is or does;
    and when the override table or the index has the case number, the result
    does not depend on the mock flag either. The download handler never
    consults the scraper. *)
Theorem scraper_is_last_resort (env : Env) (t : Tables) (q : CaseQuery) :
  (no_details (_dataset_lookup_by_case (overrides env) t (case_number q)) = false \/
   USE_MOCK env = true ->
   forall fetch, lookup_case (with_scraper fetch env) t q = lookup_case env t q) /\
  (no_details (_dataset_lookup_by_case (overrides env) t (case_number q)) = false ->
   forall b, lookup_case (with_mock b env) t q = lookup_case env t q) /\
  (forall fetch fname, dl_file (with_scraper fetch env) t fname = dl_file env t fname).
Proof.
  split; [|split].
  - intros Hcase fetch. apply lookup_case_same_details; try reflexivity.
    unfold lookup_details. cbn [with_scraper overrides USE_MOCK fetch_case_details].
    destruct Hcase as [Hfound|Hmock].
    + rewrite Hfound. reflexivity.
    + rewrite Hmock. reflexivity.
  - intros Hfound b. apply lookup_case_same_details; try reflexivity.
    unfold lookup_details. cbn [with_mock overrides USE_MOCK fetch_case_details].
    rewrite Hfound. reflexivity.
  - intros fetch fname. reflexivity.
Qed.

Lemma scraper_is_last_resort_witness :
  lookup_case (with_scraper (Some (fun _ _ _ _ => Raises "captcha required")) env_mock)
    status_example_tables query_77
    = lookup_case env_mock status_example_tables query_77 /\
  lookup_case (with_mock false env_mock) status_example_tables query_100
    = lookup_case env_mock status_example_tables query_100.
Proof.
  destruct (scraper_is_last_resort env_mock status_example_tables query_77) as (Hs & _ & _).
  destruct (scraper_is_last_resort env_mock status_example_tables query_100) as (_ & Hm & _).
  split; [apply Hs; right; reflexivity|apply Hm; reflexivity].
Defined.

(** ** Instances *)

Lemma judgment_name_round_trip_witness :
  judgment_number "judgment_8152.pdf" = Some 8152 /\
  dl_file env_mock shadowed_tables "judgment_8152.pdf"
    <> Raise (HTTPException 404 "File not found").
Proof.
  destruct (judgment_name_round_trip 8152) as (_ & _ & Hnum & Hraise & _).
  split; [exact Hnum|].
  intros H. specialize (Hraise env_mock shadowed_tables _ eq_refl H). discriminate Hraise.
Defined.

Lemma report_name_round_trip_witness :
  parse_code "NDAP_REPORT_-12.csv" = Some (-12) /\
  parsed_entry ("NDAP_REPORT_-12.csv",
                Frame {| columns := ["Year"]; rows := range_index [[None]] |})
    = Some (-12, {| columns := ["Year"]; rows := range_index [[None]] |}).
Proof.
  destruct (report_name_round_trip (-12)) as (_ & Hcode & Hentry & _).
  split; [exact Hcode|]. apply Hentry; reflexivity.
Defined.

Lemma resolver_misses_iff_uncovered_witness :
  _dataset_lookup_by_case OVERRIDE_CASES (fst (_load_ndap_datasets overlap_fs empty_tables)) 103
    = None /\
  _dataset_lookup_by_case OVERRIDE_CASES (fst (_load_ndap_datasets labelled_fs empty_tables)) 100
    = None.
Proof.
  destruct (resolver_misses_iff_uncovered overlap_fs empty_tables OVERRIDE_CASES 103)
    as [Hmiss _].
  destruct (resolver_misses_iff_uncovered labelled_fs empty_tables OVERRIDE_CASES 100)
    as [Hown _].
  split.
  - apply (Hmiss eq_refl). split; [reflexivity|].
    assert (Hall : Forall (fun d => ~ covers d 103) (parsed_datasets overlap_fs)).
    { apply (bool_decide_eq_true_1
               (Forall (fun d => ~ covers d 103) (parsed_datasets overlap_fs))).
      reflexivity. }
    intros d Hd. rewrite Forall_forall in Hall. apply Hall, list_elem_of_In, Hd.
  - apply (Hown eq_refl). split; [reflexivity|].
    assert (Hall : Forall (fun d => ~ covers d 100) (parsed_datasets labelled_fs)).
    { apply (bool_decide_eq_true_1
               (Forall (fun d => ~ covers d 100) (parsed_datasets labelled_fs))).
      reflexivity. }
    intros d Hd. rewrite Forall_forall in Hall. apply Hall, list_elem_of_In, Hd.
Defined.
